(** * Fraud dashboard: mock scorer and CSV analytics

    A shallow embedding of the client-side logic of
    [src/dashboard/transaction-test.js]: the mock fraud scorer
    ([generateEnhancedMockPrediction], [generateLLMExplanation]), the
    transaction history kept in [localStorage]
    ([saveToTransactionHistory], [saveToEnhancedTransactionHistory]) and the
    helpers of the CSV analytics report ([displayDataQuality],
    [calculateDataConsistency], [calculateDataUniqueness], [inferDataType],
    [calculateMedian], [calculateCorrelationMatrix], [calculateCorrelation]).

    Numbers.  A JavaScript number is modelled by [JS.number]: the three
    special values [NaN], [+Infinity], [-Infinity], and the finite values as
    exact rationals.  Every IEEE double is a rational, so every input the
    code can receive is covered; what is idealised is the rounding of the
    arithmetic and the sign of zero (there is one zero, it behaves as +0).

    Effects.  [Math.random] reads a realization [draws : nat -> Q] of the
    random source through a counter that is threaded through the scorer;
    [localStorage] is a finite map from keys to the stored JSON values;
    an array that the code sorts in place is returned next to the result;
    a [TypeError] is a [Throw] completion. *)

From Stdlib Require Import ZArith QArith Qround Lqa Lia List String Ascii Bool.
From Stdlib Require Import Sorting Permutation.
From stdpp Require Import gmap strings.

Import ListNotations.
Local Open Scope string_scope.
Local Open Scope Q_scope.

(** ** JavaScript values used by the code *)

Module JS.

Inductive number : Type :=
| NaN
| PosInf
| NegInf
| Fin (q : Q).

Definition of_Z (z : Z) : number := Fin (inject_Z z).
Definition of_nat (n : nat) : number := of_Z (Z.of_nat n).

Definition isNaN (a : number) : bool :=
  match a with NaN => true | _ => false end.

Definition neg (a : number) : number :=
  match a with
  | NaN => NaN
  | PosInf => NegInf
  | NegInf => PosInf
  | Fin x => Fin (- x)
  end.

(** [a + b] *)
Definition add (a b : number) : number :=
  match a, b with
  | NaN, _ | _, NaN => NaN
  | PosInf, NegInf | NegInf, PosInf => NaN
  | PosInf, _ | _, PosInf => PosInf
  | NegInf, _ | _, NegInf => NegInf
  | Fin x, Fin y => Fin (x + y)
  end.

(** [a - b] *)
Definition sub (a b : number) : number := add a (neg b).

Definition inf_of_sign (c : comparison) : number :=
  match c with Eq => NaN | Gt => PosInf | Lt => NegInf end.

(** [a * b] *)
Definition mul (a b : number) : number :=
  match a, b with
  | NaN, _ | _, NaN => NaN
  | Fin x, Fin y => Fin (x * y)
  | Fin x, PosInf | PosInf, Fin x => inf_of_sign (x ?= 0)
  | Fin x, NegInf | NegInf, Fin x => inf_of_sign (0 ?= x)
  | PosInf, PosInf | NegInf, NegInf => PosInf
  | PosInf, NegInf | NegInf, PosInf => NegInf
  end.

(** [a / b]: [0 / 0] is [NaN], a non-zero number over zero is infinite. *)
Definition div (a b : number) : number :=
  match a, b with
  | NaN, _ | _, NaN => NaN
  | Fin x, Fin y =>
      match y ?= 0 with
      | Eq => inf_of_sign (x ?= 0)
      | _ => Fin (x / y)
      end
  | Fin _, _ => Fin 0
  | PosInf, Fin y => if Qle_bool 0 y then PosInf else NegInf
  | NegInf, Fin y => if Qle_bool 0 y then NegInf else PosInf
  | _, _ => NaN
  end.

(** The order of numbers; a comparison with [NaN] has no outcome. *)
Definition compare (a b : number) : option comparison :=
  match a, b with
  | NaN, _ | _, NaN => None
  | Fin x, Fin y => Some (x ?= y)
  | PosInf, PosInf | NegInf, NegInf => Some Eq
  | NegInf, _ | _, PosInf => Some Lt
  | PosInf, _ | _, NegInf => Some Gt
  end.

(** [a < b], [a > b], [a <= b], [a >= b], [a === b] *)
Definition lt (a b : number) : bool :=
  match compare a b with Some Lt => true | _ => false end.
Definition gt (a b : number) : bool := lt b a.
Definition le (a b : number) : bool :=
  match compare a b with Some Lt | Some Eq => true | _ => false end.
Definition ge (a b : number) : bool := le b a.
Definition strict_eq (a b : number) : bool :=
  match compare a b with Some Eq => true | _ => false end.

(** [Math.min(a, b)] and [Math.max(a, b)]: [NaN] when an argument is. *)
Definition Math_min (a b : number) : number :=
  if isNaN a || isNaN b then NaN else if lt b a then b else a.
Definition Math_max (a b : number) : number :=
  if isNaN a || isNaN b then NaN else if lt a b then b else a.

(** [Math.floor(a)] and [Math.round(a)] (halves round up). *)
Definition Math_floor (a : number) : number :=
  match a with Fin x => of_Z (Qfloor x) | _ => a end.
Definition Math_round (a : number) : number :=
  match a with Fin x => of_Z (Qfloor (x + (1 # 2))) | _ => a end.

(** [ToNumber(undefined)] *)
Definition undefined_to_number : number := NaN.

(** [l[n]] for an array [l] and a number [n]: an element when [n] is one of
    the array's indices, [undefined] ([None]) otherwise. *)
Definition index {A : Type} (l : list A) (n : number) : option A :=
  match n with
  | Fin x =>
      if Qeq_bool x (inject_Z (Qfloor x)) && (0 <=? Qfloor x)%Z
      then l !! Z.to_nat (Qfloor x)
      else None
  | _ => None
  end.

(** An array element used as a number: [ToNumber(undefined)] when the
    read fell outside the array. *)
Definition element (v : option number) : number :=
  match v with Some a => a | None => undefined_to_number end.

(** The integer part of a rational, towards zero. *)
Definition Qtruncate (x : Q) : Z :=
  if Qle_bool 0 x then Qfloor x else Qceiling x.

(** [a % b]: the remainder has the sign of the dividend. *)
Definition rem (a b : number) : number :=
  match a, b with
  | NaN, _ | _, NaN => NaN
  | PosInf, _ | NegInf, _ => NaN
  | Fin _, PosInf | Fin _, NegInf => a
  | Fin x, Fin y =>
      if Qeq_bool y 0 then NaN
      else Fin (x - y * inject_Z (Qtruncate (x / y)))
  end.

(** A completion: a value, or a thrown error. *)
Inductive completion (A : Type) : Type :=
| Normal (a : A)
| Throw (e : string).
Arguments Normal {A} a.
Arguments Throw {A} e.

End JS.

Declare Scope js_scope.
Delimit Scope js_scope with js.
Bind Scope js_scope with JS.number.
Infix "+" := JS.add : js_scope.
Infix "-" := JS.sub : js_scope.
Infix "*" := JS.mul : js_scope.
Infix "/" := JS.div : js_scope.
Infix "<" := JS.lt : js_scope.
Infix ">" := JS.gt : js_scope.
Infix "<=" := JS.le : js_scope.
Infix ">=" := JS.ge : js_scope.
Infix "===" := JS.strict_eq (at level 70, no associativity) : js_scope.
Infix "%%" := JS.rem (at level 40, left associativity) : js_scope.

(** The monad of the code that calls [Math.random]: the state is the number
    of draws consumed so far, and a computation may throw. *)

Definition Rand (A : Type) : Type := nat -> JS.completion (A * nat).

Definition ret {A : Type} (a : A) : Rand A := fun k => JS.Normal (a, k).

Definition bind {A B : Type} (c : Rand A) (f : A -> Rand B) : Rand B :=
  fun k =>
    match c k with
    | JS.Normal (a, k') => f a k'
    | JS.Throw e => JS.Throw e
    end.

Definition throw {A : Type} (e : string) : Rand A := fun _ => JS.Throw e.

Declare Scope rand_scope.
Delimit Scope rand_scope with rand.
Bind Scope rand_scope with Rand.
Notation "'let*' x ':=' c 'in' k" := (bind c (fun x => k))
  (at level 10, x pattern, c at level 100, k at level 200) : rand_scope.

(** [l.push(x)] *)
Definition push {A : Type} (l : list A) (x : A) : list A := (l ++ [x])%list.

(** ** The mock fraud scorer *)

(** The object built by [checkTransaction] from the form. *)
Record FormData : Type := {
  customer_id : string;
  account_age_days : JS.number;
  transaction_amount : JS.number;
  channel : string;
  kyc_verified : bool;
  timestamp : string
}.

(** The object returned by [generateEnhancedMockPrediction];
    [llm_explanation] is [None] when it is [undefined]. *)
Record Prediction : Type := {
  is_fraud : bool;
  prediction : JS.number;
  fraud : bool;
  risk_score : JS.number;
  confidence : JS.number;
  rules_triggered : list string;
  llm_explanation : option string
}.

(** [ToString] of a number, in a template literal or before a string
    concatenation; the rendering of a finite number is the host's. *)
Definition Number_toString (finite_toString : Q -> string) (n : JS.number)
  : string :=
  match n with
  | JS.NaN => "NaN"
  | JS.PosInf => "Infinity"
  | JS.NegInf => "-Infinity"
  | JS.Fin q => finite_toString q
  end.

(** [o[key]] for an object literal [o] *)
Fixpoint property {A : Type} (o : list (string * A)) (key : string)
  : option A :=
  match o with
  | [] => None
  | (k, v) :: o' => if String.eqb k key then Some v else property o' key
  end.

Section Scorer.

Variable draws : nat -> Q.
Variable finite_toString : Q -> string.

Let str : JS.number -> string := Number_toString finite_toString.

(** [Math.random()] *)
Definition Math_random : Rand JS.number :=
  fun k => JS.Normal (JS.Fin (draws k), S k).

(** [isFraud || Math.random() > bound]: no draw when [isFraud] holds. *)
Definition or_random_above (isFraud : bool) (bound : JS.number) : Rand bool :=
  if isFraud then ret true
  else (let* r := Math_random in ret (r > bound)%js)%rand.

Definition explanations (formData : FormData)
  : list (string * list string) :=
  [ ("fraud",
     [ "This transaction exhibits suspicious patterns including "
       ++ (if (transaction_amount formData > JS.Fin 10000)%js
           then "unusually high amount" else "suspicious timing")
       ++ " and "
       ++ (if (account_age_days formData < JS.Fin 30)%js
           then "new account activity" else "unverified channel usage")
       ++ ".";
       "Multiple risk factors detected: "
       ++ (if kyc_verified formData then "KYC verified but " else "")
       ++ "transaction from " ++ channel formData ++ " channel with "
       ++ str (account_age_days formData)
       ++ "-day old account raises security concerns.";
       "Fraud pattern matched: " ++ str (transaction_amount formData)
       ++ " amount transaction from "
       ++ (if (account_age_days formData < JS.Fin 7)%js
           then "very new" else "relatively new")
       ++ " account via " ++ channel formData ++ "." ]);
    ("legitimate",
     [ "Transaction appears legitimate with normal patterns: "
       ++ (if kyc_verified formData
           then "KYC verified" else "standard verification")
       ++ " and consistent account behavior.";
       "No significant risk factors detected. Transaction amount and channel usage align with typical customer behavior for "
       ++ str (account_age_days formData) ++ "-day old account.";
       "Standard transaction pattern: Amount within expected range and verified through "
       ++ channel formData ++ " channel." ]) ].

Definition generateLLMExplanation (formData : FormData) (isFraud : bool)
  (riskScore : JS.number) : Rand (option string) :=
  let type := if isFraud then "fraud" else "legitimate" in
  match property (explanations formData) type with
  | None => throw "TypeError"
  | Some pool =>
      (let* r := Math_random in
       let randomExplanation :=
         JS.index pool (JS.Math_floor (r * JS.of_nat (length pool))%js) in
       ret randomExplanation)%rand
  end.

Definition generateEnhancedMockPrediction (formData : FormData)
  : Rand Prediction :=
  (let isFraud := false in
   let* r := Math_random in
   let riskScore := (r * JS.Fin 0.3 + JS.Fin 0.7)%js in
   let rulesTriggered : list string := [] in
   let* (isFraud, rulesTriggered, riskScore) :=
     (if (transaction_amount formData > JS.Fin 10000)%js then
        let* r := Math_random in
        ret ((r > JS.Fin 0.3)%js,
             push rulesTriggered "Amount exceeds threshold",
             (riskScore + JS.Fin 0.2)%js)
      else ret (isFraud, rulesTriggered, riskScore)) in
   let* (isFraud, rulesTriggered, riskScore) :=
     (if (account_age_days formData < JS.Fin 30)%js then
        let* isFraud := or_random_above isFraud (JS.Fin 0.6) in
        ret (isFraud,
             push rulesTriggered "New account with limited history",
             (riskScore + JS.Fin 0.15)%js)
      else ret (isFraud, rulesTriggered, riskScore)) in
   let* (isFraud, rulesTriggered, riskScore) :=
     (if negb (kyc_verified formData) then
        let* isFraud := or_random_above isFraud (JS.Fin 0.5) in
        ret (isFraud,
             push rulesTriggered "KYC verification pending",
             (riskScore + JS.Fin 0.1)%js)
      else ret (isFraud, rulesTriggered, riskScore)) in
   let* (isFraud, rulesTriggered, riskScore) :=
     (if String.eqb (channel formData) "mobile"
         && (transaction_amount formData > JS.Fin 5000)%js then
        let* isFraud := or_random_above isFraud (JS.Fin 0.4) in
        ret (isFraud,
             push rulesTriggered "High mobile transaction",
             (riskScore + JS.Fin 0.1)%js)
      else ret (isFraud, rulesTriggered, riskScore)) in
   let riskScore :=
     JS.Math_min (JS.Fin 0.95) (JS.Math_max (JS.Fin 0.05) riskScore) in
   let* explanation := generateLLMExplanation formData isFraud riskScore in
   ret {| is_fraud := isFraud;
          prediction := if isFraud then JS.Fin 1 else JS.Fin 0;
          fraud := isFraud;
          risk_score := riskScore;
          confidence := riskScore;
          rules_triggered := rulesTriggered;
          llm_explanation := explanation |})%rand.

End Scorer.

(** ** JSON values and the transaction history in [localStorage] *)

#[local] Unset Elimination Schemes.
Inductive value : Type :=
| Undefined
| Null
| Bool (b : bool)
| Num (n : JS.number)
| Str (s : string)
| Arr (items : list value)
| Obj (fields : list (string * value)).
#[local] Set Elimination Schemes.

(** An object: its properties in insertion order. *)
Definition object : Type := list (string * value).

(** [o.key]: [undefined] when the object has no such property. *)
Definition get (o : object) (key : string) : value :=
  match property o key with Some v => v | None => Undefined end.

(** [ToBoolean] *)
Definition truthy (v : value) : bool :=
  match v with
  | Undefined | Null => false
  | Bool b => b
  | Num JS.NaN => false
  | Num (JS.Fin q) => negb (Qeq_bool q 0)
  | Num _ => true
  | Str s => negb (String.eqb s "")
  | Arr _ | Obj _ => true
  end.

(** [a || b] *)
Definition or_else (a b : value) : value := if truthy a then a else b.

(** [v === n] for a number [n], [v === true], [v !== undefined] *)
Definition is_number (v : value) (n : JS.number) : bool :=
  match v with Num a => (a === n)%js | _ => false end.
Definition is_true (v : value) : bool :=
  match v with Bool true => true | _ => false end.
Definition is_defined (v : value) : bool :=
  match v with Undefined => false | _ => true end.

(** [JSON.parse(JSON.stringify(v))]: a property whose value is [undefined]
    is dropped, [undefined] in an array and a number that is not finite
    become [null]. *)
Fixpoint JSON_roundtrip (v : value) : value :=
  match v with
  | Undefined => Null
  | Num (JS.Fin _) => v
  | Num _ => Null
  | Arr items => Arr (List.map JSON_roundtrip items)
  | Obj fields =>
      Obj (List.flat_map
             (fun kv =>
                match kv with
                | (_, Undefined) => []
                | (k, w) => [(k, JSON_roundtrip w)]
                end) fields)
  | _ => v
  end.

(** [localStorage]: the JSON value stored under each key. *)
Abbreviation storage := (gmap string value).

(** [JSON.parse(localStorage.getItem(key) || "[]")] *)
Definition getItem_parsed (ls : storage) (key : string) : value :=
  match ls !! key with Some v => v | None => Arr [] end.

(** [localStorage.setItem(key, JSON.stringify(v))] *)
Definition setItem_json (ls : storage) (key : string) (v : value) : storage :=
  <[key := JSON_roundtrip v]> ls.

Section History.

(** [Date.now()] and [new Date().toISOString()] at the time of the call. *)
Variable now : Q.
Variable nowISO : string.
Variable finite_toString : Q -> string.

(** [result.is_fraud || result.prediction === 1 || result.fraud === true] *)
Definition fraud_flag (result : object) : value :=
  or_else (get result "is_fraud")
    (Bool (is_number (get result "prediction") (JS.Fin 1)
           || is_true (get result "fraud"))).

(** [saveToEnhancedTransactionHistory], lines 738-764; the refresh of the
    history table that follows the write is left out. *)
Definition saveToEnhancedTransactionHistory (formData result : object)
  (ls : storage) : JS.completion storage :=
  match getItem_parsed ls "transactionHistory" with
  | Arr history =>
      let transactionRecord :=
        Obj [ ("id", Num (JS.Fin now));
              ("timestamp", Str nowISO);
              ("customer_id", get formData "customer_id");
              ("transaction_amount", get formData "transaction_amount");
              ("account_age_days", get formData "account_age_days");
              ("channel", get formData "channel");
              ("kyc_verified", get formData "kyc_verified");
              ("is_fraud", fraud_flag result);
              ("risk_score",
               or_else (get result "risk_score") (get result "confidence"));
              ("confidence", get result "confidence");
              ("status",
               Str (if truthy (fraud_flag result)
                    then "Fraud" else "Legitimate"));
              ("llm_explanation",
               or_else (get result "llm_explanation") (get result "reason"));
              ("rules_triggered",
               or_else (get result "rules_triggered") (Arr [])) ] in
      let history := transactionRecord :: history in
      JS.Normal (setItem_json ls "transactionHistory" (Arr history))
  | _ => JS.Throw "TypeError"
  end.

(** [saveToTransactionHistory], lines 1048-1084. *)
Definition saveToTransactionHistory (formData result : object)
  (ls : storage) : JS.completion storage :=
  match getItem_parsed ls "transactionHistory" with
  | Arr history =>
      let transactionRecord :=
        Obj [ ("id",
               or_else (get result "transaction_id") (Num (JS.Fin now)));
              ("timestamp",
               or_else (get result "timestamp") (Str nowISO));
              ("transactionAmount",
               or_else (get formData "transaction_amount")
                 (get formData "transactionAmount"));
              ("kycVerified",
               if is_defined (get formData "kyc_verified")
               then get formData "kyc_verified"
               else get formData "kycVerified");
              ("accountAge",
               or_else (get formData "account_age_days")
                 (get formData "accountAge"));
              ("channel", get formData "channel");
              ("is_fraud", get result "is_fraud");
              ("fraud_probability", get result "fraud_probability");
              ("risk_score", get result "risk_score");
              ("confidence", get result "fraud_probability");
              ("reason", get result "reason");
              ("rules_triggered", get result "rules_triggered");
              ("status",
               Str (if truthy (get result "is_fraud")
                    then "Fraud" else "Legitimate")) ] in
      let history := transactionRecord :: history in
      let history :=
        if (100 <? length history)%nat then take 100 history else history in
      JS.Normal (setItem_json ls "transactionHistory" (Arr history))
  | _ => JS.Throw "TypeError"
  end.

(** The second declaration of [saveToTransactionHistory], lines 2668-2690,
    which is the one in force once the whole script is loaded. *)
Definition saveToTransactionHistory_redeclared (formData result : object)
  (ls : storage) : JS.completion storage :=
  match getItem_parsed ls "transactionHistory" with
  | Arr history =>
      let transactionRecord :=
        Obj [ ("id",
               Str ("T/" ++ Number_toString finite_toString (JS.Fin now)));
              ("timestamp", Str nowISO);
              ("customer_id", get formData "customer_id");
              ("transaction_amount", get formData "transaction_amount");
              ("kyc_verified", get formData "kyc_verified");
              ("account_age_days", get formData "account_age_days");
              ("channel", get formData "channel");
              ("is_fraud", fraud_flag result);
              ("status",
               Str (if truthy (fraud_flag result)
                    then "Fraud" else "Legitimate")) ] in
      let history := transactionRecord :: history in
      JS.Normal (setItem_json ls "transactionHistory" (Arr history))
  | _ => JS.Throw "TypeError"
  end.

End History.

(** The history stored in [localStorage], when it is an array. *)
Definition stored_history (ls : storage) : option (list value) :=
  match ls !! "transactionHistory" with
  | Some (Arr history) => Some history
  | _ => None
  end.

(** ** Strings read as numbers *)

Definition is_space (c : ascii) : bool :=
  let n := nat_of_ascii c in
  (n =? 32)%nat || ((9 <=? n)%nat && (n <=? 13)%nat).

(** [s.trimStart()] and [s.trim()], for the ASCII white space. *)
Fixpoint trimStart (s : string) : string :=
  match s with
  | String c s' => if is_space c then trimStart s' else s
  | EmptyString => s
  end.

Definition string_reverse (s : string) : string :=
  string_of_list_ascii (List.rev (list_ascii_of_string s)).

Definition trim (s : string) : string :=
  string_reverse (trimStart (string_reverse (trimStart s))).

(** The value of a digit in a radix up to 16. *)
Definition digit_value (radix : Z) (c : ascii) : option Z :=
  let n := Z.of_nat (nat_of_ascii c) in
  let d :=
    if (48 <=? n)%Z && (n <=? 57)%Z then Some (n - 48)%Z
    else if (97 <=? n)%Z && (n <=? 102)%Z then Some (n - 87)%Z
    else if (65 <=? n)%Z && (n <=? 70)%Z then Some (n - 55)%Z
    else None in
  match d with
  | Some v => if (v <? radix)%Z then Some v else None
  | None => None
  end.

(** The longest run of digits at the head of [s]: its value, the number of
    digits, and the rest of the string. *)
Fixpoint scan_digits (radix : Z) (s : string) (acc : Z) (count : nat)
  : Z * nat * string :=
  match s with
  | String c s' =>
      match digit_value radix c with
      | Some d => scan_digits radix s' (radix * acc + d)%Z (S count)
      | None => (acc, count, s)
      end
  | EmptyString => (acc, count, s)
  end.

Definition starts_with (p s : string) : bool :=
  String.eqb (String.substring 0 (String.length p) s) p.

Definition drop_chars (n : nat) (s : string) : string :=
  String.substring n (String.length s - n) s.

(** The exponent part [e], [e+] or [e-] followed by digits, when [s] starts
    with one: the power of ten and the rest. *)
Definition scan_exponent (s : string) : option (Z * string) :=
  match s with
  | String c s1 =>
      if Ascii.eqb c "e" || Ascii.eqb c "E" then
        let '(sign, s2) :=
          match s1 with
          | String "+" r => (1%Z, r)
          | String "-" r => ((-1)%Z, r)
          | _ => (1%Z, s1)
          end in
        let '(e, n, rest) := scan_digits 10 s2 0 0 in
        if (n =? 0)%nat then None else Some ((sign * e)%Z, rest)
      else None
  | EmptyString => None
  end.

(** The longest prefix of [s] that is a signed decimal literal
    ([Infinity], digits with an optional fraction and exponent): its
    value and the rest of the string. *)
Definition scan_decimal (s : string) : option (JS.number * string) :=
  let '(negative, s1) :=
    match s with
    | String "+" r => (false, r)
    | String "-" r => (true, r)
    | _ => (false, s)
    end in
  let signed (v : JS.number) := if negative then JS.neg v else v in
  if starts_with "Infinity" s1 then Some (signed JS.PosInf, drop_chars 8 s1)
  else
    let '(ip, ic, s2) := scan_digits 10 s1 0 0 in
    let '(fp, fc, dot, s3) :=
      match s2 with
      | String "." r =>
          let '(fp, fc, r') := scan_digits 10 r 0 0 in (fp, fc, true, r')
      | _ => (0%Z, 0%nat, false, s2)
      end in
    if (ic =? 0)%nat && (fc =? 0)%nat then None
    else
      let mantissa := inject_Z ip + inject_Z fp / inject_Z (10 ^ Z.of_nat fc) in
      match scan_exponent s3 with
      | Some (e, rest) => Some (signed (JS.Fin (mantissa * 10 ^ e)), rest)
      | None => Some (signed (JS.Fin mantissa), s3)
      end.

(** A literal [0x...], [0o...] or [0b...] taking the whole string. *)
Definition scan_non_decimal (s : string) : option JS.number :=
  match s with
  | String "0" (String c r) =>
      let radix :=
        if Ascii.eqb c "x" || Ascii.eqb c "X" then Some 16%Z
        else if Ascii.eqb c "o" || Ascii.eqb c "O" then Some 8%Z
        else if Ascii.eqb c "b" || Ascii.eqb c "B" then Some 2%Z
        else None in
      match radix with
      | Some b =>
          match scan_digits b r 0 0 with
          | (v, S _, EmptyString) => Some (JS.of_Z v)
          | _ => None
          end
      | None => None
      end
  | _ => None
  end.

(** [Number(s)] for a string [s], as [isNaN(s)] converts it. *)
Definition ToNumber (s : string) : JS.number :=
  let t := trim s in
  if String.eqb t "" then JS.Fin 0
  else
    match scan_non_decimal t with
    | Some v => v
    | None =>
        match scan_decimal t with
        | Some (v, EmptyString) => v
        | _ => JS.NaN
        end
    end.

(** [parseFloat(v)] for a property [v] of a row; [undefined] is [None]. *)
Definition parseFloat (v : option string) : JS.number :=
  match v with
  | Some s =>
      match scan_decimal (trimStart s) with
      | Some (n, _) => n
      | None => JS.NaN
      end
  | None => JS.NaN
  end.

(** ** The CSV analytics report *)

(** A row of the parsed CSV: an object from header to cell text. *)
Abbreviation row := (gmap string string).

(** The object returned by [parseCSV]. *)
Record Dataset : Type := {
  headers : list string;
  data : list row;
  rawText : string
}.

(** [!v || v.trim() === ""] for a cell [v]; [undefined] is [None]. *)
Definition is_blank (v : option string) : bool :=
  match v with
  | None => true
  | Some s => String.eqb s "" || String.eqb (trim s) ""
  end.

(** [n.toFixed(digits)]; the rendering of a finite number is the host's. *)
Definition toFixed (finite_toFixed : Q -> nat -> string) (n : JS.number)
  (digits : nat) : string :=
  match n with
  | JS.NaN => "NaN"
  | JS.PosInf => "Infinity"
  | JS.NegInf => "-Infinity"
  | JS.Fin q => finite_toFixed q digits
  end.

(** [l.reduce((a, b, i) => f(a, b, i), init)] *)
Fixpoint reduce_from {A B : Type} (f : B -> A -> nat -> B) (i : nat)
  (l : list A) (acc : B) : B :=
  match l with
  | [] => acc
  | b :: l' => reduce_from f (S i) l' (f acc b i)
  end.

Definition reduce {A B : Type} (f : B -> A -> nat -> B) (l : list A)
  (init : B) : B :=
  reduce_from f 0 l init.

(** [l.sort(comparefn)] for a consistent [comparefn]: the stable sort, an
    element staying before the ones it does not compare greater than (a
    [NaN] outcome counts as zero). *)
Fixpoint sort_insert {A : Type} (comparefn : A -> A -> JS.number) (a : A)
  (l : list A) : list A :=
  match l with
  | [] => [a]
  | b :: l' =>
      if (comparefn a b > JS.Fin 0)%js
      then b :: sort_insert comparefn a l'
      else a :: l
  end.

Definition Array_sort {A : Type} (comparefn : A -> A -> JS.number)
  (l : list A) : list A :=
  List.fold_right (sort_insert comparefn) [] l.

(** The type names returned by [inferDataType]. *)
Inductive DataType : Type := Unknown | Numeric | Date | Text.

Record metric : Type := { label : string; value_of : value }.

Section Analytics.

(** The host's [Math.sqrt], [Date.parse] (whose accepted formats depend on
    the engine) and renderings of finite numbers. *)
Variable Math_sqrt : JS.number -> JS.number.
Variable Date_parse : string -> JS.number.
Variable finite_toString : Q -> string.
Variable finite_toFixed : Q -> nat -> string.

(** [calculateDataConsistency], lines 1974-1986. *)
Definition calculateDataConsistency (dataset : Dataset) : JS.number :=
  let consistentRows :=
    List.fold_left
      (fun consistentRows (r : row) =>
         let hasAllRequiredFields :=
           List.forallb (fun header => negb (is_blank (r !! header)))
             (headers dataset) in
         if hasAllRequiredFields then S consistentRows else consistentRows)
      (data dataset) 0%nat in
  JS.Math_round
    (JS.of_nat consistentRows / JS.of_nat (length (data dataset))
     * JS.Fin 100)%js.

(** [calculateDataUniqueness], lines 1989-1993.  [uniqueRows] reads the
    [length] property of a [Set]; a [Set] has a [size] but no [length], so
    the read yields [undefined] whatever the rows are, and the division
    converts it to a number. *)
Definition calculateDataUniqueness (dataset : Dataset) : JS.number :=
  let uniqueRows := JS.undefined_to_number in
  JS.Math_round
    (uniqueRows / JS.of_nat (length (data dataset)) * JS.Fin 100)%js.

(** [displayDataQuality], lines 1550-1586, up to the [metrics] array that
    is rendered into the page. *)
Definition displayDataQuality (dataset : Dataset) : list metric :=
  let totalCells :=
    (JS.of_nat (length (headers dataset))
     * JS.of_nat (length (data dataset)))%js in
  let emptyCells :=
    List.fold_left
      (fun count (r : row) =>
         (count
          + JS.of_nat
              (length
                 (List.filter (fun header => is_blank (r !! header))
                    (headers dataset))))%js)
      (data dataset) (JS.Fin 0) in
  let completeness :=
    toFixed finite_toFixed
      ((totalCells - emptyCells) / totalCells * JS.Fin 100)%js 2 in
  let consistency := calculateDataConsistency dataset in
  let uniqueness := calculateDataUniqueness dataset in
  [ {| label := "Data Completeness"; value_of := Str (completeness ++ "%") |};
    {| label := "Data Consistency";
       value_of := Str (Number_toString finite_toString consistency ++ "%") |};
    {| label := "Data Uniqueness";
       value_of := Str (Number_toString finite_toString uniqueness ++ "%") |};
    {| label := "Empty Cells"; value_of := Num emptyCells |} ].

(** The values that [displayColumnAnalysis] (lines 1593-1598) hands to
    [inferDataType]: the non-blank cells of a column, in row order. *)
Definition column_values (header : string) (rows : list row) : list string :=
  List.flat_map
    (fun r : row =>
       match r !! header with
       | Some v => if is_blank (Some v) then [] else [v]
       | None => []
       end) rows.

(** [inferDataType], lines 1996-2010. *)
Definition inferDataType (values : list string) : DataType :=
  if (length values =? 0)%nat then Unknown
  else
    let sample := take 100 values in
    let numericCount :=
      length
        (List.filter
           (fun v => negb (JS.isNaN (ToNumber v))
                     && negb (String.eqb (trim v) "")) sample) in
    let dateCount :=
      length
        (List.filter
           (fun v => negb (JS.isNaN (Date_parse v))
                     && negb (String.eqb (trim v) "")) sample) in
    if (JS.of_nat numericCount / JS.of_nat (length sample) > JS.Fin 0.8)%js
    then Numeric
    else if (JS.of_nat dateCount / JS.of_nat (length sample) > JS.Fin 0.8)%js
    then Date
    else Text.

(** [calculateMedian], lines 2013-2019.  [values.sort] sorts the caller's
    array in place and returns that same array: the second component is the
    array [values] as the call leaves it. *)
Definition calculateMedian (values : list JS.number)
  : JS.number * list JS.number :=
  let values := Array_sort (fun a b => (a - b)%js) values in
  let sorted := values in
  let mid := JS.Math_floor (JS.of_nat (length sorted) / JS.Fin 2)%js in
  let median :=
    if (JS.of_nat (length sorted) %% JS.Fin 2 === JS.Fin 0)%js
    then ((JS.element (JS.index sorted (mid - JS.Fin 1)%js)
           + JS.element (JS.index sorted mid))
          / JS.Fin 2)%js
    else JS.element (JS.index sorted mid) in
  (median, values).

(** [calculateCorrelation], lines 2047-2063. *)
Definition calculateCorrelation (x y : list JS.number) : JS.number :=
  if negb (length x =? length y)%nat || (length x =? 0)%nat then JS.Fin 0
  else
    let n := JS.of_nat (length x) in
    let sumX := reduce (fun a b _ => (a + b)%js) x (JS.Fin 0) in
    let sumY := reduce (fun a b _ => (a + b)%js) y (JS.Fin 0) in
    let sumXY :=
      reduce
        (fun a b i => (a + b * JS.element (JS.index y (JS.of_nat i)))%js)
        x (JS.Fin 0) in
    let sumX2 := reduce (fun a b _ => (a + b * b)%js) x (JS.Fin 0) in
    let sumY2 := reduce (fun a b _ => (a + b * b)%js) y (JS.Fin 0) in
    let numerator := (n * sumXY - sumX * sumY)%js in
    let denominator :=
      Math_sqrt
        ((n * sumX2 - sumX * sumX) * (n * sumY2 - sumY * sumY))%js in
    if (denominator === JS.Fin 0)%js then JS.Fin 0
    else (numerator / denominator)%js.

(** [data.map((row) => parseFloat(row[col])).filter((v) => !isNaN(v))] *)
Definition numeric_values (col : string) (rows : list row)
  : list JS.number :=
  List.filter (fun v => negb (JS.isNaN v))
    (List.map (fun r : row => parseFloat (r !! col)) rows).

(** [calculateCorrelationMatrix], lines 2022-2044. *)
Definition calculateCorrelationMatrix (columns : list string)
  (rows : list row) : list (list JS.number) :=
  imap
    (fun i col1 =>
       let values1 := numeric_values col1 rows in
       imap
         (fun j col2 =>
            if (i =? j)%nat then JS.Fin 1
            else
              let values2 := numeric_values col2 rows in
              calculateCorrelation values1 values2)
         columns)
    columns.

(** The numeric columns selected by [displayCorrelationAnalysis], lines
    1672-1677: the headers whose first non-blank cell reads as a number. *)
Definition numericColumns (dataset : Dataset) : list string :=
  List.filter
    (fun header =>
       match column_values header (data dataset) with
       | [] => false
       | v :: _ => negb (JS.isNaN (ToNumber v))
       end)
    (headers dataset).

End Analytics.

(** [m[i][j]] *)
Definition entry (m : list (list JS.number)) (i j : nat)
  : option JS.number :=
  match m !! i with
  | Some r => r !! j
  | None => None
  end.

(** ** The trigger conditions of the scorer's four rules

    The conditions as the rule set names them, the rules they append and
    the amounts they add to the risk value, for the statements below. *)

Definition rule_amount (formData : FormData) : bool :=
  (transaction_amount formData > JS.Fin 10000)%js.
Definition rule_new_account (formData : FormData) : bool :=
  (account_age_days formData < JS.Fin 30)%js.
Definition rule_kyc (formData : FormData) : bool :=
  negb (kyc_verified formData).
Definition rule_mobile (formData : FormData) : bool :=
  String.eqb (channel formData) "mobile"
  && (transaction_amount formData > JS.Fin 5000)%js.

Definition expected_rules (formData : FormData) : list string :=
  ((if rule_amount formData then ["Amount exceeds threshold"] else [])
   ++ (if rule_new_account formData
       then ["New account with limited history"] else [])
   ++ (if rule_kyc formData then ["KYC verification pending"] else [])
   ++ (if rule_mobile formData then ["High mobile transaction"] else []))%list.

Definition raise (triggered : bool) (amount : Q) (riskScore : JS.number)
  : JS.number :=
  if triggered then (riskScore + JS.Fin amount)%js else riskScore.

(** The risk value before it is clamped, for the baseline draw [r]. *)
Definition raw_score (r : Q) (formData : FormData) : JS.number :=
  raise (rule_mobile formData) 0.1
    (raise (rule_kyc formData) 0.1
       (raise (rule_new_account formData) 0.15
          (raise (rule_amount formData) 0.2
             (JS.Fin r * JS.Fin 0.3 + JS.Fin 0.7)%js))).

Definition clamp (riskScore : JS.number) : JS.number :=
  JS.Math_min (JS.Fin 0.95) (JS.Math_max (JS.Fin 0.05) riskScore).

(** The random source stays in [0, 1), as [Math.random] does. *)
Definition unit_interval (draws : nat -> Q) : Prop :=
  forall n, 0 <= draws n < 1.

(** ** Type inference as the specification words it *)

(** [!isNaN(v) && v.trim() !== ""] and its counterpart for dates. *)
Definition reads_as_number (v : string) : bool :=
  negb (JS.isNaN (ToNumber v)) && negb (String.eqb (trim v) "").
Definition reads_as_date (Date_parse : string -> JS.number) (v : string)
  : bool :=
  negb (JS.isNaN (Date_parse v)) && negb (String.eqb (trim v) "").

Definition count (p : string -> bool) (l : list string) : nat :=
  length (List.filter p l).

(** The classification as specified: Numeric when at least 80% of the
    sampled values read as numbers, otherwise Date when at least 80% read
    as dates, otherwise Text. *)
Definition inferDataType_as_specified (Date_parse : string -> JS.number)
  (values : list string) : DataType :=
  let sample := take 100 values in
  if (4 * length sample <=? 5 * count reads_as_number sample)%nat
  then Numeric
  else if (4 * length sample
           <=? 5 * count (reads_as_date Date_parse) sample)%nat
  then Date
  else Text.

(** The classification with the thresholds strict and the empty sample
    set apart. *)
Definition classify_sample (Date_parse : string -> JS.number)
  (sample : list string) : DataType :=
  match sample with
  | [] => Unknown
  | _ =>
      if (4 * length sample <? 5 * count reads_as_number sample)%nat
      then Numeric
      else if (4 * length sample
               <? 5 * count (reads_as_date Date_parse) sample)%nat
      then Date
      else Text
  end.

(** The order in which a sorted array of numbers stands, the comparator
    [(a, b) => a - b] that [calculateMedian] sorts by, and the numbers it
    is meant for. *)
Definition ascending (a b : JS.number) : Prop := (a <= b)%js = true.
Abbreviation by_difference := (fun a b : JS.number => (a - b)%js).
Abbreviation not_NaN := (fun v : JS.number => JS.isNaN v = false).

(** A square root for the samples: exact on the squares of rationals with
    up to twelve decimals, rounded down to twelve decimals otherwise. *)
Definition sqrt_12_digits (a : JS.number) : JS.number :=
  match a with
  | JS.Fin q =>
      if Qle_bool 0 q
      then JS.Fin (Z.sqrt (Qnum q * Z.pos (Qden q) * 10 ^ 24)
                   # (Qden q * 10 ^ 12))
      else JS.NaN
  | JS.PosInf => JS.PosInf
  | _ => JS.NaN
  end.

(** ** Sample inputs *)

Definition half_draws : nat -> Q := fun _ => 1 # 2.
Definition plain_toString : Q -> string := fun _ => "n".

(** An input that meets the four trigger conditions. *)
Definition risky_form : FormData :=
  {| customer_id := "C-1";
     account_age_days := JS.Fin 5;
     transaction_amount := JS.Fin 75000;
     channel := "mobile";
     kyc_verified := false;
     timestamp := "2025-11-01T03:00" |}.

(** An input that meets none of them. *)
Definition quiet_form : FormData :=
  {| customer_id := "C-2";
     account_age_days := JS.Fin 365;
     transaction_amount := JS.Fin 5000;
     channel := "online";
     kyc_verified := true;
     timestamp := "2025-11-01T12:00" |}.

(** An input with a negative amount. *)
Definition refund_form : FormData :=
  {| customer_id := "C-3";
     account_age_days := JS.Fin 12;
     transaction_amount := JS.Fin (-40);
     channel := "atm";
     kyc_verified := true;
     timestamp := "2025-11-02T08:30" |}.

(** The form and the mock verdict of [quiet_form] as objects. *)
Definition quiet_form_object : object :=
  [ ("customer_id", Str "C-2");
    ("account_age_days", Num (JS.Fin 365));
    ("transaction_amount", Num (JS.Fin 5000));
    ("channel", Str "online");
    ("kyc_verified", Bool true);
    ("timestamp", Str "2025-11-01T12:00") ].

Definition quiet_result_object : object :=
  [ ("is_fraud", Bool false);
    ("prediction", Num (JS.Fin 0));
    ("fraud", Bool false);
    ("risk_score", Num (JS.Fin 0.85));
    ("confidence", Num (JS.Fin 0.85));
    ("rules_triggered", Arr []);
    ("llm_explanation", Str "Standard transaction pattern.") ].

(** [n] checks in a row, each saved by
    [saveToEnhancedTransactionHistory] as [checkTransaction] does. *)
Fixpoint enhanced_saves (n : nat) (ls : storage) : JS.completion storage :=
  match n with
  | O => JS.Normal ls
  | S n' =>
      match enhanced_saves n' ls with
      | JS.Normal ls' =>
          saveToEnhancedTransactionHistory (inject_Z (Z.of_nat n))
            "2025-11-01T12:00:00.000Z" quiet_form_object quiet_result_object
            ls'
      | JS.Throw e => JS.Throw e
      end
  end.

Definition history_length (c : JS.completion storage) : option nat :=
  match c with
  | JS.Normal ls => length <$> stored_history ls
  | JS.Throw _ => None
  end.

(** Five values of which four, exactly 80%, read as numbers. *)
Definition four_of_five : list string := ["1"; "2"; "3"; "4"; "x"].

(** An array that is not in ascending order. *)
Definition unsorted_amounts : list JS.number :=
  [JS.Fin 3; JS.Fin 1; JS.Fin 2].

(** The dataset of the CSV text [a,b / 1,2 / 3,4 / 5,6]. *)
Definition two_columns : Dataset :=
  {| headers := ["a"; "b"];
     data := [ {[ "a" := "1"; "b" := "2" ]};
               {[ "a" := "3"; "b" := "4" ]};
               {[ "a" := "5"; "b" := "6" ]} ];
     rawText := "a,b" ++ String "010" "1,2" ++ String "010" "3,4"
                ++ String "010" "5,6" |}.

(** The input of the specification's example: a large amount on a new,
    unverified account, through a channel that is not mobile. *)
Definition international_form : FormData :=
  {| customer_id := "C-4";
     account_age_days := JS.Fin 5;
     transaction_amount := JS.Fin 75000;
     channel := "international";
     kyc_verified := false;
     timestamp := "2025-11-01T03:00:00" |}.

(** * Further code of the dashboard *)

(** The history that a save starts from: the stored array, the empty
    array when nothing is stored yet. *)
Definition current_history (ls : storage) : option (list value) :=
  match getItem_parsed ls "transactionHistory" with
  | Arr history => Some history
  | _ => None
  end.

(** The rule sets of two inputs, the first within the second. *)
Definition triggers_within (a b : FormData) : Prop :=
  (rule_amount a = true -> rule_amount b = true)
  /\ (rule_new_account a = true -> rule_new_account b = true)
  /\ (rule_kyc a = true -> rule_kyc b = true)
  /\ (rule_mobile a = true -> rule_mobile b = true).

(** ** JSON values converted to strings and numbers *)

Section Conversions.

Variable finite_toString : Q -> string.

(** [String(v)] for an element [v] of an array that is joined: [null] and
    [undefined] give the empty string, an array is joined in turn, and an
    object gives its tag unless it has a property [toString] of its own,
    which, coming from JSON, is not a function: the conversion then
    throws. *)
Fixpoint element_toString (v : value) : JS.completion string :=
  match v with
  | Undefined | Null => JS.Normal ""
  | Bool b => JS.Normal (if b then "true" else "false")
  | Num n => JS.Normal (Number_toString finite_toString n)
  | Str s => JS.Normal s
  | Arr items =>
      (fix join (l : list value) : JS.completion string :=
         match l with
         | [] => JS.Normal ""
         | [x] => element_toString x
         | x :: l' =>
             match element_toString x with
             | JS.Normal s =>
                 match join l' with
                 | JS.Normal rest => JS.Normal (s ++ "," ++ rest)
                 | JS.Throw e => JS.Throw e
                 end
             | JS.Throw e => JS.Throw e
             end
         end) items
  | Obj fields =>
      match property fields "toString" with
      | Some _ => JS.Throw "TypeError"
      | None => JS.Normal "[object Object]"
      end
  end.

(** [String(v)], as a template literal converts the value [v]. *)
Definition ToString (v : value) : JS.completion string :=
  match v with
  | Undefined => JS.Normal "undefined"
  | Null => JS.Normal "null"
  | _ => element_toString v
  end.

(** The primitive value that an operator works on: an array or an object
    is converted to its string. *)
Definition ToPrimitive (v : value) : JS.completion value :=
  match v with
  | Arr _ | Obj _ =>
      match element_toString v with
      | JS.Normal s => JS.Normal (Str s)
      | JS.Throw e => JS.Throw e
      end
  | _ => JS.Normal v
  end.

(** [Number(v)] and [String(v)] for a primitive value [v]. *)
Definition primitive_ToNumber (v : value) : JS.number :=
  match v with
  | Null => JS.Fin 0
  | Bool b => if b then JS.Fin 1 else JS.Fin 0
  | Num n => n
  | Str s => ToNumber s
  | _ => JS.NaN
  end.

Definition primitive_ToString (v : value) : string :=
  match v with
  | Undefined => "undefined"
  | Null => "null"
  | Bool b => if b then "true" else "false"
  | Num n => Number_toString finite_toString n
  | Str s => s
  | _ => ""
  end.

(** [a + b]: the strings are joined when an operand is, or is converted
    to, a string; the numbers are added otherwise. *)
Definition plus (a b : value) : JS.completion value :=
  match ToPrimitive a with
  | JS.Normal pa =>
      match ToPrimitive b with
      | JS.Normal pb =>
          JS.Normal
            match pa, pb with
            | Str _, _ | _, Str _ =>
                Str (primitive_ToString pa ++ primitive_ToString pb)
            | _, _ => Num (primitive_ToNumber pa + primitive_ToNumber pb)%js
            end
      | JS.Throw e => JS.Throw e
      end
  | JS.Throw e => JS.Throw e
  end.

End Conversions.

(** [l.reduce((acc, x) => f(acc, x), init)] for a callback that may
    throw. *)
Fixpoint reduce_completion {A B : Type} (f : B -> A -> JS.completion B)
  (l : list A) (acc : B) : JS.completion B :=
  match l with
  | [] => JS.Normal acc
  | x :: l' =>
      match f acc x with
      | JS.Normal acc' => reduce_completion f l' acc'
      | JS.Throw e => JS.Throw e
      end
  end.

(** The values whose conversion to a string or a number ends normally:
    all but an object with a property [toString] of its own and an array
    that holds such an object. *)
Fixpoint converts (v : value) : bool :=
  match v with
  | Arr items => List.forallb converts items
  | Obj fields =>
      match property fields "toString" with
      | Some _ => false
      | None => true
      end
  | _ => true
  end.

(** ** Checking a transaction: [checkTransaction] *)

(** The handlers below are modelled on a page that has the elements they
    write to, so that writing the page itself does not throw; what can
    throw is what they compute on the way. *)

(** [validateEnhancedTransactionForm], lines 581-603 (the alerts are left
    out): [!x] holds of the numbers 0 and [NaN] and of the empty string. *)
Definition validateEnhancedTransactionForm (formData : FormData) : bool :=
  if negb (truthy (Str (customer_id formData)))
     || String.eqb (trim (customer_id formData)) ""
  then false
  else if negb (truthy (Num (transaction_amount formData)))
          || (transaction_amount formData <= JS.Fin 0)%js
  then false
  else if negb (truthy (Num (account_age_days formData)))
          || (account_age_days formData < JS.Fin 0)%js
  then false
  else if negb (truthy (Str (channel formData)))
  then false
  else if negb (truthy (Str (timestamp formData)))
  then false
  else true.

(** The object literal [formData] of [checkTransaction], lines 2564-2571,
    and the object literal returned by [generateEnhancedMockPrediction]. *)
Definition FormData_object (formData : FormData) : object :=
  [ ("customer_id", Str (customer_id formData));
    ("account_age_days", Num (account_age_days formData));
    ("transaction_amount", Num (transaction_amount formData));
    ("channel", Str (channel formData));
    ("kyc_verified", Bool (kyc_verified formData));
    ("timestamp", Str (timestamp formData)) ].

Definition Prediction_object (p : Prediction) : object :=
  [ ("is_fraud", Bool (is_fraud p));
    ("prediction", Num (prediction p));
    ("fraud", Bool (fraud p));
    ("risk_score", Num (risk_score p));
    ("confidence", Num (confidence p));
    ("rules_triggered", Arr (List.map Str (rules_triggered p)));
    ("llm_explanation",
     match llm_explanation p with Some s => Str s | None => Undefined end) ].

(** The properties of a value that is read as an object: a primitive or an
    array has none of the properties the code reads. *)
Definition as_object (v : value) : object :=
  match v with Obj fields => fields | _ => [] end.

Definition is_null (v : value) : bool :=
  match v with Null | Undefined => true | _ => false end.

(** A value as [JSON.parse] returns them. *)
Fixpoint is_json (v : value) : bool :=
  match v with
  | Undefined => false
  | Num (JS.Fin _) => true
  | Num _ => false
  | Arr items => List.forallb is_json items
  | Obj fields => List.forallb (fun kv => is_json kv.2) fields
  | _ => true
  end.

(** [t.is_fraud], read as a condition, for an entry [t] that is not
    [null]. *)
Definition is_fraud_entry (t : value) : bool :=
  truthy (get (as_object t) "is_fraud").

(** [transaction.risk_score || 0] *)
Definition risk_score_or_0 (t : value) : value :=
  or_else (get (as_object t) "risk_score") (Num (JS.Fin 0)).

Module Live.

Record statistics : Type := {
  totalTransactions : nat;
  fraudCount : nat;
  fraudRate : value;
  avgRiskScore : value
}.

End Live.

(** The state an event handler works on: the draws of [Math.random]
    consumed so far and [localStorage].  A handler may throw, and its
    effects up to the throw stay. *)
Record page : Type := { draws_used : nat; localStorage : storage }.

Definition Handler (A : Type) : Type := page -> JS.completion A * page.

Definition hret {A : Type} (a : A) : Handler A := fun s => (JS.Normal a, s).

Definition hbind {A B : Type} (c : Handler A) (f : A -> Handler B)
  : Handler B :=
  fun s =>
    match c s with
    | (JS.Normal a, s') => f a s'
    | (JS.Throw e, s') => (JS.Throw e, s')
    end.

Definition hthrow {A : Type} (e : string) : Handler A :=
  fun s => (JS.Throw e, s).

(** [try { c } catch (e) { h }] *)
Definition try_catch {A : Type} (c : Handler A) (h : string -> Handler A)
  : Handler A :=
  fun s =>
    match c s with
    | (JS.Normal a, s') => (JS.Normal a, s')
    | (JS.Throw e, s') => h e s'
    end.

(** A computation that draws random numbers, run inside a handler. *)
Definition draw {A : Type} (c : Rand A) : Handler A :=
  fun s =>
    match c (draws_used s) with
    | JS.Normal (a, k) =>
        (JS.Normal a, {| draws_used := k; localStorage := localStorage s |})
    | JS.Throw e => (JS.Throw e, s)
    end.

(** A function that rewrites [localStorage], run inside a handler. *)
Definition store (f : storage -> JS.completion storage) : Handler unit :=
  fun s =>
    match f (localStorage s) with
    | JS.Normal ls =>
        (JS.Normal tt, {| draws_used := draws_used s; localStorage := ls |})
    | JS.Throw e => (JS.Throw e, s)
    end.

(** A function that reads [localStorage], run inside a handler. *)
Definition read {A : Type} (f : storage -> JS.completion A) : Handler A :=
  fun s => (f (localStorage s), s).

(** A computation that changes nothing, run inside a handler. *)
Definition lift {A : Type} (c : JS.completion A) : Handler A :=
  fun s => (c, s).

Declare Scope handler_scope.
Delimit Scope handler_scope with handler.
Bind Scope handler_scope with Handler.
Notation "'let*' x ':=' c 'in' k" := (hbind c (fun x => k))
  (at level 10, x pattern, c at level 100, k at level 200) : handler_scope.
Notation "c ';;' k" := (hbind c (fun _ => k))
  (at level 100, k at level 200, right associativity) : handler_scope.

Section CheckTransaction.

Variable draws : nat -> Q.
Variable finite_toString : Q -> string.
Variable finite_toFixed : Q -> nat -> string.

(** What [displayEnhancedTransactionResult], lines 604-673, does besides
    writing the page (whose elements are taken to exist), in the order of
    the template: it reads properties of [result], which throws when
    [result] is [null]; it multiplies the risk score, which converts it to
    a number; it draws an explanation with [generateLLMExplanation] (which
    does not read the risk score it is handed) when [result] brings none,
    and converts the explanation to a string; and it calls [map] on
    [result.rules_triggered] when that is truthy, which throws unless it
    is an array, and converts every rule to a string. *)
Definition displayEnhancedTransactionResult (result : value)
  (formData : FormData) : Handler unit :=
  if is_null result then hthrow "TypeError"
  else
    let r := as_object result in
    let isFraud := truthy (fraud_flag r) in
    let riskScore :=
      or_else (or_else (get r "risk_score") (get r "confidence"))
        (Num (if isFraud then JS.Fin 0.85 else JS.Fin 0.15)) in
    (let* _ := lift (ToPrimitive finite_toString riskScore) in
     let* explanation :=
       (if truthy (or_else (get r "llm_explanation") (get r "reason"))
        then hret (or_else (get r "llm_explanation") (get r "reason"))
        else
          let* randomExplanation :=
            draw (generateLLMExplanation draws finite_toString formData
                    isFraud JS.NaN) in
          hret match randomExplanation with
               | Some s => Str s
               | None => Undefined
               end) in
     let* _ := lift (ToString finite_toString explanation) in
     if truthy (get r "rules_triggered") then
       match get r "rules_triggered" with
       | Arr rules =>
           let* _ :=
             lift (reduce_completion
                     (fun (_ : unit) rule =>
                        match ToString finite_toString rule with
                        | JS.Normal _ => JS.Normal tt
                        | JS.Throw e => JS.Throw e
                        end)
                     rules tt) in
           hret tt
       | _ => hthrow "TypeError"
       end
     else hret tt)%handler.

(** The table row that [loadTransactionHistory] writes for one entry, up
    to whether writing it throws: the properties of [null] cannot be
    read, the amount must have a method [toFixed], which numbers have,
    and the other cells and the time are converted. *)
Definition table_row (transaction : value) : JS.completion unit :=
  if is_null transaction then JS.Throw "TypeError"
  else
    let t := as_object transaction in
    match
      ToString finite_toString
        (or_else (or_else (get t "customer_id") (get t "id")) (Str "N/A"))
    with
    | JS.Throw e => JS.Throw e
    | JS.Normal _ =>
        match
          or_else (or_else (get t "transaction_amount") (get t "amount"))
            (Num (JS.Fin 0))
        with
        | Num _ =>
            match
              ToString finite_toString
                (or_else (or_else (get t "account_age_days")
                            (get t "accountAge"))
                   (Num (JS.Fin 0)))
            with
            | JS.Throw e => JS.Throw e
            | JS.Normal _ =>
                match
                  ToString finite_toString
                    (or_else (get t "channel") (Str "N/A"))
                with
                | JS.Throw e => JS.Throw e
                | JS.Normal _ =>
                    match
                      ToPrimitive finite_toString (get t "timestamp")
                    with
                    | JS.Throw e => JS.Throw e
                    | JS.Normal _ => JS.Normal tt
                    end
                end
            end
        | _ => JS.Throw "TypeError"
        end
    end.

(** [loadTransactionHistory], lines 2627-2666 (the declaration in force),
    up to whether it throws: a stored value whose [length] is 0 gives the
    empty table, any other must have a method [map], which arrays
    have. *)
Definition loadTransactionHistory (ls : storage) : JS.completion unit :=
  match getItem_parsed ls "transactionHistory" with
  | Arr history =>
      reduce_completion (fun (_ : unit) transaction => table_row transaction)
        history tt
  | Str s => if String.eqb s "" then JS.Normal tt else JS.Throw "TypeError"
  | Obj fields =>
      if is_number (get fields "length") (JS.Fin 0) then JS.Normal tt
      else JS.Throw "TypeError"
  | _ => JS.Throw "TypeError"
  end.

(** [updateLiveStatistics], lines 3075-3092, up to the four numbers it
    shows; reading [is_fraud] throws on an entry that is [null], a stored
    value that is not an array has no [filter], and the sum of the risk
    scores converts each of them. *)
Definition updateLiveStatistics (ls : storage)
  : JS.completion Live.statistics :=
  match getItem_parsed ls "transactionHistory" with
  | Arr history =>
      if List.existsb is_null history then JS.Throw "TypeError"
      else
        let totalTransactions := length history in
        let fraudCount := length (List.filter is_fraud_entry history) in
        let fraudRate :=
          if (0 <? totalTransactions)%nat
          then Str (toFixed finite_toFixed
                      (JS.of_nat fraudCount / JS.of_nat totalTransactions
                       * JS.Fin 100)%js 1)
          else Num (JS.Fin 0) in
        match
          reduce_completion
            (fun sum transaction =>
               plus finite_toString sum (risk_score_or_0 transaction))
            history (Num (JS.Fin 0))
        with
        | JS.Normal totalRisk =>
            let avgRiskScore :=
              if (0 <? totalTransactions)%nat
              then Str (toFixed finite_toFixed
                          (primitive_ToNumber totalRisk
                           / JS.of_nat totalTransactions * JS.Fin 100)%js 1)
              else Num (JS.Fin 0) in
            JS.Normal {| Live.totalTransactions := totalTransactions;
                         Live.fraudCount := fraudCount;
                         Live.fraudRate := fraudRate;
                         Live.avgRiskScore := avgRiskScore |}
        | JS.Throw e => JS.Throw e
        end
  | _ => JS.Throw "TypeError"
  end.

(** [createFraudPieChart], lines 774-821, for a page that has the canvas:
    the two numbers handed to the chart. *)
Definition createFraudPieChart (ls : storage)
  : JS.completion (list JS.number) :=
  match getItem_parsed ls "transactionHistory" with
  | Arr history =>
      if List.existsb is_null history then JS.Throw "TypeError"
      else
        let fraudCount := length (List.filter is_fraud_entry history) in
        let legitCount :=
          (JS.of_nat (length history) - JS.of_nat fraudCount)%js in
        JS.Normal [JS.of_nat fraudCount; legitCount]
  | _ => JS.Throw "TypeError"
  end.

(** [createFraudTrendChart], lines 823-905, for a page that has the
    canvas, up to whether it throws (the days it groups the entries by
    are named by the host): it reads the [timestamp] of every entry,
    which throws on [null], and hands it to [new Date], which converts
    it. *)
Definition createFraudTrendChart (ls : storage) : JS.completion unit :=
  match getItem_parsed ls "transactionHistory" with
  | Arr history =>
      reduce_completion
        (fun (_ : unit) transaction =>
           if is_null transaction then JS.Throw "TypeError"
           else
             match
               ToPrimitive finite_toString
                 (get (as_object transaction) "timestamp")
             with
             | JS.Normal _ => JS.Normal tt
             | JS.Throw e => JS.Throw e
             end)
        history tt
  | _ => JS.Throw "TypeError"
  end.

(** [updateFraudVisualization], lines 907-912. *)
Definition updateFraudVisualization : Handler unit :=
  (read updateLiveStatistics ;;
   read createFraudPieChart ;;
   read createFraudTrendChart)%handler.

(** The end of [saveToEnhancedTransactionHistory], lines 760-763: the
    history table is written again when the history page is on display,
    which [history_shown] tells. *)
Definition refresh_history_table (history_shown : bool) : Handler unit :=
  if history_shown then read loadTransactionHistory else hret tt.

(** [checkTransaction], lines 2560-2624, for the form [formData] and the
    outcome [response] of the request to the prediction service: the
    parsed body of an [ok] response, or [None] when the request or the
    parsing failed or the status was not [ok].  The two saves read the
    clock when they run: [clock_try] and [clock_catch]. *)
Definition checkTransaction (history_shown : bool)
  (clock_try clock_catch : Q * string) (formData : FormData)
  (response : option value) : Handler unit :=
  if negb (validateEnhancedTransactionForm formData) then hret tt
  else
    try_catch
      (match response with
       | None => hthrow "Error"
       | Some result =>
           (displayEnhancedTransactionResult result formData ;;
            store (saveToEnhancedTransactionHistory clock_try.1 clock_try.2
                     (FormData_object formData) (as_object result)) ;;
            refresh_history_table history_shown ;;
            updateFraudVisualization)%handler
       end)
      (fun _ =>
         (let* mockResult :=
            draw (generateEnhancedMockPrediction draws finite_toString
                    formData) in
          displayEnhancedTransactionResult (Obj (Prediction_object mockResult))
            formData ;;
          store (saveToEnhancedTransactionHistory clock_catch.1 clock_catch.2
                   (FormData_object formData) (Prediction_object mockResult)) ;;
          refresh_history_table history_shown ;;
          updateFraudVisualization)%handler).

End CheckTransaction.

(** An entry that the history table can show: its amount, when it has
    one, is a number, and its other cells can be converted. *)
Definition shows_in_table (transaction : value) : bool :=
  let t := as_object transaction in
  converts (or_else (or_else (get t "customer_id") (get t "id")) (Str "N/A"))
  && match
       or_else (or_else (get t "transaction_amount") (get t "amount"))
         (Num (JS.Fin 0))
     with
     | Num _ => true
     | _ => false
     end
  && converts
       (or_else (or_else (get t "account_age_days") (get t "accountAge"))
          (Num (JS.Fin 0)))
  && converts (or_else (get t "channel") (Str "N/A")).

(** A stored entry that the page can render: a JSON value, not [null],
    that the history table can show and whose risk score and time can be
    converted. *)
Definition renderable (t : value) : Prop :=
  is_json t = true
  /\ is_null t = false
  /\ converts (risk_score_or_0 t) = true
  /\ converts (get (as_object t) "timestamp") = true
  /\ shows_in_table t = true.

(** An entry with a risk score as the scorer gives it, or none. *)
Definition scored_entry (t : value) : bool :=
  negb (is_null t)
  && match get (as_object t) "risk_score" with
     | Undefined => true
     | Num (JS.Fin q) => Qle_bool 0 q && Qle_bool q 1
     | _ => false
     end.

(** Sample states and inputs for the handler. *)
Definition fresh_page : page := {| draws_used := 0; localStorage := ∅ |}.

Definition zero_age_form : FormData :=
  {| customer_id := "C-5";
     account_age_days := JS.Fin 0;
     transaction_amount := JS.Fin 120;
     channel := "online";
     kyc_verified := true;
     timestamp := "2025-11-03T10:00" |}.

Definition noon : Q * string := (1762171200000, "2025-11-03T12:00:00.000Z").

(** ** Reading a CSV file: [parseCSV] *)

(** [s.split(sep)] for a separator of one character: the pieces between the
    separators, one piece more than there are separators. *)
Fixpoint split_on (sep : ascii) (s : string) : list string :=
  match s with
  | EmptyString => [EmptyString]
  | String c s' =>
      if Ascii.eqb c sep then EmptyString :: split_on sep s'
      else
        match split_on sep s' with
        | piece :: pieces => String c piece :: pieces
        | [] => [String c EmptyString]
        end
  end.

(** [s.replace(/c/g, empty)] for a character [c]: every [c] removed. *)
Fixpoint remove_char (c : ascii) (s : string) : string :=
  match s with
  | EmptyString => EmptyString
  | String d s' =>
      if Ascii.eqb d c then remove_char c s' else String d (remove_char c s')
  end.

Fixpoint has_char (c : ascii) (s : string) : bool :=
  match s with
  | EmptyString => false
  | String d s' => Ascii.eqb d c || has_char c s'
  end.

Definition double_quote : ascii := "034".
Definition line_feed : ascii := "010".

(** [v.trim()] with every double quote removed, as [parseCSV] cleans a
    header or a cell. *)
Definition clean_field (v : string) : string :=
  remove_char double_quote (trim v).

(** [row[key] = v] on a plain object: the key [__proto__] names the
    prototype, and assigning a string to it creates no property. *)
Definition assign_property (r : row) (key v : string) : row :=
  if String.eqb key "__proto__" then r else <[key := v]> r.

(** [values[index] || ""] *)
Definition field_or_empty (values : list string) (index : nat) : string :=
  match values !! index with Some v => v | None => "" end.

(** The object that [parseCSV] builds for one line. *)
Definition parse_row (columns : list string) (line : string) : row :=
  let values := List.map clean_field (split_on "," line) in
  reduce
    (fun (r : row) header index =>
       assign_property r header (field_or_empty values index))
    columns ∅.

(** The lines of a text that are not blank. *)
Definition content_lines (csvText : string) : list string :=
  List.filter (fun line => negb (String.eqb (trim line) ""))
    (split_on line_feed csvText).

(** [parseCSV], lines 1441-1456: reading [lines[0]] of a text without a
    line that is not blank gives [undefined], and calling [split] on it
    throws. *)
Definition parseCSV (csvText : string) : JS.completion Dataset :=
  let lines := content_lines csvText in
  match lines with
  | [] => JS.Throw "TypeError"
  | first :: rest =>
      let columns := List.map clean_field (split_on "," first) in
      let rows := List.map (parse_row columns) rest in
      JS.Normal {| headers := columns; data := rows; rawText := csvText |}
  end.

(** A CSV text with a short line, a long line and quoted cells. *)
Definition ragged_csv : string :=
  "id, amount ,note" ++ String line_feed
    ("1,250" ++ String line_feed
       ("" ++ String line_feed
          ("2,75.5,ok,extra" ++ String line_feed EmptyString))).

(** ** The other cards of the analytics report *)

(** [s.toLowerCase()] on the letters A to Z; the words the code looks for
    in a lowered string hold no letter that another character lowers to. *)
Definition lower_char (c : ascii) : ascii :=
  let n := nat_of_ascii c in
  if (65 <=? n)%nat && (n <=? 90)%nat then ascii_of_nat (n + 32) else c.

Fixpoint toLowerCase (s : string) : string :=
  match s with
  | EmptyString => EmptyString
  | String c s' => String (lower_char c) (toLowerCase s')
  end.

(** [s.includes(word)] *)
Fixpoint includes (s word : string) : bool :=
  String.prefix word s
  || match s with
     | EmptyString => false
     | String _ s' => includes s' word
     end.

(** [header.toLowerCase().includes(w)] for one of the words [ws] *)
Definition mentions (ws : list string) (header : string) : bool :=
  List.existsb (includes (toLowerCase header)) ws.

(** The number of rows whose cell under [header] is blank. *)
Definition blank_cells (header : string) (rows : list row) : nat :=
  length (List.filter (fun r : row => is_blank (r !! header)) rows).

(** [Math.min(...values)] and [Math.max(...values)], for an array within
    the number of arguments the engine accepts. *)
Definition Math_min_of (values : list JS.number) : JS.number :=
  List.fold_left JS.Math_min values JS.PosInf.
Definition Math_max_of (values : list JS.number) : JS.number :=
  List.fold_left JS.Math_max values JS.NegInf.

(** [values.reduce((a, b) => a + b, 0)] *)
Definition sum_of (values : list JS.number) : JS.number :=
  reduce (fun a b _ => (a + b)%js) values (JS.Fin 0).

Definition is_finite (a : JS.number) : bool :=
  match a with JS.Fin _ => true | _ => false end.

Record missing_card : Type := {
  missing_header : string;
  missingCount : nat;
  missingPercentage : string
}.

Record column_card : Type := {
  column_header : string;
  uniqueValues : nat;
  dataType : DataType;
  totalValues : nat;
  missingValues : JS.number
}.

Inductive fraud_cards : Type :=
| FraudCounts (fraudCount : nat) (fraudPercentage : value)
    (legitimateCount : JS.number) (legitimatePercentage : value)
| TotalOnly (total : nat).

Record summary_cards : Type := {
  totalTransactions : nat;
  totalAmount : JS.number;
  averageAmount : JS.number
}.

Record distribution_card : Type := {
  distribution_header : string;
  minimum : JS.number;
  maximum : JS.number;
  mean : JS.number;
  median : JS.number;
  spread : JS.number
}.

Inductive category_cards : Type :=
| Categories (cards : list (string * JS.number * value))
| Overview (records columns : nat).

(** [categoryMap.has(k) ? categoryMap.set(k, categoryMap.get(k) + amount)
    : categoryMap.set(k, amount)]: a [Map] keeps its keys in the order of
    their first insertion. *)
Fixpoint category_add (m : list (string * JS.number)) (k : string)
  (amount : JS.number) : list (string * JS.number) :=
  match m with
  | [] => [(k, amount)]
  | (k', total) :: m' =>
      if String.eqb k' k then (k', (total + amount)%js) :: m'
      else (k', total) :: category_add m' k amount
  end.

Section Cards.

Variable Date_parse : string -> JS.number.
Variable finite_toFixed : Q -> nat -> string.

(** [displayMissingValues], lines 1715-1747, up to the array
    [missingAnalysis]; an empty array is rendered as the sentence that no
    value is missing. *)
Definition displayMissingValues (dataset : Dataset) : list missing_card :=
  List.filter (fun col => (0 <? missingCount col)%nat)
    (List.map
       (fun header =>
          let missingCount := blank_cells header (data dataset) in
          let missingPercentage :=
            toFixed finite_toFixed
              (JS.of_nat missingCount / JS.of_nat (length (data dataset))
               * JS.Fin 100)%js 2 in
          {| missing_header := header;
             missingCount := missingCount;
             missingPercentage := missingPercentage |})
       (headers dataset)).

(** [displayColumnAnalysis], lines 1589-1619, up to the array [columnInfo]
    and the count of missing values rendered from it. *)
Definition displayColumnAnalysis (dataset : Dataset) : list column_card :=
  List.map
    (fun header =>
       let values := column_values header (data dataset) in
       let uniqueValues := size (list_to_set values : gset string) in
       let dataType := inferDataType Date_parse values in
       {| column_header := header;
          uniqueValues := uniqueValues;
          dataType := dataType;
          totalValues := length values;
          missingValues :=
            (JS.of_nat (length (data dataset))
             - JS.of_nat (length values))%js |})
    (headers dataset).

(** [displayFraudAnalysis], lines 1750-1808, up to the numbers
    rendered. *)
Definition displayFraudAnalysis (dataset : Dataset) : fraud_cards :=
  let fraudColumns :=
    List.filter (mentions ["fraud"; "is_fraud"; "class"; "target"])
      (headers dataset) in
  match fraudColumns with
  | fraudColumn :: _ =>
      let fraudValues := column_values fraudColumn (data dataset) in
      let fraudCount :=
        length
          (List.filter
             (fun v =>
                String.eqb (toLowerCase v) "1"
                || String.eqb (toLowerCase v) "true"
                || String.eqb (toLowerCase v) "fraud"
                || String.eqb (toLowerCase v) "yes")
             fraudValues) in
      let legitimateCount :=
        (JS.of_nat (length fraudValues) - JS.of_nat fraudCount)%js in
      let totalCount := length fraudValues in
      let fraudPercentage :=
        if (0 <? totalCount)%nat
        then Str (toFixed finite_toFixed
                    (JS.of_nat fraudCount / JS.of_nat totalCount
                     * JS.Fin 100)%js 2)
        else Num (JS.Fin 0) in
      let legitimatePercentage :=
        if (0 <? totalCount)%nat
        then Str (toFixed finite_toFixed
                    (legitimateCount / JS.of_nat totalCount
                     * JS.Fin 100)%js 2)
        else Num (JS.Fin 0) in
      FraudCounts fraudCount fraudPercentage legitimateCount
        legitimatePercentage
  | [] => TotalOnly (length (data dataset))
  end.

(** [displayTransactionSummary], lines 2066-2118, up to the three numbers
    rendered. *)
Definition displayTransactionSummary (dataset : Dataset) : summary_cards :=
  let amountColumns :=
    List.filter (mentions ["amount"; "value"; "price"; "cost"])
      (headers dataset) in
  let totalTransactions := length (data dataset) in
  let '(totalAmount, averageAmount) :=
    match amountColumns with
    | amountColumn :: _ =>
        let amounts := numeric_values amountColumn (data dataset) in
        if (0 <? length amounts)%nat then
          let totalAmount := sum_of amounts in
          (totalAmount, (totalAmount / JS.of_nat (length amounts))%js)
        else (JS.Fin 0, JS.Fin 0)
    | [] => (JS.Fin 0, JS.Fin 0)
    end in
  {| totalTransactions := totalTransactions;
     totalAmount := totalAmount;
     averageAmount := averageAmount |}.

(** [displayDataDistribution], lines 1622-1664, up to the numbers
    rendered for each of the first four numeric columns, the range
    [max - min] being the last. *)
Definition displayDataDistribution (dataset : Dataset)
  : list distribution_card :=
  let numericColumns := take 4 (numericColumns dataset) in
  List.map
    (fun col =>
       let values := numeric_values col (data dataset) in
       let min := Math_min_of values in
       let max := Math_max_of values in
       let mean := (sum_of values / JS.of_nat (length values))%js in
       let median := (calculateMedian values).1 in
       {| distribution_header := col;
          minimum := min;
          maximum := max;
          mean := mean;
          median := median;
          spread := (max - min)%js |})
    numericColumns.

(** The [categoryMap] of [displaySpendingCategories], lines 2143-2154. *)
Definition category_totals (categoryColumn : string)
  (amountColumn : option string) (rows : list row)
  : list (string * JS.number) :=
  List.fold_left
    (fun categoryMap (r : row) =>
       let category :=
         match r !! categoryColumn with
         | Some c => if String.eqb c "" then "Unknown" else c
         | None => "Unknown"
         end in
       let amount :=
         match amountColumn with
         | Some column =>
             let parsed := parseFloat (r !! column) in
             if truthy (Num parsed) then parsed else JS.Fin 0
         | None => JS.Fin 1
         end in
       category_add categoryMap category amount)
    rows [].

(** [displaySpendingCategories], lines 2121-2202, up to the names,
    amounts and percentages rendered. *)
Definition displaySpendingCategories (dataset : Dataset) : category_cards :=
  let categoryColumns :=
    List.filter (mentions ["category"; "type"; "merchant"; "description"])
      (headers dataset) in
  match categoryColumns with
  | categoryColumn :: _ =>
      let amountColumn :=
        List.find (mentions ["amount"; "value"]) (headers dataset) in
      let categoryMap :=
        category_totals categoryColumn amountColumn (data dataset) in
      let sortedCategories :=
        take 6 (Array_sort (fun a b => (b.2 - a.2)%js) categoryMap) in
      let totalAmount :=
        reduce (fun sum entry _ => (sum + entry.2)%js) sortedCategories
          (JS.Fin 0) in
      Categories
        (List.map
           (fun entry : string * JS.number =>
              let percentage :=
                if (totalAmount > JS.Fin 0)%js
                then Str (toFixed finite_toFixed
                            (entry.2 / totalAmount * JS.Fin 100)%js 1)
                else Num (JS.Fin 0) in
              (entry.1, entry.2, percentage))
           sortedCategories)
  | [] => Overview (length (data dataset)) (length (headers dataset))
  end.

End Cards.

(** No cell under a header reads as an infinite number. *)
Definition finite_cells (dataset : Dataset) : bool :=
  List.forallb
    (fun r : row =>
       List.forallb
         (fun h =>
            match parseFloat (r !! h) with
            | JS.PosInf | JS.NegInf => false
            | _ => true
            end)
         (headers dataset))
    (data dataset).

(** The order of the category cards: amounts going down. *)
Definition descending (a b : JS.number) : Prop := (b <= a)%js = true.

(** A dataset with a label column, a category column and blank cells. *)
Definition labelled_csv : string :=
  "id,amount,category,is_fraud" ++ String line_feed
    ("1,250,food,1" ++ String line_feed
       ("2,75.5,travel,no" ++ String line_feed
          ("3,,food,Yes" ++ String line_feed
             ("4,40,,0" ++ String line_feed EmptyString)))).

Definition labelled_dataset : Dataset :=
  match parseCSV labelled_csv with
  | JS.Normal dataset => dataset
  | JS.Throw _ => {| headers := []; data := []; rawText := "" |}
  end.

Definition two_decimals : Q -> nat -> string := fun _ _ => "0.00".

(** ** The test data *)

Section TestData.

Variable finite_toString : Q -> string.

(** [t.id && t.id.toString().startsWith(word)] for an entry [t] *)
Definition id_startsWith (word : string) (t : value) : JS.completion bool :=
  if is_null t then JS.Throw "TypeError"
  else
    let id := get (as_object t) "id" in
    if truthy id then
      match element_toString finite_toString id with
      | JS.Normal s => JS.Normal (String.prefix word s)
      | JS.Throw e => JS.Throw e
      end
    else JS.Normal false.

(** [history.filter((t) => keep(t))] for a callback that may throw. *)
Fixpoint filter_completion {A : Type} (keep : A -> JS.completion bool)
  (l : list A) : JS.completion (list A) :=
  match l with
  | [] => JS.Normal []
  | x :: l' =>
      match keep x with
      | JS.Normal b =>
          match filter_completion keep l' with
          | JS.Normal kept => JS.Normal (if b then x :: kept else kept)
          | JS.Throw e => JS.Throw e
          end
      | JS.Throw e => JS.Throw e
      end
  end.

(** [test8_clearTestData], lines 134-146: the stored history without the
    entries of the tests, written back only when there was such an
    entry. *)
Definition test8_clearTestData (ls : storage) : JS.completion storage :=
  match getItem_parsed ls "transactionHistory" with
  | Arr history =>
      match filter_completion (id_startsWith "test-") history with
      | JS.Normal testTransactions =>
          if (0 <? length testTransactions)%nat then
            match
              filter_completion
                (fun t =>
                   match id_startsWith "test-" t with
                   | JS.Normal b => JS.Normal (negb b)
                   | JS.Throw e => JS.Throw e
                   end)
                history
            with
            | JS.Normal cleaned =>
                JS.Normal (setItem_json ls "transactionHistory" (Arr cleaned))
            | JS.Throw e => JS.Throw e
            end
          else JS.Normal ls
      | JS.Throw e => JS.Throw e
      end
  | _ => JS.Throw "TypeError"
  end.

End TestData.

(** An entry as the page and its tests save them: a JSON object or other
    value that is not [null], whose [id], if any, is a string, a number or
    a boolean. *)
Definition plain_entry (t : value) : bool :=
  is_json t && negb (is_null t)
  && match get (as_object t) "id" with
     | Arr _ | Obj _ => false
     | _ => true
     end.

(** An entry that the tests left behind. *)
Definition test_entry (finite_toString : Q -> string) (t : value) : bool :=
  match id_startsWith finite_toString "test-" t with
  | JS.Normal b => b
  | JS.Throw _ => false
  end.

(** A history with two entries of the tests among three. *)
Definition tested_history : list value :=
  [ Obj [("id", Str "test-1"); ("is_fraud", Bool true);
         ("risk_score", Num (JS.Fin 0.9))];
    Obj [("id", Num (JS.Fin 1762171200000)); ("is_fraud", Bool false);
         ("risk_score", Num (JS.Fin 0.75))];
    Obj [("id", Str "test-2"); ("is_fraud", Bool false)] ].

Definition tested_storage : storage :=
  <["transactionHistory" := Arr tested_history]> ∅.

Definition one_decimal : Q -> nat -> string := fun _ _ => "0.0".

(** The form and the result of the mock transaction of the tests, lines
    107-123, for the readings of the clock [1762171200000]. *)
Definition mockFormData : object :=
  [ ("transaction_amount", Num (JS.Fin 5000));
    ("kyc_verified", Bool true);
    ("account_age_days", Num (JS.Fin 365));
    ("channel", Str "TRANSFER");
    ("timestamp", Str "2025-11-03T12:00:00.000Z") ].

Definition mockResult : object :=
  [ ("transaction_id", Str "test-1762171200000");
    ("is_fraud", Bool false);
    ("fraud_probability", Num (JS.Fin 0.15));
    ("risk_score", Num (JS.Fin 25));
    ("reason", Str "Transaction appears normal - TEST MODE");
    ("rules_triggered", Arr []);
    ("model_version", Str "v1.0");
    ("timestamp", Str "2025-11-03T12:00:00.000Z") ].

(** ** Further sample inputs *)

Definition ragged_dataset : Dataset :=
  match parseCSV ragged_csv with
  | JS.Normal dataset => dataset
  | JS.Throw _ => {| headers := []; data := []; rawText := "" |}
  end.

Definition ragged_row : row :=
  match data ragged_dataset with
  | r :: _ => r
  | [] => ∅
  end.

(** The first card of missing values of [labelled_dataset]. *)
Definition labelled_missing_card : missing_card :=
  match displayMissingValues two_decimals labelled_dataset with
  | card :: _ => card
  | [] => {| missing_header := ""; missingCount := 0;
             missingPercentage := "" |}
  end.

(** The spending cards of [labelled_dataset]. *)
Definition labelled_categories : list (string * JS.number * value) :=
  match displaySpendingCategories two_decimals labelled_dataset with
  | Categories cards => cards
  | Overview _ _ => []
  end.


(** * Properties *)

(** ** Numbers *)

Module JSFacts.

Lemma Qmult_comm_eq (x y : Q) : x * y = y * x.
Proof.
  unfold Qmult. f_equal; [apply Z.mul_comm | apply Pos.mul_comm].
Qed.

Lemma mul_comm (a b : JS.number) : (a * b)%js = (b * a)%js.
Proof.
  destruct a, b; simpl; try reflexivity.
  f_equal. apply Qmult_comm_eq.
Qed.

Lemma lt_Fin (x y : Q) : (JS.Fin x < JS.Fin y)%js = true <-> x < y.
Proof.
  unfold JS.lt; simpl.
  destruct (Qcompare_spec x y) as [H|H|H]; split; intros H'; try lra;
    try reflexivity; discriminate.
Qed.

Lemma lt_Fin_false (x y : Q) : (JS.Fin x < JS.Fin y)%js = false <-> y <= x.
Proof.
  unfold JS.lt; simpl.
  destruct (Qcompare_spec x y) as [H|H|H]; split; intros H'; try lra;
    try reflexivity; discriminate.
Qed.

Lemma le_Fin (x y : Q) : (JS.Fin x <= JS.Fin y)%js = true <-> x <= y.
Proof.
  unfold JS.le; simpl.
  destruct (Qcompare_spec x y) as [H|H|H]; split; intros H'; try lra;
    try reflexivity; discriminate.
Qed.

(** The clamp [Math.min(hi, Math.max(lo, x))] of a finite [x]. *)
Lemma clamp_Fin (lo hi x : Q) :
  lo <= hi ->
  exists q, JS.Math_min (JS.Fin hi) (JS.Math_max (JS.Fin lo) (JS.Fin x))
            = JS.Fin q
            /\ lo <= q <= hi
            /\ (hi <= x -> q == hi)
            /\ (lo <= x <= hi -> q == x)
            /\ (x <= lo -> q == lo).
Proof.
  intros Hlh. unfold JS.Math_max; simpl.
  destruct (JS.lt (JS.Fin lo) (JS.Fin x)) eqn:E1;
    [apply lt_Fin in E1 | apply lt_Fin_false in E1];
    unfold JS.Math_min; simpl.
  - destruct (JS.lt (JS.Fin x) (JS.Fin hi)) eqn:E2;
      [apply lt_Fin in E2; exists x | apply lt_Fin_false in E2; exists hi];
      repeat split; intros; lra.
  - destruct (JS.lt (JS.Fin lo) (JS.Fin hi)) eqn:E2;
      [apply lt_Fin in E2; exists lo | apply lt_Fin_false in E2; exists hi];
      repeat split; intros; lra.
Qed.

Lemma compare_antisym (a b : JS.number) :
  JS.compare b a = option_map CompOpp (JS.compare a b).
Proof.
  destruct a, b; simpl; try reflexivity.
  now rewrite <- Qcompare_antisym.
Qed.

Lemma le_not_gt (a b : JS.number) :
  (a <= b)%js = true -> (a > b)%js = false.
Proof.
  unfold JS.le, JS.gt, JS.lt. rewrite (compare_antisym a b).
  destruct (JS.compare a b) as [[]|]; simpl; congruence.
Qed.

Lemma ge_not_lt (a b : JS.number) :
  (a >= b)%js = true -> (a < b)%js = false.
Proof. apply le_not_gt. Qed.

(** An array of [n] elements read at [Math.floor(r * n)], for a draw [r]
    of [Math.random], is an element of the array. *)
Lemma index_random {A : Type} (l : list A) (r : Q) :
  0 <= r < 1 -> (0 < length l)%nat ->
  exists a, JS.index l (JS.Math_floor (JS.Fin r * JS.of_nat (length l))%js)
            = Some a.
Proof.
  intros [H0 H1] Hlen.
  unfold JS.index, JS.Math_floor, JS.mul, JS.of_nat, JS.of_Z.
  set (n := Z.of_nat (length l)).
  assert (Hn : 0 < inject_Z n).
  { replace 0 with (inject_Z 0) by reflexivity. rewrite <- Zlt_Qlt.
    unfold n. lia. }
  rewrite Qfloor_Z.
  assert (Hlo : (0 <= Qfloor (r * inject_Z n))%Z).
  { change 0%Z with (Qfloor 0). apply Qfloor_resp_le.
    apply Qmult_le_0_compat; lra. }
  assert (Hhi : (Qfloor (r * inject_Z n) < n)%Z).
  { rewrite Zlt_Qlt. apply Qle_lt_trans with (r * inject_Z n).
    - apply Qfloor_le.
    - apply Qlt_le_trans with (1 * inject_Z n).
      + apply Qmult_lt_compat_r; assumption.
      + rewrite Qmult_1_l. apply Qle_refl. }
  replace (Qeq_bool _ _) with true
    by (symmetry; apply Qeq_bool_iff; reflexivity).
  apply Z.leb_le in Hlo as Hlo'. rewrite Hlo'. cbn [andb].
  apply lookup_lt_is_Some. subst n. lia.
Qed.

(** Reading an array at an integer that is one of its indices. *)
Lemma index_of_nat {A : Type} (l : list A) (i : nat) :
  JS.index l (JS.of_nat i) = l !! i.
Proof.
  unfold JS.index, JS.of_nat, JS.of_Z. rewrite Qfloor_Z, Nat2Z.id.
  replace (Qeq_bool _ _) with true
    by (symmetry; apply Qeq_bool_iff; reflexivity).
  replace (0 <=? Z.of_nat i)%Z with true by (symmetry; apply Z.leb_le; lia).
  reflexivity.
Qed.

(** An index is read through its value: equal rationals read the same
    element. *)
Lemma index_ext {A : Type} (l : list A) (x y : Q) :
  x == y -> JS.index l (JS.Fin x) = JS.index l (JS.Fin y).
Proof.
  intros H. unfold JS.index. rewrite (Qfloor_comp _ _ H).
  replace (Qeq_bool x (inject_Z (Qfloor y)))
    with (Qeq_bool y (inject_Z (Qfloor y))); [reflexivity |].
  destruct (Qeq_bool x _) eqn:E.
  - apply Qeq_bool_iff. apply Qeq_bool_iff in E.
    apply Qeq_trans with x; [apply Qeq_sym, H | exact E].
  - destruct (Qeq_bool y _) eqn:E'; [| reflexivity].
    apply Qeq_bool_iff in E'.
    assert (E2 : x == inject_Z (Qfloor y)) by (apply Qeq_trans with y; auto).
    apply Qeq_bool_iff in E2. congruence.
Qed.

Lemma strict_eq_Fin (x y : Q) : (JS.Fin x === JS.Fin y)%js = true <-> x == y.
Proof.
  unfold JS.strict_eq; simpl.
  destruct (Qcompare_spec x y) as [H|H|H]; split; intros H'; try lra;
    try reflexivity; discriminate.
Qed.

(** Half of a count, rounded down, and the count less its half twice. *)
Lemma floor_half (n : nat) :
  JS.Math_floor (JS.of_nat n / JS.Fin 2)%js = JS.of_nat (n / 2).
Proof.
  unfold JS.of_nat, JS.of_Z, JS.div, JS.Math_floor.
  change (2 ?= 0) with Gt. cbv iota. do 2 f_equal.
  unfold Qdiv, Qmult, Qinv, inject_Z, Qfloor. cbn [Qnum Qden].
  rewrite Z.mul_1_r, Nat2Z.inj_div. reflexivity.
Qed.

Lemma rem_2_is_zero (n : nat) :
  (JS.of_nat n %% JS.Fin 2 === JS.Fin 0)%js = (n mod 2 =? 0)%nat.
Proof.
  unfold JS.of_nat, JS.of_Z, JS.rem.
  change (Qeq_bool 2 0) with false. cbv iota.
  assert (Hq : JS.Qtruncate (inject_Z (Z.of_nat n) / 2)
               = Z.of_nat (n / 2)).
  { unfold JS.Qtruncate.
    replace (Qle_bool 0 (inject_Z (Z.of_nat n) / 2)) with true.
    - unfold Qdiv, Qmult, Qinv, inject_Z, Qfloor. cbn [Qnum Qden].
      rewrite Z.mul_1_r, Nat2Z.inj_div. reflexivity.
    - symmetry. apply Qle_bool_iff.
      unfold Qle, Qdiv, Qmult, Qinv, inject_Z. cbn [Qnum Qden]. lia. }
  rewrite Hq.
  assert (Hiff : inject_Z (Z.of_nat n) - 2 * inject_Z (Z.of_nat (n / 2)) == 0
                 <-> (n mod 2 = 0)%nat).
  { unfold Qeq, Qminus, Qplus, Qopp, Qmult, inject_Z. cbn [Qnum Qden].
    pose proof (Nat.div_mod_eq n 2). lia. }
  destruct (n mod 2 =? 0)%nat eqn:E.
  - apply Nat.eqb_eq, Hiff in E. apply strict_eq_Fin. exact E.
  - apply Nat.eqb_neq in E.
    destruct (JS.strict_eq _ _) eqn:S; [| reflexivity].
    apply strict_eq_Fin, Hiff in S. contradiction.
Qed.

(** [0 / 0] is [NaN]. *)
Lemma div_zero_zero (a b : Q) :
  a == 0 -> b == 0 -> (JS.Fin a / JS.Fin b)%js = JS.NaN.
Proof.
  intros Ha Hb. unfold JS.div.
  apply Qeq_alt in Ha, Hb. rewrite Ha, Hb. reflexivity.
Qed.

(** A ratio of two counts is above 0.8 when five times the first exceeds
    four times the second. *)
Lemma ratio_above_80 (k n : nat) :
  (0 < n)%nat ->
  (JS.of_nat k / JS.of_nat n > JS.Fin 0.8)%js = (4 * n <? 5 * k)%nat.
Proof.
  intros Hn. unfold JS.of_nat, JS.of_Z, JS.gt, JS.div.
  assert (Hq : 0 < inject_Z (Z.of_nat n)).
  { replace 0 with (inject_Z 0) by reflexivity. rewrite <- Zlt_Qlt. lia. }
  apply Qgt_alt in Hq as Hc. rewrite Hc.
  set (K := inject_Z (Z.of_nat k)) in *.
  set (N := inject_Z (Z.of_nat n)) in *.
  assert (Hiff : 0.8 * N < K <-> (4 * n < 5 * k)%nat).
  { subst K N. unfold Qlt, Qmult, inject_Z. simpl. lia. }
  destruct (4 * n <? 5 * k)%nat eqn:E.
  - apply Nat.ltb_lt, Hiff in E. apply lt_Fin.
    apply Qlt_shift_div_l; assumption.
  - apply Nat.ltb_ge in E. apply lt_Fin_false.
    apply Qle_shift_div_r; [assumption |].
    apply Qnot_lt_le. intros H. apply Hiff in H. lia.
Qed.

(** On numbers that are not [NaN], the comparator [(a, b) => a - b] is
    positive exactly when [a] is the greater. *)
Lemma difference_positive (a b : JS.number) :
  JS.isNaN a = false -> JS.isNaN b = false ->
  ((a - b) > JS.Fin 0)%js = (b < a)%js.
Proof.
  destruct a as [| | | x], b as [| | | y]; try discriminate;
    intros _ _; try reflexivity.
  unfold JS.sub, JS.neg, JS.add, JS.gt.
  destruct (JS.lt (JS.Fin y) (JS.Fin x)) eqn:E.
  - apply lt_Fin in E. apply lt_Fin. lra.
  - apply lt_Fin_false in E. apply lt_Fin_false. lra.
Qed.

Lemma lt_le (a b : JS.number) : (a < b)%js = true -> (a <= b)%js = true.
Proof.
  unfold JS.lt, JS.le. destruct (JS.compare a b) as [[]|]; congruence.
Qed.

Lemma not_lt_le (a b : JS.number) :
  JS.isNaN a = false -> JS.isNaN b = false ->
  (b < a)%js = false -> (a <= b)%js = true.
Proof.
  unfold JS.lt, JS.le. rewrite (compare_antisym a b).
  destruct a, b; try discriminate; intros _ _; simpl; try congruence.
  destruct (q ?= q0); simpl; congruence.
Qed.

End JSFacts.

(** ** The mock fraud scorer *)

Section ScorerFacts.

Variable draws : nat -> Q.
Variable finite_toString : Q -> string.

Abbreviation score := (generateEnhancedMockPrediction draws finite_toString).

(** What a run of the scorer returns: it never throws, the rules and the
    risk value are those of the trigger conditions, and the explanation is
    an element of a pool of three picked by one draw. *)
Lemma scorer_run (formData : FormData) (k : nat) :
  exists (isFraud : bool) (pool : list string) (kx k' : nat),
    score formData k
    = JS.Normal
        ({| is_fraud := isFraud;
            prediction := if isFraud then JS.Fin 1 else JS.Fin 0;
            fraud := isFraud;
            risk_score := clamp (raw_score (draws k) formData);
            confidence := clamp (raw_score (draws k) formData);
            rules_triggered := expected_rules formData;
            llm_explanation :=
              JS.index pool
                (JS.Math_floor
                   (JS.Fin (draws kx) * JS.of_nat (length pool))%js) |}, k')
    /\ length pool = 3%nat
    /\ (expected_rules formData = [] -> isFraud = false).
Proof.
  unfold generateEnhancedMockPrediction, generateLLMExplanation,
    or_random_above, bind, ret, Math_random, expected_rules, raw_score, raise,
    rule_amount, rule_new_account, rule_kyc, rule_mobile, clamp, push.
  destruct (transaction_amount formData > JS.Fin 10000)%js;
  destruct (account_age_days formData < JS.Fin 30)%js;
  destruct (kyc_verified formData);
  destruct (String.eqb (channel formData) "mobile"
            && (transaction_amount formData > JS.Fin 5000)%js);
  cbn [negb app];
  repeat match goal with
         | |- context [if ?c then _ else _] =>
             match c with
             | (_ > _)%js => destruct c
             end
         end;
  cbn [property explanations String.eqb Ascii.eqb Bool.eqb];
  lazymatch goal with
  | |- context [JS.Normal
                  (Build_Prediction ?b _ _ _ _ _
                     (JS.index ?pool
                        (JS.Math_floor (JS.Fin (draws ?kx) * _)%js)), ?k')] =>
      exists b, pool, kx, k'
  end;
  (split; [reflexivity | split; [reflexivity |]]);
  intros H; first [reflexivity | discriminate H].
Qed.

(** The risk value before the clamp is finite, and is the baseline plus
    the amounts of the triggered rules. *)
Lemma raw_score_Fin (r : Q) (formData : FormData) :
  exists x, raw_score r formData = JS.Fin x
    /\ (rule_amount formData = true -> rule_new_account formData = true ->
        rule_kyc formData = true -> rule_mobile formData = true ->
        x == r * 0.3 + 0.7 + 0.55)
    /\ (rule_amount formData = false -> rule_new_account formData = false ->
        rule_kyc formData = false -> rule_mobile formData = false ->
        x == r * 0.3 + 0.7).
Proof.
  unfold raw_score, raise.
  destruct (rule_amount formData), (rule_new_account formData),
    (rule_kyc formData), (rule_mobile formData); simpl;
    eexists; (split; [reflexivity |]); split; intros; try discriminate;
    try reflexivity; ring.
Qed.

(** C1: for every input and every realization of the random source, the
    scorer returns a verdict whose risk score is a number in
    [0.05, 0.95], bounds included. *)
Theorem risk_score_in_range (formData : FormData) (k : nat) :
  exists (p : Prediction) (k' : nat) (q : Q),
    score formData k = JS.Normal (p, k')
    /\ risk_score p = JS.Fin q
    /\ 0.05 <= q <= 0.95.
Proof.
  destruct (scorer_run formData k) as (b & pool & kx & k' & Hrun & _).
  destruct (raw_score_Fin (draws k) formData) as (x & Hx & _).
  destruct (JSFacts.clamp_Fin 0.05 0.95 x) as (q & Hq & Hrange & _);
    [lra |].
  eexists _, k', q. split; [exact Hrun |]. simpl.
  unfold clamp. rewrite Hx. auto.
Qed.

(** C2: when the four trigger conditions hold together (amount above
    10,000, account younger than 30 days, KYC not verified, mobile channel
    with amount above 5,000), the verdict lists exactly the four rules, in
    the order amount, new account, KYC, mobile. *)
Theorem all_four_rules_triggered (formData : FormData) (k : nat) :
  rule_amount formData = true ->
  rule_new_account formData = true ->
  rule_kyc formData = true ->
  rule_mobile formData = true ->
  exists (p : Prediction) (k' : nat),
    score formData k = JS.Normal (p, k')
    /\ length (rules_triggered p) = 4%nat
    /\ rules_triggered p
       = [ "Amount exceeds threshold";
           "New account with limited history";
           "KYC verification pending";
           "High mobile transaction" ].
Proof.
  intros H1 H2 H3 H4.
  destruct (scorer_run formData k) as (b & pool & kx & k' & Hrun & _).
  eexists _, k'. split; [exact Hrun |]. simpl.
  unfold expected_rules. rewrite H1, H2, H3, H4. split; reflexivity.
Qed.

(** C3: for one realization of the random source read from the same
    position, the risk score returned for an input that meets the four
    trigger conditions is at least the one returned for an input that
    meets none of them. *)
Theorem risk_score_all_ge_none (all none : FormData) (k : nat) :
  rule_amount all = true ->
  rule_new_account all = true ->
  rule_kyc all = true ->
  rule_mobile all = true ->
  rule_amount none = false ->
  rule_new_account none = false ->
  rule_kyc none = false ->
  rule_mobile none = false ->
  exists (p4 p0 : Prediction) (k4 k0 : nat),
    score all k = JS.Normal (p4, k4)
    /\ score none k = JS.Normal (p0, k0)
    /\ (risk_score p4 >= risk_score p0)%js = true.
Proof.
  intros A1 A2 A3 A4 N1 N2 N3 N4.
  destruct (scorer_run all k) as (b4 & pool4 & kx4 & k4 & Hrun4 & _).
  destruct (scorer_run none k) as (b0 & pool0 & kx0 & k0 & Hrun0 & _).
  destruct (raw_score_Fin (draws k) all) as (x4 & Hx4 & Hall & _).
  destruct (raw_score_Fin (draws k) none) as (x0 & Hx0 & _ & Hnone).
  specialize (Hall A1 A2 A3 A4). specialize (Hnone N1 N2 N3 N4).
  destruct (JSFacts.clamp_Fin 0.05 0.95 x4)
    as (q4 & Hq4 & R4 & Hi4 & Mid4 & _); [lra |].
  destruct (JSFacts.clamp_Fin 0.05 0.95 x0)
    as (q0 & Hq0 & R0 & Hi0 & Mid0 & Lo0); [lra |].
  eexists _, _, k4, k0. split; [exact Hrun4 |]. split; [exact Hrun0 |].
  simpl. unfold clamp. rewrite Hx4, Hx0, Hq4, Hq0.
  unfold JS.ge. apply JSFacts.le_Fin.
  destruct (Qlt_le_dec x0 0.05) as [Lo | Lo]; [|
    destruct (Qlt_le_dec x0 0.95) as [Up | Up] ].
  - rewrite (Lo0 (Qlt_le_weak _ _ Lo)). lra.
  - rewrite (Mid0 (conj Lo (Qlt_le_weak _ _ Up))).
    destruct (Qlt_le_dec x4 0.95) as [Up4 | Up4].
    + assert (M : 0.05 <= x4 <= 0.95) by lra. rewrite (Mid4 M). lra.
    + rewrite (Hi4 Up4). lra.
  - assert (Up4 : 0.95 <= x4) by lra. rewrite (Hi4 Up4). lra.
Qed.

(** C7: the evaluation of the scorer is total: for every input, an amount
    that is zero or negative included, and every realization of the random
    source in [0, 1), it throws nothing and returns a complete verdict: a
    fraud flag with its two copies, a risk score in range with its copy, a
    list of rules and an explanation that is a string. *)
Theorem scorer_total (formData : FormData) (k : nat) :
  unit_interval draws ->
  exists (p : Prediction) (k' : nat),
    score formData k = JS.Normal (p, k')
    /\ fraud p = is_fraud p
    /\ prediction p = (if is_fraud p then JS.Fin 1 else JS.Fin 0)
    /\ (exists q, risk_score p = JS.Fin q /\ 0.05 <= q <= 0.95)
    /\ confidence p = risk_score p
    /\ rules_triggered p = expected_rules formData
    /\ (exists s, llm_explanation p = Some s).
Proof.
  intros Hdraws.
  destruct (scorer_run formData k) as (b & pool & kx & k' & Hrun & Hlen & _).
  destruct (raw_score_Fin (draws k) formData) as (x & Hx & _).
  destruct (JSFacts.clamp_Fin 0.05 0.95 x) as (q & Hq & Hrange & _);
    [lra |].
  eexists _, k'. split; [exact Hrun |]. simpl.
  repeat split; try reflexivity.
  - exists q. unfold clamp. rewrite Hx. auto.
  - apply JSFacts.index_random; [apply Hdraws | lia].
Qed.

(** C10: when none of the four trigger conditions holds (amount at most
    10,000, account at least 30 days old, KYC verified, and not both the
    mobile channel and an amount above 5,000), the verdict is not fraud and
    lists no rule, whatever the random source draws. *)
Theorem no_trigger_not_fraud (formData : FormData) (k : nat) :
  (transaction_amount formData <= JS.Fin 10000)%js = true ->
  (account_age_days formData >= JS.Fin 30)%js = true ->
  kyc_verified formData = true ->
  rule_mobile formData = false ->
  exists (p : Prediction) (k' : nat),
    score formData k = JS.Normal (p, k')
    /\ is_fraud p = false
    /\ rules_triggered p = [].
Proof.
  intros H1 H2 H3 H4.
  destruct (scorer_run formData k) as (b & pool & kx & k' & Hrun & _ & Hb).
  assert (Hrules : expected_rules formData = []).
  { unfold expected_rules, rule_amount, rule_new_account, rule_kyc.
    rewrite (JSFacts.le_not_gt _ _ H1), (JSFacts.ge_not_lt _ _ H2), H3, H4.
    reflexivity. }
  eexists _, k'. split; [exact Hrun |]. simpl. auto.
Qed.

End ScorerFacts.

(** ** The transaction history *)

Section HistoryFacts.

Variable now : Q.
Variable nowISO : string.

(** The first declaration of [saveToTransactionHistory] keeps the bound:
    whatever array is stored, the array it writes has at most 100 entries
    and starts with the new record. *)
Lemma saveToTransactionHistory_bounded (formData result : object)
  (ls : storage) (history : list value) :
  stored_history ls = Some history ->
  exists (ls' : storage) (record : value) (rest : list value),
    saveToTransactionHistory now nowISO formData result ls = JS.Normal ls'
    /\ stored_history ls' = Some (record :: rest)
    /\ (length (record :: rest) <= 100)%nat
    /\ length (record :: rest) = Nat.min 100 (S (length history)).
Proof.
  unfold stored_history, saveToTransactionHistory, getItem_parsed.
  destruct (ls !! "transactionHistory") as [[]|] eqn:E; try discriminate.
  intros [= ->].
  set (rec := Obj _).
  destruct (100 <? length (rec :: history))%nat eqn:L.
  - apply Nat.ltb_lt in L. simpl in L.
    eexists _, (JSON_roundtrip rec), (List.map JSON_roundtrip (take 99 history)).
    split; [reflexivity |]. unfold setItem_json.
    rewrite lookup_insert_eq. split; [reflexivity |].
    cbn [length]. rewrite length_map, length_take. lia.
  - apply Nat.ltb_ge in L. simpl in L.
    eexists _, (JSON_roundtrip rec), (List.map JSON_roundtrip history).
    split; [reflexivity |]. unfold setItem_json.
    rewrite lookup_insert_eq. split; [reflexivity |].
    cbn [length]. rewrite length_map. lia.
Qed.

(** The two other saves prepend the new record and drop nothing: the
    stored array grows by one entry at each call. *)
Lemma saveToEnhancedTransactionHistory_grows (formData result : object)
  (ls : storage) (history : list value) :
  stored_history ls = Some history ->
  exists (ls' : storage) (record : value),
    saveToEnhancedTransactionHistory now nowISO formData result ls
    = JS.Normal ls'
    /\ stored_history ls'
       = Some (record :: List.map JSON_roundtrip history).
Proof.
  unfold stored_history, saveToEnhancedTransactionHistory, getItem_parsed.
  destruct (ls !! "transactionHistory") as [[]|] eqn:E; try discriminate.
  intros [= ->]. set (rec := Obj _).
  exists (setItem_json ls "transactionHistory" (Arr (rec :: history))),
    (JSON_roundtrip rec).
  split; [reflexivity |].
  unfold setItem_json. rewrite lookup_insert_eq. reflexivity.
Qed.

Lemma saveToTransactionHistory_redeclared_grows
  (finite_toString : Q -> string) (formData result : object)
  (ls : storage) (history : list value) :
  stored_history ls = Some history ->
  exists (ls' : storage) (record : value),
    saveToTransactionHistory_redeclared now nowISO finite_toString
      formData result ls
    = JS.Normal ls'
    /\ stored_history ls'
       = Some (record :: List.map JSON_roundtrip history).
Proof.
  unfold stored_history, saveToTransactionHistory_redeclared, getItem_parsed.
  destruct (ls !! "transactionHistory") as [[]|] eqn:E; try discriminate.
  intros [= ->]. set (rec := Obj _).
  exists (setItem_json ls "transactionHistory" (Arr (rec :: history))),
    (JSON_roundtrip rec).
  split; [reflexivity |].
  unfold setItem_json. rewrite lookup_insert_eq. reflexivity.
Qed.

End HistoryFacts.

(** C8: the bound of 100 entries is not kept by
    [saveToEnhancedTransactionHistory], the save that [checkTransaction]
    calls: after 100 checks the stored history has 100 entries, and the
    next save leaves 101 of them in [localStorage]. *)
Theorem enhanced_history_exceeds_bound :
  history_length (enhanced_saves 100 ∅) = Some 100%nat
  /\ history_length (enhanced_saves 101 ∅) = Some 101%nat.
Proof. split; vm_compute; reflexivity. Qed.

(** ** The CSV analytics report *)

Section AnalyticsFacts.

Variable Math_sqrt : JS.number -> JS.number.
Variable Date_parse : string -> JS.number.
Variable finite_toString : Q -> string.
Variable finite_toFixed : Q -> nat -> string.

(** C5: for a dataset without rows the report does not state 0: the
    three percentages are computed as [0 / 0] (and [undefined / 0]) and are
    rendered as the text [NaN%]; nothing is thrown. *)
Theorem data_quality_of_empty_rows_is_NaN (columns : list string)
  (text : string) :
  displayDataQuality finite_toString finite_toFixed
    {| headers := columns; data := []; rawText := text |}
  = [ {| label := "Data Completeness"; value_of := Str "NaN%" |};
      {| label := "Data Consistency"; value_of := Str "NaN%" |};
      {| label := "Data Uniqueness"; value_of := Str "NaN%" |};
      {| label := "Empty Cells"; value_of := Num (JS.Fin 0) |} ].
Proof.
  unfold displayDataQuality, calculateDataConsistency,
    calculateDataUniqueness.
  cbn [headers data length List.fold_left].
  unfold JS.of_nat, JS.of_Z, JS.sub, JS.neg, JS.mul, JS.add.
  rewrite JSFacts.div_zero_zero.
  - reflexivity.
  - change (inject_Z (Z.of_nat 0)) with 0. ring.
  - change (inject_Z (Z.of_nat 0)) with 0. ring.
Qed.

Lemma inferDataType_classify (values : list string) :
  inferDataType Date_parse values
  = classify_sample Date_parse (take 100 values).
Proof.
  unfold inferDataType, classify_sample, count.
  destruct values as [| v values]; [reflexivity |].
  cbn [length Nat.eqb take].
  change (length (v :: take 99 values)) with (S (length (take 99 values))).
  rewrite !JSFacts.ratio_above_80 by lia.
  reflexivity.
Qed.

Lemma column_values_not_blank (header : string) (rows : list row) :
  Forall (fun v => is_blank (Some v) = false) (column_values header rows).
Proof.
  unfold column_values. induction rows as [| r rows IH];
    cbn [List.flat_map].
  - constructor.
  - apply Forall_app. split; [| exact IH].
    destruct (r !! header) as [v |]; [| constructor].
    destruct (is_blank (Some v)) eqn:E; [constructor |].
    constructor; [exact E | constructor].
Qed.

(** C6, as the code has it: for every column, type inference is handed
    the non-blank values and looks at the first 100 of them only; it
    answers Unknown when there is none, Numeric when strictly more than 80%
    of the sample read as numbers, otherwise Date when strictly more than
    80% read as dates, otherwise Text. *)
Theorem inferDataType_strict_thresholds (header : string) (rows : list row) :
  let values := column_values header rows in
  Forall (fun v => is_blank (Some v) = false) values
  /\ inferDataType Date_parse values
     = classify_sample Date_parse (take 100 values).
Proof.
  split; [apply column_values_not_blank | apply inferDataType_classify].
Qed.

(** *** Sorting in place *)

Lemma sort_insert_permutation {A : Type} (comparefn : A -> A -> JS.number)
  (a : A) (l : list A) :
  Permutation (a :: l) (sort_insert comparefn a l).
Proof.
  induction l as [| b l IH]; simpl.
  - apply Permutation_refl.
  - destruct (comparefn a b > JS.Fin 0)%js.
    + apply perm_trans with (b :: a :: l); [apply perm_swap |].
      apply perm_skip, IH.
    + apply Permutation_refl.
Qed.

Lemma Array_sort_permutation {A : Type} (comparefn : A -> A -> JS.number)
  (l : list A) :
  Permutation l (Array_sort comparefn l).
Proof.
  induction l as [| a l IH]; simpl.
  - apply perm_nil.
  - apply perm_trans with (a :: Array_sort comparefn l).
    + apply perm_skip, IH.
    + apply sort_insert_permutation.
Qed.

Lemma sort_insert_HdRel (a b : JS.number) (l : list JS.number) :
  ascending b a -> HdRel ascending b l ->
  HdRel ascending b (sort_insert by_difference a l).
Proof.
  intros Hba Hb. destruct l as [| c l]; simpl.
  - constructor. exact Hba.
  - inversion Hb; subst.
    destruct ((a - c) > JS.Fin 0)%js; constructor; assumption.
Qed.

Lemma sort_insert_sorted (a : JS.number) (l : list JS.number) :
  not_NaN a -> Forall not_NaN l -> Sorted ascending l ->
  Sorted ascending (sort_insert by_difference a l).
Proof.
  intros Ha Hl Hs. induction Hs as [| b l Hs IH Hb]; simpl.
  - repeat constructor.
  - inversion Hl as [| ? ? Hbn Hl']; subst.
    rewrite (JSFacts.difference_positive a b Ha Hbn).
    destruct (b < a)%js eqn:E.
    + constructor; [apply IH, Hl' |].
      apply sort_insert_HdRel; [apply JSFacts.lt_le, E | exact Hb].
    + constructor; [constructor; assumption |].
      constructor. apply JSFacts.not_lt_le; assumption.
Qed.

Lemma Array_sort_sorted (l : list JS.number) :
  Forall not_NaN l -> Sorted ascending (Array_sort by_difference l).
Proof.
  induction 1 as [| a l Ha Hl IH]; simpl.
  - constructor.
  - apply sort_insert_sorted; [exact Ha | | exact IH].
    apply (Permutation_Forall (Array_sort_permutation _ l)). exact Hl.
Qed.

(** C9, as the code has it: for numbers none of which is [NaN],
    [calculateMedian] sorts the caller's array in place, leaving it in
    ascending order with the same elements, and returns the middle element
    of the sorted array for an odd length, the mean of its two middle
    elements for an even one. *)
Theorem calculateMedian_sorts_in_place (values : list JS.number) :
  values <> [] ->
  Forall not_NaN values ->
  let median := (calculateMedian values).1 in
  let left_behind := (calculateMedian values).2 in
  Permutation values left_behind
  /\ Sorted ascending left_behind
  /\ (forall m : nat,
        length values = (2 * m + 1)%nat -> left_behind !! m = Some median)
  /\ (forall m : nat,
        length values = (2 * m)%nat ->
        exists a b,
          left_behind !! (m - 1)%nat = Some a
          /\ left_behind !! m = Some b
          /\ median = ((a + b) / JS.Fin 2)%js).
Proof.
  intros Hne Hnum. unfold calculateMedian. cbn [fst snd].
  set (sorted := Array_sort by_difference values).
  assert (Hperm : Permutation values sorted)
    by apply Array_sort_permutation.
  assert (Hlen : length sorted = length values)
    by (symmetry; apply Permutation_length, Hperm).
  split; [exact Hperm |]. split; [apply Array_sort_sorted, Hnum |].
  rewrite JSFacts.floor_half, JSFacts.rem_2_is_zero, Hlen.
  split; intros m Hm; rewrite Hm.
  - replace ((2 * m + 1) mod 2)%nat with 1%nat
      by (rewrite Nat.add_comm, Nat.mul_comm, Nat.Div0.mod_add; reflexivity).
    replace ((2 * m + 1) / 2)%nat with m
      by (rewrite Nat.add_comm, Nat.mul_comm, Nat.div_add by lia;
          reflexivity).
    cbn [Nat.eqb]. rewrite JSFacts.index_of_nat.
    destruct (lookup_lt_is_Some_2 sorted m) as [v Hv]; [lia |].
    rewrite Hv. reflexivity.
  - assert (Hm1 : (1 <= m)%nat).
    { destruct values; [congruence | simpl in Hm; lia]. }
    replace ((2 * m) mod 2)%nat with 0%nat
      by (rewrite Nat.mul_comm, Nat.Div0.mod_mul; reflexivity).
    replace ((2 * m) / 2)%nat with m
      by (rewrite Nat.mul_comm, Nat.div_mul by lia; reflexivity).
    cbn [Nat.eqb]. rewrite JSFacts.index_of_nat.
    replace (JS.index sorted (JS.of_nat m - JS.Fin 1)%js)
      with (sorted !! (m - 1)%nat).
    + destruct (lookup_lt_is_Some_2 sorted (m - 1)) as [a Ha]; [lia |].
      destruct (lookup_lt_is_Some_2 sorted m) as [b Hb]; [lia |].
      rewrite Ha, Hb. exists a, b. auto.
    + rewrite <- JSFacts.index_of_nat.
      unfold JS.of_nat, JS.of_Z, JS.sub, JS.neg, JS.add.
      apply JSFacts.index_ext.
      unfold Qeq, Qplus, Qopp, inject_Z. cbn [Qnum Qden]. lia.
Qed.

(** *** The correlation matrix *)

Lemma element_middle (p q : list JS.number) (c : JS.number) :
  JS.element (JS.index (p ++ c :: q) (JS.of_nat (length p))) = c.
Proof.
  rewrite JSFacts.index_of_nat, list_lookup_middle by reflexivity.
  reflexivity.
Qed.

(** The sum of products read through indices is the sum over the pairs of
    the two arrays, when they are equally long. *)
Lemma sum_of_products_combine (x y p : list JS.number) (acc : JS.number) :
  length x = length y ->
  reduce_from
    (fun a b i => (a + b * JS.element (JS.index (p ++ y) (JS.of_nat i)))%js)
    (length p) x acc
  = List.fold_left (fun a bc => (a + bc.1 * bc.2)%js) (List.combine x y) acc.
Proof.
  revert y p acc. induction x as [| b x IH]; intros [| c y] p acc Hlen;
    try discriminate; [reflexivity |].
  cbn [reduce_from List.combine List.fold_left fst snd].
  rewrite element_middle.
  replace (p ++ c :: y)%list with ((p ++ [c]) ++ y)%list
    by (now rewrite <- app_assoc).
  replace (S (length p)) with (length (p ++ [c])%list)
    by (rewrite length_app; simpl; lia).
  apply IH. simpl in Hlen. lia.
Qed.

Lemma sum_of_products_swap (x y : list JS.number) (acc : JS.number) :
  List.fold_left (fun a bc => (a + bc.1 * bc.2)%js) (List.combine x y) acc
  = List.fold_left (fun a bc => (a + bc.1 * bc.2)%js) (List.combine y x) acc.
Proof.
  revert y acc. induction x as [| b x IH]; intros [| c y] acc;
    try reflexivity.
  cbn [List.combine List.fold_left fst snd].
  rewrite (JSFacts.mul_comm b c). apply IH.
Qed.

(** The coefficient does not depend on the order of its two arguments. *)
Lemma calculateCorrelation_comm (x y : list JS.number) :
  calculateCorrelation Math_sqrt x y = calculateCorrelation Math_sqrt y x.
Proof.
  unfold calculateCorrelation.
  destruct (Nat.eq_dec (length x) (length y)) as [Hlen | Hlen].
  - rewrite <- Hlen, Nat.eqb_refl. cbn [negb orb].
    destruct (length x =? 0)%nat; [reflexivity |].
    unfold reduce.
    rewrite (sum_of_products_combine x y [] _ Hlen).
    rewrite (sum_of_products_combine y x [] _ (eq_sym Hlen)).
    rewrite (sum_of_products_swap y x).
    set (sumX := reduce_from (fun a b _ => (a + b)%js) 0 x (JS.Fin 0)).
    set (sumY := reduce_from (fun a b _ => (a + b)%js) 0 y (JS.Fin 0)).
    set (sumX2 := reduce_from (fun a b _ => (a + b * b)%js) 0 x (JS.Fin 0)).
    set (sumY2 := reduce_from (fun a b _ => (a + b * b)%js) 0 y (JS.Fin 0)).
    rewrite (JSFacts.mul_comm sumY sumX).
    rewrite (JSFacts.mul_comm
               (JS.of_nat (length x) * sumY2 - sumY * sumY)%js).
    reflexivity.
  - apply Nat.eqb_neq in Hlen as H1. rewrite H1.
    assert (H2 : (length y =? length x)%nat = false)
      by (apply Nat.eqb_neq; congruence).
    rewrite H2. reflexivity.
Qed.

Lemma entry_calculateCorrelationMatrix (columns : list string)
  (rows : list row) (i j : nat) (col1 col2 : string) :
  columns !! i = Some col1 -> columns !! j = Some col2 ->
  entry (calculateCorrelationMatrix Math_sqrt columns rows) i j
  = Some (if (i =? j)%nat then JS.Fin 1
          else calculateCorrelation Math_sqrt
                 (numeric_values col1 rows) (numeric_values col2 rows)).
Proof.
  intros Hi Hj. unfold entry, calculateCorrelationMatrix.
  rewrite list_lookup_imap, Hi. cbn [fmap option_fmap option_map].
  rewrite list_lookup_imap, Hj. reflexivity.
Qed.

(** C4: the correlation matrix computed over the numeric columns of a
    dataset is symmetric, entry (i, j) being the entry (j, i) for every
    pair of numeric columns, and each of its diagonal entries is 1. *)
Theorem correlation_matrix_symmetric_unit_diagonal (dataset : Dataset)
  (i j : nat) :
  let columns := numericColumns dataset in
  let matrix :=
    calculateCorrelationMatrix Math_sqrt columns (data dataset) in
  (i < length columns)%nat ->
  (j < length columns)%nat ->
  (exists c, entry matrix i j = Some c /\ entry matrix j i = Some c)
  /\ entry matrix i i = Some (JS.Fin 1).
Proof.
  intros columns matrix Hi Hj.
  destruct (lookup_lt_is_Some_2 columns i Hi) as [col1 H1].
  destruct (lookup_lt_is_Some_2 columns j Hj) as [col2 H2].
  subst matrix. split.
  - rewrite (entry_calculateCorrelationMatrix _ _ i j col1 col2 H1 H2).
    rewrite (entry_calculateCorrelationMatrix _ _ j i col2 col1 H2 H1).
    rewrite (Nat.eqb_sym j i).
    rewrite (calculateCorrelation_comm (numeric_values col2 _)).
    eexists. split; reflexivity.
  - rewrite (entry_calculateCorrelationMatrix _ _ i i col1 col1 H1 H1).
    rewrite Nat.eqb_refl. reflexivity.
Qed.

End AnalyticsFacts.

(** C9, counterexample: the array [3, 1, 2] handed to [calculateMedian]
    is [1, 2, 3] when the call returns. *)
Lemma calculateMedian_reorders_input :
  (calculateMedian unsorted_amounts).2 = [JS.Fin 1; JS.Fin 2; JS.Fin 3]
  /\ (calculateMedian unsorted_amounts).2 <> unsorted_amounts.
Proof. split; [reflexivity | discriminate]. Qed.

(** C6, counterexample: of the five values [1, 2, 3, 4, x] exactly 80%
    read as numbers; the classification as specified is Numeric, the
    code's is not, whatever [Date.parse] accepts. *)
Lemma inferDataType_at_80_percent :
  (forall Date_parse,
     inferDataType_as_specified Date_parse four_of_five = Numeric)
  /\ (forall Date_parse, inferDataType Date_parse four_of_five <> Numeric).
Proof.
  split; intros Date_parse.
  - reflexivity.
  - unfold inferDataType, four_of_five. cbn [length Nat.eqb take].
    set (numericCount := length (List.filter _ _)).
    replace numericCount with 4%nat by (vm_compute; reflexivity).
    rewrite JSFacts.ratio_above_80 by lia.
    cbn [Nat.mul Nat.add Nat.ltb Nat.leb].
    match goal with
    | |- context [if ?c then Date else Text] => destruct c; discriminate
    end.
Qed.

(** ** Runs on small inputs *)

Example ToNumber_samples :
  List.map ToNumber ["1"; " 2.5 "; "x"; ""; "0x1F"; "1e"; "-.5"; "Infinity"]
  = [ JS.Fin 1; JS.Fin 2.5; JS.NaN; JS.Fin 0; JS.Fin 31; JS.NaN;
      JS.Fin (-0.5); JS.PosInf ].
Proof. vm_compute. reflexivity. Qed.

Example parseFloat_samples :
  List.map parseFloat [Some "12px"; Some " 3.5"; Some "abc"; Some ""; None]
  = [JS.Fin 12; JS.Fin 3.5; JS.NaN; JS.NaN; JS.NaN].
Proof. vm_compute. reflexivity. Qed.

Example scorer_on_international_form :
  generateEnhancedMockPrediction half_draws plain_toString
    international_form 0%nat
  = JS.Normal
      ({| is_fraud := true;
          prediction := JS.Fin 1;
          fraud := true;
          risk_score := JS.Fin 0.95;
          confidence := JS.Fin 0.95;
          rules_triggered :=
            [ "Amount exceeds threshold";
              "New account with limited history";
              "KYC verification pending" ];
          llm_explanation :=
            Some "Multiple risk factors detected: transaction from international channel with n-day old account raises security concerns." |},
       3%nat).
Proof. vm_compute. reflexivity. Qed.

Example scorer_on_quiet_form :
  match
    generateEnhancedMockPrediction half_draws plain_toString quiet_form 0%nat
  with
  | JS.Normal (p, k') =>
      is_fraud p = false
      /\ rules_triggered p = []
      /\ (exists q, risk_score p = JS.Fin q /\ q == 0.85)
      /\ llm_explanation p
         = Some "No significant risk factors detected. Transaction amount and channel usage align with typical customer behavior for n-day old account."
      /\ k' = 2%nat
  | JS.Throw _ => False
  end.
Proof.
  vm_compute. repeat split; try reflexivity.
  eexists. split; reflexivity.
Qed.

Example two_columns_are_numeric :
  numericColumns two_columns = ["a"; "b"]
  /\ inferDataType (fun _ => JS.NaN) (column_values "a" (data two_columns))
     = Numeric.
Proof. split; vm_compute; reflexivity. Qed.

Example two_columns_correlate :
  match
    entry (calculateCorrelationMatrix sqrt_12_digits ["a"; "b"]
             (data two_columns)) 0 1
  with
  | Some (JS.Fin c) => c == 1
  | _ => False
  end.
Proof. vm_compute. reflexivity. Qed.

Example median_of_four :
  calculateMedian [JS.Fin 10; JS.Fin 3; JS.Fin 1; JS.Fin 2]
  = (JS.Fin (5 # 2), [JS.Fin 1; JS.Fin 2; JS.Fin 3; JS.Fin 10]).
Proof. vm_compute. reflexivity. Qed.

Example median_of_nothing : calculateMedian [] = (JS.NaN, []).
Proof. reflexivity. Qed.

(** ** The statements at sample inputs *)

Lemma all_four_rules_triggered_witness :
  (rule_amount risky_form = true
   /\ rule_new_account risky_form = true
   /\ rule_kyc risky_form = true
   /\ rule_mobile risky_form = true)
  /\ exists (p : Prediction) (k' : nat),
       generateEnhancedMockPrediction half_draws plain_toString risky_form 0%nat
       = JS.Normal (p, k')
       /\ length (rules_triggered p) = 4%nat
       /\ rules_triggered p
          = [ "Amount exceeds threshold";
              "New account with limited history";
              "KYC verification pending";
              "High mobile transaction" ].
Proof.
  split; [repeat split; reflexivity |].
  apply (all_four_rules_triggered half_draws plain_toString risky_form 0%nat);
    reflexivity.
Defined.

Lemma risk_score_all_ge_none_witness :
  (rule_amount risky_form = true
   /\ rule_new_account risky_form = true
   /\ rule_kyc risky_form = true
   /\ rule_mobile risky_form = true
   /\ rule_amount quiet_form = false
   /\ rule_new_account quiet_form = false
   /\ rule_kyc quiet_form = false
   /\ rule_mobile quiet_form = false)
  /\ exists (p4 p0 : Prediction) (k4 k0 : nat),
       generateEnhancedMockPrediction half_draws plain_toString risky_form 0%nat
       = JS.Normal (p4, k4)
       /\ generateEnhancedMockPrediction half_draws plain_toString
            quiet_form 0%nat
          = JS.Normal (p0, k0)
       /\ (risk_score p4 >= risk_score p0)%js = true.
Proof.
  split; [repeat split; reflexivity |].
  apply (risk_score_all_ge_none half_draws plain_toString
           risky_form quiet_form 0%nat); reflexivity.
Defined.

Lemma half_draws_unit_interval : unit_interval half_draws.
Proof. intros n. unfold half_draws. split; [discriminate | reflexivity]. Defined.

Lemma scorer_total_witness :
  unit_interval half_draws
  /\ (transaction_amount refund_form <= JS.Fin 0)%js = true
  /\ exists (p : Prediction) (k' : nat),
       generateEnhancedMockPrediction half_draws plain_toString refund_form 0%nat
       = JS.Normal (p, k')
       /\ fraud p = is_fraud p
       /\ prediction p = (if is_fraud p then JS.Fin 1 else JS.Fin 0)
       /\ (exists q, risk_score p = JS.Fin q /\ 0.05 <= q <= 0.95)
       /\ confidence p = risk_score p
       /\ rules_triggered p = expected_rules refund_form
       /\ (exists s, llm_explanation p = Some s).
Proof.
  split; [exact half_draws_unit_interval |].
  split; [reflexivity |].
  apply (scorer_total half_draws plain_toString refund_form 0%nat).
  exact half_draws_unit_interval.
Defined.

Lemma no_trigger_not_fraud_witness :
  ((transaction_amount quiet_form <= JS.Fin 10000)%js = true
   /\ (account_age_days quiet_form >= JS.Fin 30)%js = true
   /\ kyc_verified quiet_form = true
   /\ rule_mobile quiet_form = false)
  /\ exists (p : Prediction) (k' : nat),
       generateEnhancedMockPrediction half_draws plain_toString quiet_form 0%nat
       = JS.Normal (p, k')
       /\ is_fraud p = false
       /\ rules_triggered p = [].
Proof.
  split; [repeat split; reflexivity |].
  apply (no_trigger_not_fraud half_draws plain_toString quiet_form 0%nat);
    reflexivity.
Defined.

Lemma correlation_matrix_symmetric_unit_diagonal_witness :
  let columns := numericColumns two_columns in
  let matrix :=
    calculateCorrelationMatrix sqrt_12_digits columns (data two_columns) in
  ((0 < length columns)%nat /\ (1 < length columns)%nat)
  /\ (exists c, entry matrix 0%nat 1%nat = Some c /\ entry matrix 1%nat 0%nat = Some c)
  /\ entry matrix 0%nat 0%nat = Some (JS.Fin 1).
Proof.
  assert (H0 : (0 < length (numericColumns two_columns))%nat)
    by (vm_compute; lia).
  assert (H1 : (1 < length (numericColumns two_columns))%nat)
    by (vm_compute; lia).
  split; [split; assumption |].
  exact (correlation_matrix_symmetric_unit_diagonal
           sqrt_12_digits two_columns 0%nat 1%nat H0 H1).
Defined.

Lemma calculateMedian_sorts_in_place_witness :
  (unsorted_amounts <> []
   /\ Forall (fun v => JS.isNaN v = false) unsorted_amounts)
  /\ Permutation unsorted_amounts (calculateMedian unsorted_amounts).2
  /\ Sorted ascending (calculateMedian unsorted_amounts).2
  /\ (forall m : nat,
        length unsorted_amounts = (2 * m + 1)%nat ->
        (calculateMedian unsorted_amounts).2 !! m
        = Some (calculateMedian unsorted_amounts).1)
  /\ (forall m : nat,
        length unsorted_amounts = (2 * m)%nat ->
        exists a b,
          (calculateMedian unsorted_amounts).2 !! (m - 1)%nat = Some a
          /\ (calculateMedian unsorted_amounts).2 !! m = Some b
          /\ (calculateMedian unsorted_amounts).1 = ((a + b) / JS.Fin 2)%js).
Proof.
  assert (Hne : unsorted_amounts <> []) by discriminate.
  assert (Hnum : Forall (fun v => JS.isNaN v = false) unsorted_amounts)
    by (repeat constructor).
  split; [split; assumption |].
  exact (calculateMedian_sorts_in_place unsorted_amounts Hne Hnum).
Defined.

(** * Further properties *)

(** ** More on the mock fraud scorer *)

Module ScorerMore.

Lemma clamp_monotone (x y : Q) :
  x <= y ->
  exists qx qy,
    clamp (JS.Fin x) = JS.Fin qx /\ clamp (JS.Fin y) = JS.Fin qy /\ qx <= qy.
Proof.
  intros Hxy. unfold clamp.
  destruct (JSFacts.clamp_Fin 0.05 0.95 x)
    as (qx & Hqx & Rx & Hix & Midx & Lox); [lra |].
  destruct (JSFacts.clamp_Fin 0.05 0.95 y)
    as (qy & Hqy & Ry & Hiy & Midy & Loy); [lra |].
  exists qx, qy. split; [exact Hqx |]. split; [exact Hqy |].
  destruct (Qlt_le_dec x 0.05) as [Lx | Lx].
  - rewrite (Lox (Qlt_le_weak _ _ Lx)). lra.
  - destruct (Qlt_le_dec x 0.95) as [Ux | Ux].
    + rewrite (Midx (conj Lx (Qlt_le_weak _ _ Ux))).
      destruct (Qlt_le_dec y 0.95) as [Uy | Uy].
      * assert (M : 0.05 <= y <= 0.95) by lra. rewrite (Midy M). lra.
      * rewrite (Hiy Uy). lra.
    + assert (Uy : 0.95 <= y) by lra. rewrite (Hiy Uy). lra.
Qed.

(** The unclamped risk value lies between the baseline and the baseline
    plus the four amounts. *)
Lemma raw_score_bounds (r : Q) (formData : FormData) :
  exists x, raw_score r formData = JS.Fin x
    /\ r * 0.3 + 0.7 <= x <= r * 0.3 + 0.7 + 0.55.
Proof.
  unfold raw_score, raise.
  destruct (rule_amount formData), (rule_new_account formData),
    (rule_kyc formData), (rule_mobile formData); simpl;
    eexists; (split; [reflexivity |]); lra.
Qed.

Lemma raw_score_monotone (r : Q) (a b : FormData) :
  triggers_within a b ->
  exists x y, raw_score r a = JS.Fin x /\ raw_score r b = JS.Fin y /\ x <= y.
Proof.
  intros (H1 & H2 & H3 & H4). unfold raw_score, raise.
  destruct (rule_amount a), (rule_amount b);
    try (specialize (H1 eq_refl); discriminate H1);
  destruct (rule_new_account a), (rule_new_account b);
    try (specialize (H2 eq_refl); discriminate H2);
  destruct (rule_kyc a), (rule_kyc b);
    try (specialize (H3 eq_refl); discriminate H3);
  destruct (rule_mobile a), (rule_mobile b);
    try (specialize (H4 eq_refl); discriminate H4);
  simpl; eexists _, _; (split; [reflexivity |]);
  (split; [reflexivity |]); lra.
Qed.

End ScorerMore.

Section ScorerMoreFacts.

Variable draws : nat -> Q.
Variable finite_toString : Q -> string.

(** X1: The baseline is drawn from [0.7, 1): whatever the input, and even when
    no rule triggers and the verdict is not fraud, the risk score the
    scorer returns is at least 0.7 (and at most 0.95). *)
Theorem risk_score_at_least_070 (formData : FormData) (k : nat) :
  unit_interval draws ->
  exists (p : Prediction) (k' : nat) (q : Q),
    generateEnhancedMockPrediction draws finite_toString formData k
    = JS.Normal (p, k')
    /\ risk_score p = JS.Fin q
    /\ 0.7 <= q <= 0.95.
Proof.
  intros Hdraws.
  destruct (scorer_run draws finite_toString formData k)
    as (b & pool & kx & k' & Hrun & _).
  destruct (ScorerMore.raw_score_bounds (draws k) formData)
    as (x & Hx & Hlo & Hhi).
  destruct (JSFacts.clamp_Fin 0.05 0.95 x)
    as (q & Hq & Hrange & Hi & Mid & _); [lra |].
  pose proof (Hdraws k) as [H0 H1].
  eexists _, k', q. split; [exact Hrun |]. simpl.
  unfold clamp. rewrite Hx. split; [exact Hq |].
  destruct (Qlt_le_dec x 0.95) as [U | U].
  - assert (M : 0.05 <= x <= 0.95) by lra. rewrite (Mid M). lra.
  - rewrite (Hi U). lra.
Qed.

(** X2: The risk score is monotone in the set of triggered rules: for one
    realization of the random source read from the same position, an input
    that triggers every rule another input triggers gets a risk score at
    least as high. *)
Theorem risk_score_monotone_in_rules (a b : FormData) (k : nat) :
  triggers_within a b ->
  exists (pa pb : Prediction) (ka kb : nat),
    generateEnhancedMockPrediction draws finite_toString a k
    = JS.Normal (pa, ka)
    /\ generateEnhancedMockPrediction draws finite_toString b k
       = JS.Normal (pb, kb)
    /\ (risk_score pa <= risk_score pb)%js = true.
Proof.
  intros Hab.
  destruct (scorer_run draws finite_toString a k)
    as (ba & poola & kxa & ka & Hruna & _).
  destruct (scorer_run draws finite_toString b k)
    as (bb & poolb & kxb & kb & Hrunb & _).
  destruct (ScorerMore.raw_score_monotone (draws k) a b Hab)
    as (x & y & Hx & Hy & Hxy).
  destruct (ScorerMore.clamp_monotone x y Hxy) as (qx & qy & Hqx & Hqy & Hq).
  eexists _, _, ka, kb. split; [exact Hruna |]. split; [exact Hrunb |].
  simpl. rewrite Hx, Hy, Hqx, Hqy. apply JSFacts.le_Fin. exact Hq.
Qed.

(** X3: The explanation agrees with the verdict: it is one of the three
    sentences written for a fraud verdict when the verdict is fraud, one of
    the three written for a legitimate one otherwise. *)
Theorem explanation_matches_verdict (formData : FormData) (k : nat) :
  unit_interval draws ->
  exists (p : Prediction) (k' : nat) (s : string) (pool : list string),
    generateEnhancedMockPrediction draws finite_toString formData k
    = JS.Normal (p, k')
    /\ llm_explanation p = Some s
    /\ property (explanations finite_toString formData)
         (if is_fraud p then "fraud" else "legitimate") = Some pool
    /\ In s pool.
Proof.
  intros Hdraws.
  assert (Hrun : exists (isFraud : bool) (pool : list string) (kx k' : nat)
                   (p : Prediction),
             generateEnhancedMockPrediction draws finite_toString formData k
             = JS.Normal (p, k')
             /\ is_fraud p = isFraud
             /\ llm_explanation p
                = JS.index pool
                    (JS.Math_floor
                       (JS.Fin (draws kx) * JS.of_nat (length pool))%js)
             /\ property (explanations finite_toString formData)
                  (if isFraud then "fraud" else "legitimate") = Some pool
             /\ length pool = 3%nat).
  { unfold generateEnhancedMockPrediction, generateLLMExplanation,
      or_random_above, bind, ret, Math_random, push.
    destruct (transaction_amount formData > JS.Fin 10000)%js;
    destruct (account_age_days formData < JS.Fin 30)%js;
    destruct (kyc_verified formData);
    destruct (String.eqb (channel formData) "mobile"
              && (transaction_amount formData > JS.Fin 5000)%js);
    cbn [negb app];
    repeat match goal with
           | |- context [if ?c then _ else _] =>
               match c with
               | (_ > _)%js => destruct c
               end
           end;
    cbn [property explanations String.eqb Ascii.eqb Bool.eqb];
    lazymatch goal with
    | |- context [JS.Normal
                    (Build_Prediction ?b _ _ _ _ _
                       (JS.index ?pool
                          (JS.Math_floor (JS.Fin (draws ?kx) * _)%js)),
                     ?k')] =>
        exists b, pool, kx, k'
    end;
    eexists; repeat split; reflexivity. }
  destruct Hrun as (b & pool & kx & k' & p & Hp & Hb & He & Hpool & Hlen).
  destruct (JSFacts.index_random pool (draws kx) (Hdraws kx)) as [s Hs];
    [lia |].
  exists p, k', s, pool. split; [exact Hp |].
  split; [rewrite He; exact Hs |]. split; [rewrite Hb; exact Hpool |].
  unfold JS.index in Hs.
  destruct (JS.Math_floor _) as [| | | q]; try discriminate.
  destruct (_ && _); [| discriminate].
  apply list_elem_of_In. eapply list_elem_of_lookup_2. exact Hs.
Qed.

End ScorerMoreFacts.

(** ** Checking a transaction *)

Module HandlerFacts.

(** The keys of an object literal are distinct. *)
Ltac distinct_keys :=
  repeat (constructor;
          [ cbn [In];
            let H := fresh "H" in
            intros H;
            repeat (destruct H as [H | H]; [discriminate H |]);
            exact H
          | ]);
  constructor.

(** A value that [JSON.parse] returned is written and read back as it
    is. *)
Lemma JSON_roundtrip_json (v : value) :
  is_json v = true -> JSON_roundtrip v = v.
Proof.
  revert v. fix IH 1. intros [| | b | [| | | q] | s | items | fields];
    simpl; try reflexivity; try discriminate; intros H.
  - f_equal. induction items as [| x items IHitems]; [reflexivity |].
    simpl in H. apply andb_prop in H as [Hx Hitems]. simpl.
    rewrite (IH x Hx), (IHitems Hitems). reflexivity.
  - f_equal. induction fields as [| [key x] fields IHfields];
      [reflexivity |].
    simpl in H. apply andb_prop in H as [Hx Hfields]. simpl.
    rewrite (IHfields Hfields), (IH x Hx).
    destruct x; try reflexivity. discriminate Hx.
Qed.

(** What is read back from the storage is a JSON value. *)
Lemma JSON_roundtrip_is_json (v : value) : is_json (JSON_roundtrip v) = true.
Proof.
  revert v. fix IH 1. intros [| | b | [| | | q] | s | items | fields];
    cbn [JSON_roundtrip is_json]; try reflexivity.
  - induction items as [| x items IHitems]; [reflexivity |].
    cbn [List.map List.forallb]. rewrite (IH x). exact IHitems.
  - induction fields as [| [key x] fields IHfields]; [reflexivity |].
    cbn [List.flat_map]. rewrite List.forallb_app, IHfields, andb_true_r.
    pose proof (IH x) as Hx.
    destruct x; cbn [List.forallb snd andb]; try reflexivity;
      rewrite Hx; reflexivity.
Qed.

Lemma JSON_roundtrip_renderable (history : list value) :
  Forall renderable history ->
  List.map JSON_roundtrip history = history
  /\ List.existsb is_null history = false.
Proof.
  induction 1 as [| t history (Hj & Hn & _) _ [IH1 IH2]];
    [split; reflexivity |].
  simpl. rewrite (JSON_roundtrip_json t Hj), IH1, Hn, IH2. split; reflexivity.
Qed.

Lemma JSON_roundtrip_strings (l : list string) :
  List.map JSON_roundtrip (List.map Str l) = List.map Str l.
Proof.
  induction l as [| x l IH]; [reflexivity |].
  simpl. rewrite IH. reflexivity.
Qed.

(** The conversion of a value to a string ends normally exactly on the
    values that [converts] holds of. *)
Lemma element_toString_spec (finite_toString : Q -> string) (v : value) :
  if converts v
  then exists s, element_toString finite_toString v = JS.Normal s
  else element_toString finite_toString v = JS.Throw "TypeError".
Proof.
  revert v. fix IH 1. intros [| | b | n | s | items | fields];
    cbn [converts element_toString]; try (eexists; reflexivity).
  - induction items as [| x items IHitems]; [eexists; reflexivity |].
    cbn [List.forallb]. pose proof (IH x) as Hx.
    destruct (converts x); cbn [andb].
    + destruct Hx as [sx Hx]. rewrite Hx.
      destruct items as [| y items]; [eexists; reflexivity |].
      destruct (List.forallb converts (y :: items)).
      * destruct IHitems as [rest ->]. eexists; reflexivity.
      * rewrite IHitems. reflexivity.
    + rewrite Hx. destruct items; reflexivity.
  - destruct (property fields "toString"); [reflexivity |].
    eexists; reflexivity.
Qed.

Lemma ToPrimitive_spec (finite_toString : Q -> string) (v : value) :
  if converts v
  then exists p, ToPrimitive finite_toString v = JS.Normal p
  else ToPrimitive finite_toString v = JS.Throw "TypeError".
Proof.
  pose proof (element_toString_spec finite_toString v) as H.
  destruct v as [| | b | n | s | items | fields];
    try (eexists; reflexivity); unfold ToPrimitive.
  - destruct (converts (Arr items)); [| rewrite H; reflexivity].
    destruct H as [joined ->]. eexists; reflexivity.
  - destruct (converts (Obj fields)); [| rewrite H; reflexivity].
    destruct H as [tag ->]. eexists; reflexivity.
Qed.

Lemma ToString_spec (finite_toString : Q -> string) (v : value) :
  if converts v
  then exists s, ToString finite_toString v = JS.Normal s
  else ToString finite_toString v = JS.Throw "TypeError".
Proof.
  pose proof (element_toString_spec finite_toString v) as H.
  destruct v; try exact H; eexists; reflexivity.
Qed.

(** A value that counts as false is a primitive. *)
Lemma falsy_converts (v : value) : truthy v = false -> converts v = true.
Proof. destruct v; try reflexivity; discriminate. Qed.

Lemma or_else_converts (a b : value) :
  converts a = true -> converts b = true -> converts (or_else a b) = true.
Proof. unfold or_else. destruct (truthy a); auto. Qed.

Lemma property_roundtrip_none (fields : list (string * value))
  (key : string) :
  property fields key = None ->
  property
    (List.flat_map
       (fun kv : string * value =>
          match kv with
          | (_, Undefined) => []
          | (k, w) => [(k, JSON_roundtrip w)]
          end) fields) key
  = None.
Proof.
  induction fields as [| [k w] fields IH]; [reflexivity |].
  cbn [property List.flat_map]. destruct (String.eqb k key) eqn:E;
    [discriminate |].
  intros H. specialize (IH H).
  destruct w; cbn [app property]; rewrite ?E; exact IH.
Qed.

(** Writing a value and reading it back does not make its conversion
    throw. *)
Lemma converts_roundtrip (v : value) :
  converts v = true -> converts (JSON_roundtrip v) = true.
Proof.
  revert v. fix IH 1. intros [| | b | [| | | q] | s | items | fields];
    cbn [converts JSON_roundtrip]; try reflexivity.
  - induction items as [| x items IHitems]; [reflexivity |].
    cbn [List.forallb List.map]. intros H.
    apply andb_prop in H as [Hx Hitems].
    rewrite (IH x Hx). apply IHitems, Hitems.
  - destruct (property fields "toString") eqn:E; [discriminate |].
    rewrite (property_roundtrip_none fields "toString" E). reflexivity.
Qed.

(** A property of an object with distinct keys, after the object was
    written and read back. *)
Lemma get_roundtrip (fields : list (string * value)) (key : string) :
  List.NoDup (List.map fst fields) ->
  get
    (List.flat_map
       (fun kv : string * value =>
          match kv with
          | (_, Undefined) => []
          | (k, w) => [(k, JSON_roundtrip w)]
          end) fields) key
  = match get fields key with
    | Undefined => Undefined
    | w => JSON_roundtrip w
    end.
Proof.
  unfold get. induction fields as [| [k w] fields IH]; [reflexivity |].
  cbn [List.map fst]. intros Hnd. inversion Hnd as [| ? ? Hk Hrest]; subst.
  specialize (IH Hrest). cbn [property List.flat_map].
  destruct (String.eqb k key) eqn:E.
  - apply String.eqb_eq in E. subst k.
    assert (Hnone : property fields key = None).
    { clear -Hk. induction fields as [| [k' w'] fields IHf]; [reflexivity |].
      cbn [property]. destruct (String.eqb k' key) eqn:E'.
      - apply String.eqb_eq in E'. subst k'. exfalso. apply Hk. left.
        reflexivity.
      - apply IHf. intros Hin. apply Hk. right. exact Hin. }
    destruct w; cbn [app property]; rewrite ?String.eqb_refl;
      try reflexivity.
    rewrite (property_roundtrip_none fields key Hnone). reflexivity.
  - destruct w; cbn [app property]; rewrite ?E; exact IH.
Qed.

(** The sum of the risk scores of entries that convert does not throw,
    and stays a primitive. *)
Lemma total_risk_runs (finite_toString : Q -> string)
  (history : list value) (sum : value) :
  Forall (fun t => converts (risk_score_or_0 t) = true) history ->
  match sum with Arr _ | Obj _ => False | _ => True end ->
  exists totalRisk,
    reduce_completion
      (fun sum transaction =>
         plus finite_toString sum (risk_score_or_0 transaction))
      history sum
    = JS.Normal totalRisk.
Proof.
  intros H. revert sum. induction H as [| t history Ht _ IH]; intros sum Hs.
  - eexists; reflexivity.
  - cbn [reduce_completion]. unfold plus.
    assert (Hsum : ToPrimitive finite_toString sum = JS.Normal sum)
      by (destruct sum; try reflexivity; contradiction).
    rewrite Hsum.
    pose proof (ToPrimitive_spec finite_toString (risk_score_or_0 t)) as Hp.
    rewrite Ht in Hp. destruct Hp as [p ->].
    apply IH. destruct sum, p; exact I.
Qed.

Lemma trend_runs (finite_toString : Q -> string) (history : list value) :
  Forall
    (fun t =>
       is_null t = false /\ converts (get (as_object t) "timestamp") = true)
    history ->
  reduce_completion
    (fun (_ : unit) transaction =>
       if is_null transaction then JS.Throw "TypeError"
       else
         match
           ToPrimitive finite_toString
             (get (as_object transaction) "timestamp")
         with
         | JS.Normal _ => JS.Normal tt
         | JS.Throw e => JS.Throw e
         end)
    history tt
  = JS.Normal tt.
Proof.
  induction 1 as [| t history [Hn Ht] _ IH]; [reflexivity |].
  cbn [reduce_completion]. rewrite Hn.
  pose proof (ToPrimitive_spec finite_toString
                (get (as_object t) "timestamp")) as Hp.
  rewrite Ht in Hp. destruct Hp as [p ->]. exact IH.
Qed.

(** The amount of a saved form is shown as a number, 0 standing in for
    an amount that was written as [null]. *)
Lemma amount_shows (amount : JS.number) :
  match
    or_else (or_else (JSON_roundtrip (Num amount)) Undefined)
      (Num (JS.Fin 0))
  with
  | Num _ => true
  | _ => false
  end = true.
Proof.
  destruct amount as [| | | q]; try reflexivity.
  unfold or_else. cbn [JSON_roundtrip truthy].
  destruct (Qeq_bool q 0) eqn:E; cbn [negb truthy]; rewrite ?E; reflexivity.
Qed.

Lemma table_rows_run (finite_toString : Q -> string)
  (history : list value) :
  Forall
    (fun t =>
       is_null t = false
       /\ converts (get (as_object t) "timestamp") = true
       /\ shows_in_table t = true)
    history ->
  reduce_completion
    (fun (_ : unit) transaction => table_row finite_toString transaction)
    history tt
  = JS.Normal tt.
Proof.
  induction 1 as [| t history (Hn & Ht & Hs) _ IH]; [reflexivity |].
  cbn [reduce_completion]. unfold table_row. rewrite Hn.
  unfold shows_in_table in Hs.
  apply andb_prop in Hs as [Hs Hchannel].
  apply andb_prop in Hs as [Hs Hage].
  apply andb_prop in Hs as [Hid Hamount].
  pose proof (ToString_spec finite_toString
                (or_else
                   (or_else (get (as_object t) "customer_id")
                      (get (as_object t) "id")) (Str "N/A"))) as H1.
  rewrite Hid in H1. destruct H1 as [s1 ->].
  destruct (or_else
              (or_else (get (as_object t) "transaction_amount")
                 (get (as_object t) "amount")) (Num (JS.Fin 0)));
    try discriminate.
  pose proof (ToString_spec finite_toString
                (or_else
                   (or_else (get (as_object t) "account_age_days")
                      (get (as_object t) "accountAge")) (Num (JS.Fin 0))))
    as H2.
  rewrite Hage in H2. destruct H2 as [s2 ->].
  pose proof (ToString_spec finite_toString
                (or_else (get (as_object t) "channel") (Str "N/A"))) as H3.
  rewrite Hchannel in H3. destruct H3 as [s3 ->].
  pose proof (ToPrimitive_spec finite_toString
                (get (as_object t) "timestamp")) as H4.
  rewrite Ht in H4. destruct H4 as [p4 ->].
  exact IH.
Qed.

End HandlerFacts.

Section CheckTransactionFacts.

Variable draws : nat -> Q.
Variable finite_toString : Q -> string.
Variable finite_toFixed : Q -> nat -> string.

Lemma validation_spec (formData : FormData) :
  validateEnhancedTransactionForm formData = true
  <-> trim (customer_id formData) <> ""
      /\ (transaction_amount formData > JS.Fin 0)%js = true
      /\ (account_age_days formData > JS.Fin 0)%js = true
      /\ channel formData <> ""
      /\ timestamp formData <> "".
Proof.
  unfold validateEnhancedTransactionForm.
  assert (Hstr : forall s, negb (truthy (Str s)) = false <-> s <> "").
  { intros s. simpl. rewrite negb_involutive.
    destruct (String.eqb_spec s ""); simpl; split; congruence. }
  assert (Hid : negb (truthy (Str (customer_id formData)))
                || String.eqb (trim (customer_id formData)) "" = false
                <-> trim (customer_id formData) <> "").
  { destruct (String.eqb_spec (trim (customer_id formData)) "") as [E | E].
    - rewrite orb_true_r. split; congruence.
    - rewrite orb_false_r, Hstr. split; [auto | intros _ H'].
      apply E. rewrite H'. reflexivity. }
  assert (Hpos : forall x strict,
             negb (truthy (Num x))
             || (if strict : bool then (x < JS.Fin 0)%js
                 else (x <= JS.Fin 0)%js) = false
             <-> (x > JS.Fin 0)%js = true).
  { intros [| | | q] strict; destruct strict;
      try (vm_compute; split; congruence); simpl.
    - unfold JS.gt, JS.lt, JS.le; simpl.
      destruct (Qcompare_spec q 0) as [E | E | E];
        destruct (Qcompare_spec 0 q) as [E' | E' | E'];
        destruct (Qeq_bool q 0) eqn:B; simpl; try (split; congruence);
        try lra; try (apply Qeq_bool_iff in B; lra);
        try (apply Qeq_bool_neq in B; exfalso; apply B; lra).
    - unfold JS.gt, JS.lt, JS.le; simpl.
      destruct (Qcompare_spec q 0) as [E | E | E];
        destruct (Qcompare_spec 0 q) as [E' | E' | E'];
        destruct (Qeq_bool q 0) eqn:B; simpl; try (split; congruence);
        try lra; try (apply Qeq_bool_iff in B; lra);
        try (apply Qeq_bool_neq in B; exfalso; apply B; lra). }
  pose proof (Hpos (transaction_amount formData) false) as Hamount.
  pose proof (Hpos (account_age_days formData) true) as Hage.
  cbv beta iota in Hamount, Hage.
  rewrite <- Hid, <- Hamount, <- Hage, <- !Hstr.
  destruct (_ || _); [intuition congruence |].
  destruct (_ || _); [intuition congruence |].
  destruct (_ || _); [intuition congruence |].
  destruct (negb _); [intuition congruence |].
  destruct (negb _); intuition congruence.
Qed.

(** X4: A form passes the validation exactly when the customer id is not
    blank, the amount is a number above zero, the account age is a number
    above zero, and a channel and a time are given.  In particular an
    amount that is zero, negative or not a number never reaches the scorer
    through the form, and an account age of zero days is refused. *)
Theorem validation_accepts_iff (formData : FormData) :
  validateEnhancedTransactionForm formData = true
  <-> trim (customer_id formData) <> ""
      /\ (transaction_amount formData > JS.Fin 0)%js = true
      /\ (account_age_days formData > JS.Fin 0)%js = true
      /\ channel formData <> ""
      /\ timestamp formData <> "".
Proof. apply validation_spec. Qed.

(** The scorer's run, with what the saved record needs of it. *)
Lemma mock_run (formData : FormData) (k : nat) :
  exists (p : Prediction) (k' : nat) (q : Q),
    generateEnhancedMockPrediction draws finite_toString formData k
    = JS.Normal (p, k')
    /\ risk_score p = JS.Fin q
    /\ confidence p = JS.Fin q
    /\ fraud p = is_fraud p
    /\ prediction p = (if is_fraud p then JS.Fin 1 else JS.Fin 0)
    /\ 0.05 <= q <= 0.95.
Proof.
  destruct (scorer_run draws finite_toString formData k)
    as (b & pool & kx & k' & Hrun & _).
  destruct (raw_score_Fin (draws k) formData) as (x & Hx & _).
  destruct (JSFacts.clamp_Fin 0.05 0.95 x) as (q & Hq & Hrange & _);
    [lra |].
  eexists _, k', q. split; [exact Hrun |]. simpl.
  unfold clamp. rewrite Hx, Hq. auto.
Qed.

Lemma generateLLMExplanation_runs (formData : FormData) (isFraud : bool)
  (riskScore : JS.number) (k : nat) :
  exists o,
    generateLLMExplanation draws finite_toString formData isFraud riskScore k
    = JS.Normal (o, S k).
Proof.
  unfold generateLLMExplanation, bind, ret, Math_random.
  destruct isFraud; cbn [property explanations String.eqb Ascii.eqb Bool.eqb];
    eexists; reflexivity.
Qed.

(** Showing a result leaves [localStorage] alone, and ends normally only
    for a result whose risk score can be converted. *)
Lemma display_outcome (result : value) (formData : FormData) (s : page) :
  exists c k,
    displayEnhancedTransactionResult draws finite_toString result formData s
    = (c, {| draws_used := k; localStorage := localStorage s |})
    /\ (c = JS.Normal tt ->
        converts
          (or_else (get (as_object result) "risk_score")
             (get (as_object result) "confidence"))
        = true).
Proof.
  unfold displayEnhancedTransactionResult.
  destruct s as [k ls]. cbn [localStorage].
  destruct (is_null result);
    [eexists _, _; split; [reflexivity | discriminate] |].
  set (v := or_else (get (as_object result) "risk_score")
              (get (as_object result) "confidence")).
  set (riskScore := or_else v _).
  unfold hbind at 1. unfold lift at 1.
  pose proof (HandlerFacts.ToPrimitive_spec finite_toString riskScore) as Hp.
  destruct (converts riskScore) eqn:Hc.
  - destruct Hp as [p ->].
    assert (Hv : converts v = true).
    { unfold riskScore, or_else in Hc. destruct (truthy v) eqn:T;
        [exact Hc | apply HandlerFacts.falsy_converts, T]. }
    assert (Hrest : forall (h : Handler unit) (s0 : page),
               (exists c k0,
                  h s0 = (c, {| draws_used := k0;
                                localStorage := localStorage s0 |})) ->
               exists c k0,
                 h s0 = (c, {| draws_used := k0;
                               localStorage := localStorage s0 |})
                 /\ (c = JS.Normal tt -> converts v = true)).
    { intros h s0 (c & k0 & H). exists c, k0. split; [exact H | auto]. }
    apply (Hrest _ {| draws_used := k; localStorage := ls |}).
    cbn [localStorage].
    unfold hbind, hret, hthrow, lift, draw. cbn [draws_used localStorage].
    destruct (truthy
                (or_else (get (as_object result) "llm_explanation")
                   (get (as_object result) "reason"))).
    + destruct (ToString finite_toString _);
        [| eexists _, _; reflexivity].
      destruct (truthy (get (as_object result) "rules_triggered"));
        [| eexists _, _; reflexivity].
      destruct (get (as_object result) "rules_triggered");
        try (eexists _, _; reflexivity).
      destruct (reduce_completion _ _ _); eexists _, _; reflexivity.
    + match goal with
      | |- context [generateLLMExplanation ?d ?f ?fd ?b ?n ?k0] =>
          destruct (generateLLMExplanation_runs fd b n k0) as [o Ho];
          rewrite Ho
      end.
      destruct (ToString finite_toString _);
        [| eexists _, _; reflexivity].
      destruct (truthy (get (as_object result) "rules_triggered"));
        [| eexists _, _; reflexivity].
      destruct (get (as_object result) "rules_triggered");
        try (eexists _, _; reflexivity).
      destruct (reduce_completion _ _ _); eexists _, _; reflexivity.
  - rewrite Hp. eexists _, _. split; [reflexivity | discriminate].
Qed.

(** Showing the scorer's verdict throws nothing. *)
Lemma display_mock (p : Prediction) (formData : FormData) (s : page) :
  exists k,
    displayEnhancedTransactionResult draws finite_toString
      (Obj (Prediction_object p)) formData s
    = (JS.Normal tt, {| draws_used := k; localStorage := localStorage s |}).
Proof.
  unfold displayEnhancedTransactionResult.
  destruct s as [k ls]. cbn [is_null as_object localStorage].
  assert (Hrisk : exists n,
             or_else
               (or_else (get (Prediction_object p) "risk_score")
                  (get (Prediction_object p) "confidence"))
               (Num (if truthy (fraud_flag (Prediction_object p))
                     then JS.Fin 0.85 else JS.Fin 0.15))
             = Num n).
  { unfold or_else, Prediction_object.
    cbn [get property String.eqb Ascii.eqb Bool.eqb].
    destruct (truthy (Num (risk_score p))) eqn:T1; rewrite ?T1;
      [eexists; reflexivity |].
    destruct (truthy (Num (confidence p))) eqn:T2; rewrite ?T2;
      eexists; reflexivity. }
  destruct Hrisk as [n ->].
  assert (Hrules : get (Prediction_object p) "rules_triggered"
                   = Arr (List.map Str (rules_triggered p)))
    by reflexivity.
  rewrite Hrules.
  assert (Hmap : reduce_completion
                   (fun (_ : unit) rule =>
                      match ToString finite_toString rule with
                      | JS.Normal _ => JS.Normal tt
                      | JS.Throw e => JS.Throw e
                      end)
                   (List.map Str (rules_triggered p)) tt
                 = JS.Normal tt).
  { clear Hrules.
    induction (rules_triggered p) as [| rule rules IH]; [reflexivity |].
    cbn [List.map reduce_completion ToString element_toString]. exact IH. }
  assert (Hexpl : get (Prediction_object p) "llm_explanation"
                  = match llm_explanation p with
                    | Some e => Str e
                    | None => Undefined
                    end) by reflexivity.
  assert (Hreason : get (Prediction_object p) "reason" = Undefined)
    by reflexivity.
  rewrite Hexpl, Hreason.
  unfold hbind, hret, hthrow, lift, draw.
  cbn [ToPrimitive draws_used localStorage truthy].
  destruct (llm_explanation p) as [e |].
  - unfold or_else.
    destruct (truthy (Str e)) eqn:E; cbv iota; rewrite ?E; cbv iota.
    + cbn [ToString element_toString]. rewrite Hmap.
      eexists; reflexivity.
    + cbn [truthy].
      match goal with
      | |- context [generateLLMExplanation ?d ?f ?fd ?b ?n0 ?k0] =>
          destruct (generateLLMExplanation_runs fd b n0 k0) as [o Ho];
          rewrite Ho
      end.
      destruct o; cbn [ToString element_toString]; rewrite Hmap;
        eexists; reflexivity.
  - unfold or_else. cbn [truthy].
    match goal with
    | |- context [generateLLMExplanation ?d ?f ?fd ?b ?n0 ?k0] =>
        destruct (generateLLMExplanation_runs fd b n0 k0) as [o Ho];
        rewrite Ho
    end.
    destruct o; cbn [ToString element_toString]; rewrite Hmap;
      eexists; reflexivity.
Qed.

(** The statistics and the charts of a history of renderable entries. *)
Lemma refresh_runs (s : page) (history : list value) :
  getItem_parsed (localStorage s) "transactionHistory" = Arr history ->
  List.existsb is_null history = false ->
  Forall (fun t => converts (risk_score_or_0 t) = true) history ->
  Forall
    (fun t =>
       is_null t = false /\ converts (get (as_object t) "timestamp") = true)
    history ->
  updateFraudVisualization finite_toString finite_toFixed s
  = (JS.Normal tt, s).
Proof.
  intros Hget Hnull Hrisk Htime.
  unfold updateFraudVisualization, hbind, read.
  unfold updateLiveStatistics, createFraudPieChart, createFraudTrendChart.
  rewrite Hget, Hnull.
  destruct (HandlerFacts.total_risk_runs finite_toString history
              (Num (JS.Fin 0)) Hrisk I) as [totalRisk ->].
  rewrite (HandlerFacts.trend_runs finite_toString history Htime).
  reflexivity.
Qed.

Lemma table_runs (history_shown : bool) (s : page) (history : list value) :
  getItem_parsed (localStorage s) "transactionHistory" = Arr history ->
  Forall
    (fun t =>
       is_null t = false
       /\ converts (get (as_object t) "timestamp") = true
       /\ shows_in_table t = true)
    history ->
  refresh_history_table finite_toString history_shown s = (JS.Normal tt, s).
Proof.
  intros Hget Hrows. unfold refresh_history_table, read, hret.
  destruct history_shown; [| reflexivity].
  unfold loadTransactionHistory. rewrite Hget.
  rewrite (HandlerFacts.table_rows_run finite_toString history Hrows).
  reflexivity.
Qed.

Lemma renderable_parts (history : list value) :
  Forall renderable history ->
  Forall (fun t => converts (risk_score_or_0 t) = true) history
  /\ Forall
       (fun t =>
          is_null t = false
          /\ converts (get (as_object t) "timestamp") = true)
       history
  /\ Forall
       (fun t =>
          is_null t = false
          /\ converts (get (as_object t) "timestamp") = true
          /\ shows_in_table t = true)
       history.
Proof.
  induction 1 as [| t history (_ & Hn & Hr & Ht & Hs) _ (IH1 & IH2 & IH3)];
    repeat split; constructor; auto.
Qed.

(** A save with an array in store, followed by the refresh of the
    history table and of the charts. *)
Lemma save_then_refresh (history_shown : bool) (clock : Q * string)
  (formData : FormData) (result : object) (s : page)
  (history : list value) :
  current_history (localStorage s) = Some history ->
  Forall renderable history ->
  converts (or_else (get result "risk_score") (get result "confidence"))
  = true ->
  exists (record : object) (ls : storage),
    (store (saveToEnhancedTransactionHistory clock.1 clock.2
              (FormData_object formData) result) ;;
     refresh_history_table finite_toString history_shown ;;
     updateFraudVisualization finite_toString finite_toFixed)%handler s
    = (JS.Normal tt, {| draws_used := draws_used s; localStorage := ls |})
    /\ stored_history ls = Some (Obj record :: history)
    /\ JSON_roundtrip
         (Obj [ ("id", Num (JS.Fin clock.1));
                ("timestamp", Str clock.2);
                ("customer_id", Str (customer_id formData));
                ("transaction_amount", Num (transaction_amount formData));
                ("account_age_days", Num (account_age_days formData));
                ("channel", Str (channel formData));
                ("kyc_verified", Bool (kyc_verified formData));
                ("is_fraud", fraud_flag result);
                ("risk_score",
                 or_else (get result "risk_score") (get result "confidence"));
                ("confidence", get result "confidence");
                ("status",
                 Str (if truthy (fraud_flag result)
                      then "Fraud" else "Legitimate"));
                ("llm_explanation",
                 or_else (get result "llm_explanation")
                   (get result "reason"));
                ("rules_triggered",
                 or_else (get result "rules_triggered") (Arr [])) ])
       = Obj record.
Proof.
  intros Hh Hr Hv. destruct s as [k ls].
  unfold current_history in Hh. cbn [localStorage] in Hh.
  destruct (HandlerFacts.JSON_roundtrip_renderable history Hr)
    as [Hmap Hnull].
  destruct (renderable_parts history Hr) as (Hrisk & Htime & Hrows).
  unfold hbind at 1. unfold store, saveToEnhancedTransactionHistory.
  cbn [draws_used localStorage].
  destruct (getItem_parsed ls "transactionHistory") as [| | | | | items |];
    try discriminate.
  injection Hh as ->.
  change (get (FormData_object formData) "customer_id")
    with (Str (customer_id formData)).
  change (get (FormData_object formData) "transaction_amount")
    with (Num (transaction_amount formData)).
  change (get (FormData_object formData) "account_age_days")
    with (Num (account_age_days formData)).
  change (get (FormData_object formData) "channel")
    with (Str (channel formData)).
  change (get (FormData_object formData) "kyc_verified")
    with (Bool (kyc_verified formData)).
  set (fields := [ ("id", Num (JS.Fin clock.1)) ; _ ; _ ; _ ; _ ; _ ; _ ;
                   _ ; _ ; _ ; _ ; _ ; _ ]).
  set (record :=
         List.flat_map
           (fun kv : string * value =>
              match kv with
              | (_, Undefined) => []
              | (key, w) => [(key, JSON_roundtrip w)]
              end) fields).
  assert (Hrec : JSON_roundtrip (Obj fields) = Obj record) by reflexivity.
  assert (Hnd : List.NoDup (List.map fst fields)).
  { unfold fields. cbn [List.map fst]. HandlerFacts.distinct_keys. }
  assert (Hget : forall key,
             get record key
             = match get fields key with
               | Undefined => Undefined
               | w => JSON_roundtrip w
               end)
    by (intros key; apply (HandlerFacts.get_roundtrip fields key Hnd)).
  assert (Hts : get record "timestamp" = Str clock.2)
    by (rewrite Hget; reflexivity).
  assert (Hrs : converts (risk_score_or_0 (Obj record)) = true).
  { unfold risk_score_or_0. cbn [as_object]. rewrite Hget.
    change (get fields "risk_score")
      with (or_else (get result "risk_score") (get result "confidence")).
    apply HandlerFacts.or_else_converts; [| reflexivity].
    destruct (or_else (get result "risk_score") (get result "confidence"))
      eqn:E; try reflexivity;
      rewrite <- E; apply HandlerFacts.converts_roundtrip; rewrite E;
      exact Hv. }
  assert (Hrow : shows_in_table (Obj record) = true).
  { unfold shows_in_table. cbn [as_object]. rewrite !Hget.
    change (get fields "customer_id") with (Str (customer_id formData)).
    change (get fields "id") with (Num (JS.Fin clock.1)).
    change (get fields "transaction_amount")
      with (Num (transaction_amount formData)).
    change (get fields "amount") with Undefined.
    change (get fields "account_age_days")
      with (Num (account_age_days formData)).
    change (get fields "accountAge") with Undefined.
    change (get fields "channel") with (Str (channel formData)).
    cbv beta iota. rewrite HandlerFacts.amount_shows.
    rewrite !HandlerFacts.or_else_converts
      by (repeat apply HandlerFacts.or_else_converts; try reflexivity;
          destruct (account_age_days formData); reflexivity).
    reflexivity. }
  set (ls' := <["transactionHistory" := Arr (Obj record :: history)]> ls).
  assert (Hsaved : setItem_json ls "transactionHistory"
                     (Arr (Obj fields :: history)) = ls').
  { unfold setItem_json, ls'. cbn [JSON_roundtrip List.map].
    fold JSON_roundtrip. rewrite Hmap.
    change (JSON_roundtrip (Obj fields)) with (Obj record). reflexivity. }
  rewrite Hsaved.
  assert (Hnew : getItem_parsed ls' "transactionHistory"
                 = Arr (Obj record :: history)).
  { unfold getItem_parsed, ls'. rewrite lookup_insert_eq. reflexivity. }
  unfold hbind at 1.
  rewrite (table_runs history_shown
             {| draws_used := k; localStorage := ls' |}
             (Obj record :: history) Hnew).
  - rewrite (refresh_runs {| draws_used := k; localStorage := ls' |}
               (Obj record :: history) Hnew).
    + exists record, ls'. split; [reflexivity |]. split; [| exact Hrec].
      unfold stored_history, ls'. rewrite lookup_insert_eq. reflexivity.
    + cbn [List.existsb is_null orb]. exact Hnull.
    + constructor; [exact Hrs | exact Hrisk].
    + constructor; [| exact Htime]. split; [reflexivity |].
      cbn [as_object]. rewrite Hts. reflexivity.
  - constructor; [| exact Hrows]. split; [reflexivity |].
    cbn [as_object]. rewrite Hts. split; [reflexivity | exact Hrow].
Qed.

(** The catch branch of [checkTransaction]: the scorer's verdict is
    shown and saved, and the table and the charts are refreshed. *)
Lemma fallback_runs (history_shown : bool) (clock : Q * string)
  (formData : FormData) (s : page) (history : list value) :
  current_history (localStorage s) = Some history ->
  Forall renderable history ->
  exists (p : Prediction) (k' : nat) (record : object) (s' : page),
    generateEnhancedMockPrediction draws finite_toString formData
      (draws_used s)
    = JS.Normal (p, k')
    /\ (let* mockResult :=
          draw (generateEnhancedMockPrediction draws finite_toString
                  formData) in
        displayEnhancedTransactionResult draws finite_toString
          (Obj (Prediction_object mockResult)) formData ;;
        store (saveToEnhancedTransactionHistory clock.1 clock.2
                 (FormData_object formData) (Prediction_object mockResult)) ;;
        refresh_history_table finite_toString history_shown ;;
        updateFraudVisualization finite_toString finite_toFixed)%handler s
       = (JS.Normal tt, s')
    /\ stored_history (localStorage s') = Some (Obj record :: history)
    /\ get record "customer_id" = Str (customer_id formData)
    /\ get record "is_fraud" = Bool (is_fraud p)
    /\ get record "risk_score" = Num (risk_score p)
    /\ get record "status"
       = Str (if is_fraud p then "Fraud" else "Legitimate")
    /\ get record "rules_triggered"
       = Arr (List.map Str (rules_triggered p)).
Proof.
  intros Hh Hr.
  destruct (mock_run formData (draws_used s))
    as (p & k' & q & Hrun & Hrisk & Hconf & Hfraud & Hpred & Hq).
  exists p, k'.
  unfold hbind at 1. unfold draw at 1. rewrite Hrun.
  set (s1 := {| draws_used := k'; localStorage := localStorage s |}).
  unfold hbind at 1.
  destruct (display_mock p formData s1) as [k2 Hshow]. rewrite Hshow.
  set (s2 := {| draws_used := k2; localStorage := localStorage s1 |}).
  assert (Hv : converts
                 (or_else (get (Prediction_object p) "risk_score")
                    (get (Prediction_object p) "confidence"))
               = true).
  { unfold or_else, Prediction_object.
    cbn [get property String.eqb Ascii.eqb Bool.eqb].
    destruct (truthy _); reflexivity. }
  destruct (save_then_refresh history_shown clock formData
              (Prediction_object p) s2 history Hh Hr Hv)
    as (record & ls & Hsave & Hstored & Hrec).
  exists record, {| draws_used := draws_used s2; localStorage := ls |}.
  split; [reflexivity |]. split; [exact Hsave |].
  split; [exact Hstored |].
  assert (Htruthy : truthy (Num (JS.Fin q)) = true).
  { simpl. destruct (Qeq_bool q 0) eqn:E; [| reflexivity].
    apply Qeq_bool_iff in E. lra. }
  destruct p as [isf pred fr rs conf rules expl].
  cbn [is_fraud prediction fraud risk_score confidence rules_triggered
         llm_explanation] in *.
  subst rs conf fr pred.
  unfold fraud_flag, Prediction_object in Hrec.
  cbn [is_fraud prediction fraud risk_score confidence rules_triggered
         llm_explanation get property String.eqb Ascii.eqb
         Bool.eqb] in Hrec.
  unfold or_else in Hrec. rewrite Htruthy in Hrec.
  destruct isf, expl as [e |];
    cbn [truthy is_number is_true orb negb JS.strict_eq JS.compare]
      in Hrec;
    try destruct (String.eqb e ""); cbn [negb] in Hrec;
    cbn [JSON_roundtrip List.flat_map app] in Hrec;
    fold JSON_roundtrip in Hrec;
    rewrite HandlerFacts.JSON_roundtrip_strings in Hrec;
    injection Hrec as <-; repeat split; reflexivity.
Qed.

(** X5: A form that the validation refuses changes nothing: whatever the
    prediction service would answer, a check with a blank customer id, an
    amount or an account age that is not above zero, or no channel or time,
    returns without drawing a random number or touching [localStorage]. *)
Theorem checkTransaction_refused_form (history_shown : bool)
  (clock_try clock_catch : Q * string) (formData : FormData)
  (response : option value) (s : page) :
  trim (customer_id formData) = ""
  \/ (transaction_amount formData > JS.Fin 0)%js = false
  \/ (account_age_days formData > JS.Fin 0)%js = false
  \/ channel formData = ""
  \/ timestamp formData = "" ->
  checkTransaction draws finite_toString finite_toFixed history_shown
    clock_try clock_catch formData response s
  = (JS.Normal tt, s).
Proof.
  intros H. unfold checkTransaction.
  destruct (validateEnhancedTransactionForm formData) eqn:V;
    [| reflexivity].
  apply validation_spec in V as (V1 & V2 & V3 & V4 & V5).
  destruct H as [H | [H | [H | [H | H]]]]; congruence.
Qed.

(** X6: One check, one record: when the form is accepted and the stored
    history is an array of renderable entries (or nothing is stored yet),
    [checkTransaction] ends normally and leaves the history with exactly
    one new record in front of the entries it had, whether the service
    answered, answered something that cannot be shown, or did not answer
    at all. *)
Theorem checkTransaction_saves_one_record (history_shown : bool)
  (clock_try clock_catch : Q * string) (formData : FormData)
  (response : option value) (s : page) (history : list value) :
  validateEnhancedTransactionForm formData = true ->
  current_history (localStorage s) = Some history ->
  Forall renderable history ->
  exists (record : object) (s' : page),
    checkTransaction draws finite_toString finite_toFixed history_shown
      clock_try clock_catch formData response s
    = (JS.Normal tt, s')
    /\ stored_history (localStorage s') = Some (Obj record :: history).
Proof.
  intros V Hh Hr. unfold checkTransaction. rewrite V. cbn [negb].
  unfold try_catch.
  destruct response as [result |].
  - unfold hbind at 1.
    destruct (display_outcome result formData s) as (c & k & Hshow & Hc).
    rewrite Hshow.
    set (s1 := {| draws_used := k; localStorage := localStorage s |}).
    destruct c as [[] | e].
    + destruct (save_then_refresh history_shown clock_try formData
                  (as_object result) s1 history Hh Hr (Hc eq_refl))
        as (record & ls & Hsave & Hstored & _).
      rewrite Hsave. eexists record, _. split; [reflexivity | exact Hstored].
    + destruct (fallback_runs history_shown clock_catch formData s1 history
                  Hh Hr)
        as (p & k' & record & s' & _ & Hcatch & Hstored & _).
      rewrite Hcatch. exists record, s'. split; [reflexivity | exact Hstored].
  - unfold hthrow.
    destruct (fallback_runs history_shown clock_catch formData s history
                Hh Hr)
      as (p & k' & record & s' & _ & Hcatch & Hstored & _).
    rewrite Hcatch. exists record, s'. split; [reflexivity | exact Hstored].
Qed.

(** X7: When the service does not answer, the record saved is the scorer's
    verdict: its fraud flag, its risk score and its rules are those the
    scorer returned for this form, the status reads Fraud exactly when the
    flag is set, and the customer id is the form's. *)
Theorem checkTransaction_fallback_saves_verdict (history_shown : bool)
  (clock_try clock_catch : Q * string) (formData : FormData) (s : page)
  (history : list value) :
  validateEnhancedTransactionForm formData = true ->
  current_history (localStorage s) = Some history ->
  Forall renderable history ->
  exists (p : Prediction) (k' : nat) (record : object) (s' : page),
    generateEnhancedMockPrediction draws finite_toString formData
      (draws_used s)
    = JS.Normal (p, k')
    /\ checkTransaction draws finite_toString finite_toFixed history_shown
         clock_try clock_catch formData None s
       = (JS.Normal tt, s')
    /\ stored_history (localStorage s') = Some (Obj record :: history)
    /\ get record "customer_id" = Str (customer_id formData)
    /\ get record "is_fraud" = Bool (is_fraud p)
    /\ get record "risk_score" = Num (risk_score p)
    /\ get record "status"
       = Str (if is_fraud p then "Fraud" else "Legitimate")
    /\ get record "rules_triggered"
       = Arr (List.map Str (rules_triggered p)).
Proof.
  intros V Hh Hr. unfold checkTransaction. rewrite V. cbn [negb].
  unfold try_catch, hthrow.
  destruct (fallback_runs history_shown clock_catch formData s history
                Hh Hr)
    as (p & k' & record & s' & Hrun & Hcatch & Hrest).
  exists p, k', record, s'. rewrite Hcatch. auto.
Qed.

End CheckTransactionFacts.

(** ** Reading a CSV file *)

Module CSVFacts.

Lemma remove_char_gone (c : ascii) (s : string) :
  has_char c (remove_char c s) = false.
Proof.
  induction s as [| d s IH]; [reflexivity |]. simpl.
  destruct (Ascii.eqb d c) eqn:E; [exact IH |].
  simpl. rewrite E, IH. reflexivity.
Qed.

Lemma field_or_empty_clean (fields : list string) (index : nat) :
  has_char double_quote
    (field_or_empty (List.map clean_field fields) index) = false.
Proof.
  unfold field_or_empty. change (List.map clean_field fields) with
    (clean_field <$> fields). rewrite list_lookup_fmap.
  destruct (fields !! index); [apply remove_char_gone | reflexivity].
Qed.

Section Rows.

Variable values : list string.

Let assign := fun (r : row) (header : string) (index : nat) =>
  assign_property r header (field_or_empty values index).

(** A header that is not assigned keeps what the row had for it. *)
Lemma reduce_assign_other (columns : list string) (i : nat) (r : row)
  (h : string) :
  ~ In h columns -> reduce_from assign i columns r !! h = r !! h.
Proof.
  revert i r. induction columns as [| c columns IH]; intros i r Hh;
    [reflexivity |].
  cbn [reduce_from]. rewrite IH by (intros H; apply Hh; right; exact H).
  unfold assign, assign_property.
  destruct (String.eqb c "__proto__"); [reflexivity |].
  apply lookup_insert_ne. intros ->. apply Hh. left. reflexivity.
Qed.

(** Only the headers are assigned. *)
Lemma reduce_assign_keys (columns : list string) (i : nat) (r : row)
  (k v : string) :
  reduce_from assign i columns r !! k = Some v ->
  In k columns \/ r !! k = Some v.
Proof.
  revert i r. induction columns as [| c columns IH]; intros i r H;
    [right; exact H |].
  cbn [reduce_from] in H. apply IH in H as [H | H]; [left; right; exact H |].
  unfold assign, assign_property in H.
  destruct (String.eqb c "__proto__"); [right; exact H |].
  destruct (String.eq_dec c k) as [-> | Hne].
  - left. left. reflexivity.
  - rewrite lookup_insert_ne in H by exact Hne. right. exact H.
Qed.

(** Every header but [__proto__] is assigned a field or the empty
    string. *)
Lemma reduce_assign_defined (columns : list string) (i : nat) (r : row)
  (h : string) :
  In h columns -> h <> "__proto__" ->
  exists index,
    reduce_from assign i columns r !! h
    = Some (field_or_empty values index).
Proof.
  revert i r. induction columns as [| c columns IH]; intros i r Hin Hproto;
    [destruct Hin |].
  cbn [reduce_from].
  destruct (in_dec String.eq_dec h columns) as [Hlater | Hlast].
  - apply IH; assumption.
  - destruct Hin as [-> | Hin]; [| contradiction].
    rewrite reduce_assign_other by exact Hlast.
    unfold assign, assign_property.
    apply String.eqb_neq in Hproto. rewrite Hproto.
    exists i. apply lookup_insert_eq.
Qed.

(** With distinct headers, the header at position [n] gets the field at
    position [n]. *)
Lemma reduce_assign_position (columns : list string) (i n : nat) (r : row)
  (h : string) :
  NoDup columns -> columns !! n = Some h -> h <> "__proto__" ->
  reduce_from assign i columns r !! h
  = Some (field_or_empty values (i + n)).
Proof.
  revert i n r. induction columns as [| c columns IH];
    intros i n r Hnodup Hn Hproto; [discriminate |].
  apply NoDup_cons in Hnodup as [Hc Hnodup]. cbn [reduce_from].
  destruct n as [| n].
  - injection Hn as ->.
    rewrite reduce_assign_other
      by (intros H; apply Hc, list_elem_of_In; exact H).
    unfold assign, assign_property.
    apply String.eqb_neq in Hproto. rewrite Hproto.
    rewrite Nat.add_0_r. apply lookup_insert_eq.
  - replace (i + S n)%nat with (S i + n)%nat by lia.
    apply IH; assumption.
Qed.

End Rows.

Lemma parse_inv (csvText : string) (dataset : Dataset) :
  parseCSV csvText = JS.Normal dataset ->
  exists first rest,
    content_lines csvText = first :: rest
    /\ headers dataset = List.map clean_field (split_on "," first)
    /\ data dataset = List.map (parse_row (headers dataset)) rest
    /\ rawText dataset = csvText.
Proof.
  unfold parseCSV. destruct (content_lines csvText) as [| first rest];
    [discriminate |].
  intros [= <-]. exists first, rest. repeat split; reflexivity.
Qed.

End CSVFacts.

(** X8: A text without a line that is not blank, the empty text included, is
    not parsed into an empty dataset: [parseCSV] throws.  Any other text
    is parsed, into one row for each line that is not blank after the
    first of them, and the dataset keeps the text. *)
Theorem parseCSV_needs_a_header_line (csvText : string) :
  match parseCSV csvText with
  | JS.Throw _ =>
      Forall (fun line => trim line = "") (split_on line_feed csvText)
  | JS.Normal dataset =>
      Exists (fun line => trim line <> "") (split_on line_feed csvText)
      /\ S (length (data dataset)) = length (content_lines csvText)
      /\ rawText dataset = csvText
  end.
Proof.
  unfold parseCSV, content_lines.
  destruct (List.filter _ _) as [| first rest] eqn:E.
  - apply List.Forall_forall. intros line Hin.
    destruct (String.eqb_spec (trim line) "") as [H | H]; [exact H |].
    assert (Hf : In line []).
    { rewrite <- E. apply filter_In. split; [exact Hin |].
      apply String.eqb_neq in H. rewrite H. reflexivity. }
    destruct Hf.
  - cbn [data rawText]. rewrite length_map. split; [| split; reflexivity].
    apply List.Exists_exists. exists first.
    assert (Hf : In first (first :: rest)) by (left; reflexivity).
    rewrite <- E in Hf. apply filter_In in Hf as [Hin Hb].
    split; [exact Hin |].
    apply negb_true_iff, String.eqb_neq in Hb. exact Hb.
Qed.

(** X9: Every row that [parseCSV] builds has a cell for every header (but a
    header named [__proto__]) and for nothing else, and no header and no
    cell holds a double quote: lines that are too short are filled with
    empty cells and fields beyond the last header are dropped. *)
Theorem parseCSV_rows_have_the_headers (csvText : string)
  (dataset : Dataset) (r : row) :
  parseCSV csvText = JS.Normal dataset ->
  In r (data dataset) ->
  (forall h, In h (headers dataset) -> has_char double_quote h = false)
  /\ (forall h, In h (headers dataset) -> h <> "__proto__" ->
      exists v, r !! h = Some v /\ has_char double_quote v = false)
  /\ (forall k v, r !! k = Some v -> In k (headers dataset)).
Proof.
  intros Hparse Hr.
  destruct (CSVFacts.parse_inv csvText dataset Hparse)
    as (first & rest & _ & Hheaders & Hdata & _).
  rewrite Hdata in Hr. apply in_map_iff in Hr as (line & <- & _).
  split; [| split].
  - intros h Hh. rewrite Hheaders in Hh.
    apply in_map_iff in Hh as (field & <- & _).
    apply CSVFacts.remove_char_gone.
  - intros h Hh Hproto. unfold parse_row, reduce.
    destruct (CSVFacts.reduce_assign_defined
                (List.map clean_field (split_on "," line))
                (headers dataset) 0 ∅ h Hh Hproto) as [index Hindex].
    eexists. split; [exact Hindex |].
    apply CSVFacts.field_or_empty_clean.
  - intros k v Hk. unfold parse_row, reduce in Hk.
    apply CSVFacts.reduce_assign_keys in Hk as [Hk | Hk]; [exact Hk |].
    rewrite lookup_empty in Hk. discriminate.
Qed.

(** X10: Cells are matched to headers by position: when the headers are
    distinct, the row built for a line has, under the header at position
    [n], the cleaned field at position [n] of that line, and the empty
    string when the line has no such field. *)
Theorem parseCSV_cells_by_position (csvText : string) (dataset : Dataset)
  (first line h : string) (rest : list string) (r : row) (j n : nat) :
  parseCSV csvText = JS.Normal dataset ->
  content_lines csvText = first :: rest ->
  NoDup (headers dataset) ->
  rest !! j = Some line ->
  data dataset !! j = Some r ->
  headers dataset !! n = Some h ->
  h <> "__proto__" ->
  r !! h
  = Some (field_or_empty (List.map clean_field (split_on "," line)) n).
Proof.
  intros Hparse Hlines Hnodup Hline Hr Hh Hproto.
  destruct (CSVFacts.parse_inv csvText dataset Hparse)
    as (first' & rest' & Hlines' & _ & Hdata & _).
  rewrite Hlines in Hlines'. injection Hlines' as <- <-.
  rewrite Hdata in Hr.
  change (List.map (parse_row (headers dataset)) rest)
    with (parse_row (headers dataset) <$> rest) in Hr.
  rewrite list_lookup_fmap, Hline in Hr. injection Hr as <-.
  unfold parse_row, reduce.
  apply (CSVFacts.reduce_assign_position _ _ 0 n ∅ h Hnodup Hh Hproto).
Qed.

(** ** The other cards of the analytics report *)

Module CardFacts.

Lemma of_nat_positive (n : nat) : (0 < n)%nat -> 0 < inject_Z (Z.of_nat n).
Proof.
  intros H. replace 0 with (inject_Z 0) by reflexivity.
  rewrite <- Zlt_Qlt. lia.
Qed.

Lemma of_nat_le (c n : nat) :
  (c <= n)%nat -> inject_Z (Z.of_nat c) <= inject_Z (Z.of_nat n).
Proof. intros H. rewrite <- Zle_Qle. lia. Qed.

(** A share of a positive count, as a percentage. *)
Lemma percent_Fin (a : Q) (n : nat) :
  (0 < n)%nat ->
  (JS.Fin a / JS.of_nat n * JS.Fin 100)%js
  = JS.Fin (a / inject_Z (Z.of_nat n) * 100).
Proof.
  intros Hn. unfold JS.of_nat, JS.of_Z, JS.div.
  pose proof (of_nat_positive n Hn) as Hq.
  apply Qgt_alt in Hq. rewrite Hq. reflexivity.
Qed.

Lemma percent_bounds (a N : Q) :
  0 < N -> 0 <= a <= N ->
  0 <= a / N * 100 <= 100 /\ (0 < a -> 0 < a / N * 100).
Proof.
  intros HN [H0 H1].
  assert (Hlo : 0 <= a / N) by (apply Qle_shift_div_l; lra).
  assert (Hhi : a / N <= 1) by (apply Qle_shift_div_r; lra).
  split; [lra |]. intros Ha.
  assert (0 < a / N) by (apply Qlt_shift_div_l; lra). lra.
Qed.

(** A cell is either counted among the values of its column or among the
    blank cells. *)
Lemma values_and_blanks (header : string) (rows : list row) :
  (length (column_values header rows) + blank_cells header rows)%nat
  = length rows.
Proof.
  unfold column_values, blank_cells.
  induction rows as [| r rows IH]; [reflexivity |].
  cbn [List.flat_map List.filter]. rewrite length_app.
  destruct (r !! header) as [v |].
  - destruct (is_blank (Some v)); cbn [length]; lia.
  - change (is_blank None) with true. cbn [length]. lia.
Qed.

Lemma blank_cells_le (header : string) (rows : list row) :
  (blank_cells header rows <= length rows)%nat.
Proof. pose proof (values_and_blanks header rows). lia. Qed.

Lemma list_sum_cons (x : nat) (l : list nat) :
  list_sum (x :: l) = (x + list_sum l)%nat.
Proof. reflexivity. Qed.

Lemma blank_cells_cons (h : string) (r : row) (rows : list row) :
  blank_cells h (r :: rows)
  = ((if is_blank (r !! h) then 1 else 0) + blank_cells h rows)%nat.
Proof.
  unfold blank_cells. cbn [List.filter].
  destruct (is_blank (r !! h)); reflexivity.
Qed.

(** Counting the blank cells row by row or column by column. *)
Lemma blanks_by_rows_or_columns (columns : list string) (rows : list row) :
  list_sum
    (List.map
       (fun r : row =>
          length (List.filter (fun h => is_blank (r !! h)) columns)) rows)
  = list_sum (List.map (fun h => blank_cells h rows) columns).
Proof.
  induction rows as [| r rows IH].
  - cbn [List.map]. induction columns as [| h columns IHc]; [reflexivity |].
    cbn [List.map]. rewrite list_sum_cons, <- IHc. reflexivity.
  - cbn [List.map]. rewrite list_sum_cons, IH. clear IH.
    induction columns as [| h columns IHc]; [reflexivity |].
    cbn [List.map]. rewrite !list_sum_cons, <- IHc, blank_cells_cons.
    cbn [List.filter].
    destruct (is_blank (r !! h)); cbn [length]; lia.
Qed.

(** The sum that [displayDataQuality] accumulates over the rows. *)
Lemma sum_of_counts (counts : list nat) (acc : Q) :
  exists q,
    List.fold_left (fun a n => (a + JS.of_nat n)%js) counts (JS.Fin acc)
    = JS.Fin q
    /\ q == acc + inject_Z (Z.of_nat (list_sum counts)).
Proof.
  revert acc. induction counts as [| n counts IH]; intros acc.
  - exists acc. split; [reflexivity |]. simpl. ring.
  - cbn [List.fold_left]. unfold JS.of_nat at 2, JS.of_Z, JS.add.
    destruct (IH (acc + inject_Z (Z.of_nat n))) as (q & Hq & Hsum).
    exists q. split; [exact Hq |]. rewrite Hsum, list_sum_cons.
    rewrite Nat2Z.inj_add, inject_Z_plus. ring.
Qed.

Lemma fold_left_map {A B C : Type} (f : C -> B -> C) (g : A -> B)
  (l : list A) (acc : C) :
  List.fold_left (fun a x => f a (g x)) l acc
  = List.fold_left f (List.map g l) acc.
Proof.
  revert acc. induction l as [| x l IH]; intros acc; [reflexivity |].
  simpl. apply IH.
Qed.

Lemma sum_of_reported (cards : list missing_card) :
  list_sum
    (List.map missingCount
       (List.filter (fun col => (0 <? missingCount col)%nat) cards))
  = list_sum (List.map missingCount cards).
Proof.
  induction cards as [| c cards IH]; [reflexivity |].
  cbn [List.filter List.map]. rewrite list_sum_cons.
  destruct (0 <? missingCount c)%nat eqn:E.
  - cbn [List.map]. rewrite list_sum_cons. lia.
  - apply Nat.ltb_ge in E. lia.
Qed.

(** A [Set] built from an array has at most as many elements. *)
Lemma distinct_le_length (l : list string) :
  (size (list_to_set l : gset string) <= length l)%nat.
Proof.
  induction l as [| x l IH].
  - rewrite list_to_set_nil, size_empty. reflexivity.
  - rewrite list_to_set_cons, size_union_alt, size_singleton.
    cbn [length].
    assert (Hsub : (size (list_to_set l ∖ {[x]} : gset string)
                    <= size (list_to_set l : gset string))%nat).
    { apply subseteq_size. apply subseteq_difference_l. reflexivity. }
    lia.
Qed.

End CardFacts.

Section CardTheorems.

Variable Date_parse : string -> JS.number.
Variable finite_toString : Q -> string.
Variable finite_toFixed : Q -> nat -> string.


(** X12: A column is reported as missing values only when it has some, with a
    count that does not exceed the number of rows and a percentage that is
    a number above 0 and at most 100, never the result of a division by
    zero. *)
Theorem missing_cards_are_positive (dataset : Dataset) (card : missing_card) :
  In card (displayMissingValues finite_toFixed dataset) ->
  In (missing_header card) (headers dataset)
  /\ missingCount card = blank_cells (missing_header card) (data dataset)
  /\ (0 < missingCount card <= length (data dataset))%nat
  /\ exists x,
       missingPercentage card = finite_toFixed x 2
       /\ 0 < x <= 100.
Proof.
  unfold displayMissingValues. intros H.
  apply filter_In in H as [H Hpos]. apply Nat.ltb_lt in Hpos.
  apply in_map_iff in H as (h & <- & Hh).
  cbn [missing_header missingCount missingPercentage] in *.
  pose proof (CardFacts.blank_cells_le h (data dataset)) as Hle.
  split; [exact Hh |]. split; [reflexivity |]. split; [lia |].
  assert (Hn : (0 < length (data dataset))%nat) by lia.
  unfold JS.of_nat at 1, JS.of_Z. rewrite (CardFacts.percent_Fin _ _ Hn).
  eexists. split; [reflexivity |].
  destruct (CardFacts.percent_bounds
              (inject_Z (Z.of_nat (blank_cells h (data dataset))))
              (inject_Z (Z.of_nat (length (data dataset)))))
    as [[Hlo Hhi] Hstrict].
  - apply CardFacts.of_nat_positive, Hn.
  - split; [| apply CardFacts.of_nat_le, Hle].
    replace 0 with (inject_Z 0) by reflexivity. rewrite <- Zle_Qle. lia.
  - split; [| exact Hhi]. apply Hstrict. apply CardFacts.of_nat_positive.
    exact Hpos.
Qed.


End CardTheorems.

Module NumberLists.

(** Arrays of finite numbers are arrays of rationals. *)
Lemma finite_list (values : list JS.number) :
  Forall (fun v => is_finite v = true) values ->
  exists qs, values = List.map JS.Fin qs.
Proof.
  induction 1 as [| v values Hv _ [qs ->]]; [exists []; reflexivity |].
  destruct v as [| | | q]; try discriminate. exists (q :: qs). reflexivity.
Qed.

Lemma sum_Fin (qs : list Q) (i : nat) (acc : Q) :
  reduce_from (fun a b (_ : nat) => (a + b)%js) i (List.map JS.Fin qs)
    (JS.Fin acc)
  = JS.Fin (List.fold_left Qplus qs acc).
Proof.
  revert i acc. induction qs as [| q qs IH]; intros i acc; [reflexivity |].
  cbn [List.map reduce_from List.fold_left]. apply IH.
Qed.

Lemma min_fold_Fin (qs : list Q) (a : Q) :
  exists m,
    List.fold_left JS.Math_min (List.map JS.Fin qs) (JS.Fin a) = JS.Fin m
    /\ m <= a /\ Forall (fun q => m <= q) qs.
Proof.
  revert a. induction qs as [| q qs IH]; intros a.
  - exists a. split; [reflexivity |]. split; [apply Qle_refl | constructor].
  - cbn [List.map List.fold_left]. unfold JS.Math_min at 2.
    cbn [JS.isNaN orb].
    destruct (JS.lt (JS.Fin q) (JS.Fin a)) eqn:E.
    + apply JSFacts.lt_Fin in E.
      destruct (IH q) as (m & Hm & Hle & Hall).
      exists m. split; [exact Hm |]. split; [lra |].
      constructor; assumption.
    + apply JSFacts.lt_Fin_false in E.
      destruct (IH a) as (m & Hm & Hle & Hall).
      exists m. split; [exact Hm |]. split; [exact Hle |].
      constructor; [lra | exact Hall].
Qed.

Lemma max_fold_Fin (qs : list Q) (a : Q) :
  exists m,
    List.fold_left JS.Math_max (List.map JS.Fin qs) (JS.Fin a) = JS.Fin m
    /\ a <= m /\ Forall (fun q => q <= m) qs.
Proof.
  revert a. induction qs as [| q qs IH]; intros a.
  - exists a. split; [reflexivity |]. split; [apply Qle_refl | constructor].
  - cbn [List.map List.fold_left]. unfold JS.Math_max at 2.
    cbn [JS.isNaN orb].
    destruct (JS.lt (JS.Fin a) (JS.Fin q)) eqn:E.
    + apply JSFacts.lt_Fin in E.
      destruct (IH q) as (m & Hm & Hle & Hall).
      exists m. split; [exact Hm |]. split; [lra |].
      constructor; assumption.
    + apply JSFacts.lt_Fin_false in E.
      destruct (IH a) as (m & Hm & Hle & Hall).
      exists m. split; [exact Hm |]. split; [exact Hle |].
      constructor; [lra | exact Hall].
Qed.

(** The least and the greatest of a non-empty array of finite numbers. *)
Lemma min_max_of_Fin (q : Q) (qs : list Q) :
  exists lo hi,
    Math_min_of (List.map JS.Fin (q :: qs)) = JS.Fin lo
    /\ Math_max_of (List.map JS.Fin (q :: qs)) = JS.Fin hi
    /\ Forall (fun x => lo <= x <= hi) (q :: qs).
Proof.
  unfold Math_min_of, Math_max_of. cbn [List.map List.fold_left].
  change (JS.Math_min JS.PosInf (JS.Fin q)) with (JS.Fin q).
  change (JS.Math_max JS.NegInf (JS.Fin q)) with (JS.Fin q).
  destruct (min_fold_Fin qs q) as (lo & Hlo & Hloq & Hloall).
  destruct (max_fold_Fin qs q) as (hi & Hhi & Hhiq & Hhiall).
  exists lo, hi. split; [exact Hlo |]. split; [exact Hhi |].
  constructor; [split; assumption |].
  apply Forall_forall. intros x Hx.
  rewrite Forall_forall in Hloall, Hhiall. split; auto.
Qed.

(** The median is an element of the array or the mean of two of them. *)
Lemma median_cases (values : list JS.number) :
  values <> [] ->
  (exists a, In a values /\ (calculateMedian values).1 = a)
  \/ (exists a b, In a values /\ In b values
                 /\ (calculateMedian values).1 = ((a + b) / JS.Fin 2)%js).
Proof.
  intros Hne. unfold calculateMedian. cbn [fst].
  set (sorted := Array_sort by_difference values).
  assert (Hperm : Permutation values sorted)
    by apply Array_sort_permutation.
  assert (Hlen : length sorted = length values)
    by (symmetry; apply Permutation_length, Hperm).
  assert (Hin : forall i a, sorted !! i = Some a -> In a values).
  { intros i a Hi. apply (Permutation_in a (Permutation_sym Hperm)).
    apply list_elem_of_In. eapply list_elem_of_lookup_2. exact Hi. }
  assert (Hpos : (0 < length values)%nat)
    by (destruct values; [congruence | simpl; lia]).
  rewrite JSFacts.floor_half, JSFacts.rem_2_is_zero, Hlen.
  pose proof (Nat.div_mod_eq (length values) 2) as Hdiv.
  pose proof (Nat.mod_upper_bound (length values) 2) as Hmod.
  set (m := (length values / 2)%nat) in *.
  destruct (length values mod 2 =? 0)%nat eqn:E.
  - apply Nat.eqb_eq in E. right.
    rewrite JSFacts.index_of_nat.
    assert (Hprev : JS.index sorted (JS.of_nat m - JS.Fin 1)%js
                    = sorted !! (m - 1)%nat).
    { rewrite <- JSFacts.index_of_nat.
      unfold JS.of_nat, JS.of_Z, JS.sub, JS.neg, JS.add.
      apply JSFacts.index_ext.
      unfold Qeq, Qplus, Qopp, inject_Z. cbn [Qnum Qden]. lia. }
    rewrite Hprev.
    destruct (lookup_lt_is_Some_2 sorted (m - 1)) as [a Ha]; [lia |].
    destruct (lookup_lt_is_Some_2 sorted m) as [b Hb]; [lia |].
    rewrite Ha, Hb. exists a, b. eauto.
  - apply Nat.eqb_neq in E. left.
    rewrite JSFacts.index_of_nat.
    destruct (lookup_lt_is_Some_2 sorted m) as [a Ha]; [lia |].
    rewrite Ha. exists a. eauto.
Qed.

End NumberLists.

Module CategoryFacts.

Abbreviation by_amount :=
  (fun a b : string * JS.number => (b.2 - a.2)%js).
Abbreviation amount_known :=
  (fun e : string * JS.number => JS.isNaN e.2 = false).
Abbreviation amounts_descend :=
  (fun a b : string * JS.number => descending a.2 b.2).

Lemma insert_after_head (a b : string * JS.number)
  (l : list (string * JS.number)) :
  amounts_descend b a -> HdRel amounts_descend b l ->
  HdRel amounts_descend b (sort_insert by_amount a l).
Proof.
  intros Hba Hb. destruct l as [| c l]; cbn [sort_insert].
  - constructor. exact Hba.
  - inversion Hb; subst.
    destruct ((c.2 - a.2) > JS.Fin 0)%js; constructor; assumption.
Qed.

Lemma insert_keeps_descending (a : string * JS.number)
  (l : list (string * JS.number)) :
  amount_known a -> Forall amount_known l -> Sorted amounts_descend l ->
  Sorted amounts_descend (sort_insert by_amount a l).
Proof.
  intros Ha Hl Hs. induction Hs as [| b l Hs IH Hb]; cbn [sort_insert].
  - repeat constructor.
  - inversion Hl as [| ? ? Hbn Hl']; subst.
    rewrite (JSFacts.difference_positive b.2 a.2 Hbn Ha).
    destruct (a.2 < b.2)%js eqn:E.
    + constructor; [apply IH, Hl' |].
      apply insert_after_head; [apply JSFacts.lt_le, E | exact Hb].
    + constructor; [constructor; assumption |].
      constructor. apply JSFacts.not_lt_le; assumption.
Qed.

Lemma sort_by_amount_descends (l : list (string * JS.number)) :
  Forall amount_known l ->
  Sorted amounts_descend (Array_sort by_amount l).
Proof.
  induction 1 as [| a l Ha Hl IH]; cbn [Array_sort List.fold_right].
  - constructor.
  - apply insert_keeps_descending; [exact Ha | | exact IH].
    apply (Permutation_Forall (Array_sort_permutation _ l)). exact Hl.
Qed.

Lemma Sorted_take {A : Type} (R : A -> A -> Prop) (n : nat) (l : list A) :
  Sorted R l -> Sorted R (take n l).
Proof.
  intros Hs. revert n. induction Hs as [| a l Hs IH Ha]; intros n.
  - destruct n; constructor.
  - destruct n as [| n]; [constructor |]. cbn [take].
    constructor; [apply IH |].
    destruct Ha as [| b l Hab]; [destruct n; constructor |].
    destruct n; constructor. exact Hab.
Qed.

Lemma Sorted_map {A B : Type} (R : B -> B -> Prop) (f : A -> B)
  (l : list A) :
  Sorted (fun x y => R (f x) (f y)) l -> Sorted R (List.map f l).
Proof.
  induction 1 as [| a l Hs IH Ha]; cbn [List.map]; constructor.
  - exact IH.
  - destruct Ha; constructor. assumption.
Qed.

(** The keys of the map after an entry is added. *)
Lemma category_add_keys (m : list (string * JS.number)) (k : string)
  (amount : JS.number) :
  (In k (List.map fst m)
   /\ List.map fst (category_add m k amount) = List.map fst m)
  \/ (~ In k (List.map fst m)
      /\ List.map fst (category_add m k amount)
         = (List.map fst m ++ [k])%list).
Proof.
  induction m as [| [k' total] m IH]; cbn [category_add List.map fst].
  - right. split; [intros [] | reflexivity].
  - destruct (String.eqb k' k) eqn:E.
    + apply String.eqb_eq in E. subst k'. left.
      split; [left; reflexivity | reflexivity].
    + apply String.eqb_neq in E. cbn [List.map fst].
      destruct IH as [[Hin Heq] | [Hout Heq]]; rewrite Heq.
      * left. split; [right; exact Hin | reflexivity].
      * right. split; [| reflexivity]. intros [H | H]; tauto.
Qed.

Lemma category_add_NoDup (m : list (string * JS.number)) (k : string)
  (amount : JS.number) :
  List.NoDup (List.map fst m) ->
  List.NoDup (List.map fst (category_add m k amount)).
Proof.
  intros Hm.
  destruct (category_add_keys m k amount) as [[_ ->] | [Hout ->]];
    [exact Hm |].
  apply (Permutation_NoDup (Permutation_cons_append (List.map fst m) k)).
  constructor; assumption.
Qed.

Lemma category_add_keys_in (P : string -> Prop)
  (m : list (string * JS.number)) (k : string) (amount : JS.number) :
  P k -> Forall P (List.map fst m) ->
  Forall P (List.map fst (category_add m k amount)).
Proof.
  intros Hk Hm.
  destruct (category_add_keys m k amount) as [[_ ->] | [_ ->]];
    [exact Hm |].
  apply Forall_app. split; [exact Hm | constructor; [exact Hk | constructor]].
Qed.

Lemma category_add_finite (m : list (string * JS.number)) (k : string)
  (amount : JS.number) :
  is_finite amount = true ->
  Forall (fun e : string * JS.number => is_finite e.2 = true) m ->
  Forall (fun e : string * JS.number => is_finite e.2 = true)
    (category_add m k amount).
Proof.
  intros Ha Hm. induction Hm as [| [k' total] m Ht Hm IH];
    cbn [category_add].
  - constructor; [exact Ha | constructor].
  - destruct (String.eqb k' k).
    + constructor; [| exact Hm]. cbn [snd] in *.
      destruct total, amount; try discriminate. reflexivity.
    + constructor; [exact Ht | exact IH].
Qed.

(** Adding an amount to the map adds it to the sum of the totals. *)
Lemma category_add_sum (qs : list Q) (m : list (string * JS.number))
  (k : string) (a : Q) :
  List.map snd m = List.map JS.Fin qs ->
  exists qs',
    List.map snd (category_add m k (JS.Fin a)) = List.map JS.Fin qs'
    /\ List.fold_right Qplus 0 qs' == List.fold_right Qplus 0 qs + a.
Proof.
  revert qs. induction m as [| [k' total] m IH]; intros qs Hm.
  - destruct qs; [| discriminate]. exists [a]. split; [reflexivity |].
    simpl. ring.
  - destruct qs as [| q qs]; [discriminate |].
    cbn [List.map snd] in Hm. injection Hm as -> Hm.
    cbn [category_add]. destruct (String.eqb k' k).
    + exists ((q + a) :: qs). cbn [List.map snd JS.add]. rewrite Hm.
      split; [reflexivity |]. simpl. ring.
    + destruct (IH qs Hm) as (qs' & Hqs' & Hsum).
      exists (q :: qs'). cbn [List.map snd]. rewrite Hqs'.
      split; [reflexivity |]. simpl. rewrite Hsum. ring.
Qed.

End CategoryFacts.

Section MoreCardTheorems.

Variable finite_toFixed : Q -> nat -> string.

Lemma numeric_values_finite (dataset : Dataset) (col : string) :
  finite_cells dataset = true ->
  In col (headers dataset) ->
  Forall (fun v => is_finite v = true)
    (numeric_values col (data dataset)).
Proof.
  intros Hfin Hcol. unfold finite_cells in Hfin.
  rewrite List.forallb_forall in Hfin.
  apply List.Forall_forall. intros v Hv. unfold numeric_values in Hv.
  apply filter_In in Hv as [Hv Hnan].
  apply in_map_iff in Hv as (r & <- & Hr).
  specialize (Hfin r Hr). rewrite List.forallb_forall in Hfin.
  specialize (Hfin col Hcol).
  destruct (parseFloat (r !! col)); try discriminate; reflexivity.
Qed.

Lemma numeric_values_length (col : string) (rows : list row) :
  (length (numeric_values col rows) <= length rows)%nat.
Proof.
  unfold numeric_values.
  etransitivity; [apply List.filter_length_le |].
  rewrite List.length_map. reflexivity.
Qed.

(** X14: When a header names a label column, the rows with a label are split
    into fraud and legitimate ones: the two counts add up to the labelled
    rows, and the two percentages are 0 without a labelled row, and
    otherwise numbers from 0 to 100, which are 0 and 100 when no labelled
    row is fraud and 100 and 0 when all of them are. *)
Theorem fraud_counts_partition (dataset : Dataset) (fraudColumn : string)
  (others : list string) :
  List.filter (mentions ["fraud"; "is_fraud"; "class"; "target"])
    (headers dataset) = fraudColumn :: others ->
  let labelled := length (column_values fraudColumn (data dataset)) in
  exists fraudCount fraudPercentage legitimate legitimatePercentage,
    displayFraudAnalysis finite_toFixed dataset
    = FraudCounts fraudCount fraudPercentage (JS.Fin legitimate)
        legitimatePercentage
    /\ (fraudCount <= labelled <= length (data dataset))%nat
    /\ legitimate == inject_Z (Z.of_nat (labelled - fraudCount))
    /\ if (0 <? labelled)%nat then
         exists x y,
           fraudPercentage = Str (finite_toFixed x 2)
           /\ legitimatePercentage = Str (finite_toFixed y 2)
           /\ 0 <= x <= 100
           /\ 0 <= y <= 100
           /\ (fraudCount = 0%nat -> x == 0 /\ y == 100)
           /\ (fraudCount = labelled -> x == 100 /\ y == 0)
       else
         fraudPercentage = Num (JS.Fin 0)
         /\ legitimatePercentage = Num (JS.Fin 0).
Proof.
  intros Hcol labelled. unfold displayFraudAnalysis. rewrite Hcol.
  fold labelled.
  set (fraudCount := length (List.filter _ _)).
  assert (Hle : (fraudCount <= labelled)%nat)
    by apply List.filter_length_le.
  assert (Hrows : (labelled <= length (data dataset))%nat).
  { pose proof (CardFacts.values_and_blanks fraudColumn (data dataset)).
    unfold labelled. lia. }
  assert (Hleg : (JS.of_nat labelled - JS.of_nat fraudCount)%js
                 = JS.Fin (inject_Z (Z.of_nat labelled)
                           + - inject_Z (Z.of_nat fraudCount)))
    by reflexivity.
  rewrite Hleg. do 4 eexists. split; [reflexivity |].
  split; [lia |]. split.
  { rewrite Nat2Z.inj_sub by exact Hle.
    unfold Z.sub. rewrite inject_Z_plus, inject_Z_opp. reflexivity. }
  destruct (0 <? labelled)%nat eqn:E; [| split; reflexivity].
  apply Nat.ltb_lt in E.
  unfold JS.of_nat at 1, JS.of_Z. rewrite !(CardFacts.percent_Fin _ _ E).
  do 2 eexists. split; [reflexivity |]. split; [reflexivity |].
  pose proof (CardFacts.of_nat_positive labelled E) as HT.
  pose proof (CardFacts.of_nat_le fraudCount labelled Hle) as HF.
  assert (HF0 : 0 <= inject_Z (Z.of_nat fraudCount)).
  { replace 0 with (inject_Z 0) by reflexivity. rewrite <- Zle_Qle. lia. }
  set (T := inject_Z (Z.of_nat labelled)) in *.
  set (F := inject_Z (Z.of_nat fraudCount)) in *.
  destruct (CardFacts.percent_bounds F T HT) as [Hx _];
    [split; assumption |].
  destruct (CardFacts.percent_bounds (T + - F) T HT) as [Hy _];
    [split; lra |].
  assert (HT0 : ~ T == 0) by (intros H0; rewrite H0 in HT; lra).
  split; [exact Hx |]. split; [exact Hy |]. split.
  - intros H0. assert (E0 : F == 0) by (unfold F; rewrite H0; reflexivity).
    rewrite E0. split; field; exact HT0.
  - intros Hall. assert (E1 : F == T) by (unfold F, T; rewrite Hall;
                                           reflexivity).
    rewrite E1. split; field; exact HT0.
Qed.



Lemma category_totals_keys (categoryColumn : string)
  (amountColumn : option string) (rows : list row) :
  List.NoDup (List.map fst (category_totals categoryColumn amountColumn rows))
  /\ Forall (fun name => name <> "")
       (List.map fst (category_totals categoryColumn amountColumn rows)).
Proof.
  unfold category_totals.
  assert (H : List.NoDup (List.map fst ([] : list (string * JS.number)))
              /\ Forall (fun name => name <> "")
                   (List.map fst ([] : list (string * JS.number))))
    by (split; constructor).
  revert H. generalize ([] : list (string * JS.number)).
  induction rows as [| r rows IH]; intros m [Hm Hnames]; [split; assumption |].
  cbn [List.fold_left]. apply IH. split.
  - apply CategoryFacts.category_add_NoDup, Hm.
  - apply CategoryFacts.category_add_keys_in; [| exact Hnames].
    destruct (r !! categoryColumn) as [c |]; [| discriminate].
    destruct (String.eqb c "") eqn:E; [discriminate |].
    apply String.eqb_neq, E.
Qed.

Lemma category_totals_finite (dataset : Dataset) (categoryColumn : string)
  (amountColumn : option string) :
  finite_cells dataset = true ->
  (forall column, amountColumn = Some column ->
                  In column (headers dataset)) ->
  Forall (fun e : string * JS.number => is_finite e.2 = true)
    (category_totals categoryColumn amountColumn (data dataset)).
Proof.
  intros Hfin Hcol. unfold finite_cells in Hfin.
  rewrite List.forallb_forall in Hfin. unfold category_totals.
  assert (H : Forall (fun e : string * JS.number => is_finite e.2 = true)
                ([] : list (string * JS.number))) by constructor.
  revert H. generalize ([] : list (string * JS.number)).
  induction (data dataset) as [| r rows IH]; intros m Hm; [exact Hm |].
  cbn [List.fold_left]. apply IH.
  - intros r' Hr'. apply Hfin. right. exact Hr'.
  - apply CategoryFacts.category_add_finite; [| exact Hm].
    destruct amountColumn as [column |]; [| reflexivity].
    specialize (Hfin r (or_introl eq_refl)).
    rewrite List.forallb_forall in Hfin.
    specialize (Hfin column (Hcol column eq_refl)).
    destruct (parseFloat (r !! column)) as [| | | q]; try discriminate;
      try reflexivity.
    cbn [truthy]. destruct (negb (Qeq_bool q 0)); reflexivity.
Qed.

(** X17: The spending cards show at most six categories, each once and none
    with an empty name: a row without a category is counted under
    Unknown. Without a category column the card shows the numbers of
    records and of columns. *)
Theorem spending_categories_distinct (dataset : Dataset) :
  match displaySpendingCategories finite_toFixed dataset with
  | Categories cards =>
      (length cards <= 6)%nat
      /\ List.NoDup (List.map (fun card => card.1.1) cards)
      /\ Forall (fun card => card.1.1 <> "") cards
  | Overview records columns =>
      records = length (data dataset)
      /\ columns = length (headers dataset)
  end.
Proof.
  unfold displaySpendingCategories.
  destruct (List.filter
              (mentions ["category"; "type"; "merchant"; "description"])
              (headers dataset)) as [| categoryColumn others];
    [split; reflexivity |].
  set (amountColumn := List.find _ _).
  set (categoryMap := category_totals _ _ _).
  set (sorted := Array_sort _ categoryMap).
  destruct (category_totals_keys categoryColumn amountColumn (data dataset))
    as [Hnodup Hnames].
  fold categoryMap in Hnodup, Hnames.
  assert (Hperm : Permutation (List.map fst categoryMap)
                    (List.map fst sorted))
    by apply Permutation_map, Array_sort_permutation.
  split; [rewrite List.length_map, length_take; lia |].
  rewrite List.map_map. cbn [fst].
  split.
  - rewrite <- (take_drop 6 sorted), List.map_app in Hperm.
    apply (Permutation_NoDup Hperm) in Hnodup.
    apply List.NoDup_app_remove_r in Hnodup. exact Hnodup.
  - apply (Permutation_Forall Hperm) in Hnames.
    rewrite <- (take_drop 6 sorted), List.map_app in Hnames.
    apply Forall_app in Hnames as [Hnames _].
    apply List.Forall_forall. intros card Hcard.
    apply in_map_iff in Hcard as (e & <- & He). cbn [fst].
    rewrite List.Forall_forall in Hnames. apply Hnames.
    apply in_map_iff. exists e. split; [reflexivity | exact He].
Qed.


(** X19: When no header names an amount, the category map counts the rows:
    its totals are finite and add up to the number of rows. *)
Theorem category_totals_count_rows (categoryColumn : string)
  (rows : list row) :
  exists counts,
    List.map snd (category_totals categoryColumn None rows)
    = List.map JS.Fin counts
    /\ List.fold_right Qplus 0 counts == inject_Z (Z.of_nat (length rows)).
Proof.
  unfold category_totals.
  assert (H : forall (m : list (string * JS.number)) (before : list Q),
             List.map snd m = List.map JS.Fin before ->
             exists counts,
               List.map snd
                 (List.fold_left
                    (fun categoryMap (r : row) =>
                       category_add categoryMap
                         match r !! categoryColumn with
                         | Some c => if String.eqb c "" then "Unknown" else c
                         | None => "Unknown"
                         end (JS.Fin 1))
                    rows m)
               = List.map JS.Fin counts
               /\ List.fold_right Qplus 0 counts
                  == List.fold_right Qplus 0 before
                     + inject_Z (Z.of_nat (length rows))).
  { induction rows as [| r rows IH]; intros m before Hm.
    - exists before. split; [exact Hm |]. simpl. ring.
    - cbn [List.fold_left].
      destruct (CategoryFacts.category_add_sum before m
                  match r !! categoryColumn with
                  | Some c => if String.eqb c "" then "Unknown" else c
                  | None => "Unknown"
                  end 1 Hm) as (counts' & Hm' & Hsum').
      destruct (IH _ counts' Hm') as (counts & Hcounts & Hsum).
      exists counts. split; [exact Hcounts |]. rewrite Hsum, Hsum'.
      cbn [length]. rewrite Nat2Z.inj_succ, <- Z.add_1_r, inject_Z_plus.
      change (inject_Z 1) with 1. ring. }
  destruct (H [] [] eq_refl) as (counts & Hcounts & Hsum).
  exists counts. split; [exact Hcounts |]. rewrite Hsum. simpl. ring.
Qed.

End MoreCardTheorems.

(** ** The quality card *)

Module QualityFacts.

Lemma percent_Q (a T : Q) :
  0 < T -> (JS.Fin a / JS.Fin T * JS.Fin 100)%js = JS.Fin (a / T * 100).
Proof.
  intros HT. unfold JS.div. apply Qgt_alt in HT. rewrite HT. reflexivity.
Qed.

Lemma list_sum_le (bound : nat) (counts : list nat) :
  Forall (fun c => (c <= bound)%nat) counts ->
  (list_sum counts <= bound * length counts)%nat.
Proof.
  induction 1 as [| c counts Hc _ IH]; [cbn; lia |].
  rewrite CardFacts.list_sum_cons. cbn [length]. lia.
Qed.

(** The rows counted by [calculateDataConsistency]. *)
Lemma consistent_rows_le {A : Type} (P : A -> bool) (rows : list A)
  (k : nat) :
  (k <= List.fold_left (fun c r => if P r then S c else c) rows k
   <= k + length rows)%nat.
Proof.
  revert k. induction rows as [| r rows IH]; intros k; cbn [List.fold_left].
  - cbn [length]. lia.
  - cbn [length]. destruct (P r); [specialize (IH (S k)) | specialize (IH k)];
      lia.
Qed.

Lemma consistent_rows_all {A : Type} (P : A -> bool) (rows : list A)
  (k : nat) :
  Forall (fun r => P r = true) rows ->
  List.fold_left (fun c r => if P r then S c else c) rows k
  = (k + length rows)%nat.
Proof.
  intros H. revert k. induction H as [| r rows Hr _ IH]; intros k;
    cbn [List.fold_left length]; [lia |].
  rewrite Hr, IH. lia.
Qed.

Lemma round_percent (x : Q) :
  0 <= x <= 100 -> (0 <= Qfloor (x + (1 # 2)) <= 100)%Z.
Proof.
  intros [H0 H1]. split.
  - change 0%Z with (Qfloor (1 # 2)). apply Qfloor_resp_le. lra.
  - change 100%Z with (Qfloor (100 + (1 # 2))). apply Qfloor_resp_le. lra.
Qed.

End QualityFacts.

Section QualityTheorems.

Variable finite_toString : Q -> string.
Variable finite_toFixed : Q -> nat -> string.



End QualityTheorems.

(** ** The live statistics, the pie chart and the test data *)

Module StatisticsFacts.

Lemma no_null (history : list value) :
  Forall (fun t => is_null t = false) history ->
  List.existsb is_null history = false.
Proof.
  induction 1 as [| t history Ht _ IH]; [reflexivity |].
  cbn [List.existsb]. rewrite Ht, IH. reflexivity.
Qed.

Lemma no_null_entry (history : list value) :
  Forall renderable history -> List.existsb is_null history = false.
Proof.
  intros H. apply no_null. eapply List.Forall_impl; [| exact H].
  intros t (_ & Ht & _). exact Ht.
Qed.

Lemma scored_not_null (history : list value) :
  Forall (fun t => scored_entry t = true) history ->
  List.existsb is_null history = false.
Proof.
  intros H. apply no_null. eapply List.Forall_impl; [| exact H].
  intros t Ht. unfold scored_entry in Ht. apply andb_prop in Ht as [Ht _].
  apply negb_true_iff, Ht.
Qed.

(** The sum of risk scores that are numbers from 0 to 1, or missing. *)
Lemma scored_sum (finite_toString : Q -> string) (history : list value)
  (acc : Q) :
  Forall (fun t => scored_entry t = true) history ->
  exists total,
    reduce_completion
      (fun sum transaction =>
         plus finite_toString sum (risk_score_or_0 transaction))
      history (Num (JS.Fin acc))
    = JS.Normal (Num (JS.Fin total))
    /\ acc <= total <= acc + inject_Z (Z.of_nat (length history)).
Proof.
  intros H. revert acc. induction H as [| t history Ht _ IH]; intros acc.
  - exists acc. split; [reflexivity |]. cbn [length].
    change (inject_Z (Z.of_nat 0)) with 0. lra.
  - cbn [reduce_completion length].
    rewrite Nat2Z.inj_succ, <- Z.add_1_r, inject_Z_plus.
    change (inject_Z 1) with 1.
    assert (Hq : exists q,
               risk_score_or_0 t = Num (JS.Fin q) /\ 0 <= q <= 1).
    { unfold scored_entry in Ht. apply andb_prop in Ht as [_ Ht].
      unfold risk_score_or_0, or_else.
      destruct (get (as_object t) "risk_score") as [| | | [| | | q] | | |];
        try discriminate.
      - exists 0. split; [reflexivity | lra].
      - apply andb_prop in Ht as [H0 H1].
        apply Qle_bool_iff in H0. apply Qle_bool_iff in H1.
        destruct (truthy (Num (JS.Fin q))).
        + exists q. split; [reflexivity | lra].
        + exists 0. split; [reflexivity | lra]. }
    destruct Hq as (q & -> & Hq).
    change (plus finite_toString (Num (JS.Fin acc)) (Num (JS.Fin q)))
      with (JS.Normal (Num (JS.Fin (acc + q)))).
    destruct (IH (acc + q)) as (total & Hrun & Hb).
    exists total. split; [exact Hrun | lra].
Qed.

Lemma history_of_stored (ls : storage) (history : list value) :
  stored_history ls = Some history ->
  getItem_parsed ls "transactionHistory" = Arr history.
Proof.
  unfold stored_history, getItem_parsed.
  destruct (ls !! "transactionHistory") as [[] |]; congruence.
Qed.

Lemma history_of_current (ls : storage) (history : list value) :
  current_history ls = Some history ->
  getItem_parsed ls "transactionHistory" = Arr history.
Proof.
  unfold current_history.
  destruct (getItem_parsed ls "transactionHistory"); congruence.
Qed.

Section Filters.

Variable finite_toString : Q -> string.

(** On plain entries the callback of the two filters does not throw. *)
Lemma id_startsWith_plain (t : value) :
  plain_entry t = true ->
  id_startsWith finite_toString "test-" t
  = JS.Normal (test_entry finite_toString t).
Proof.
  unfold plain_entry, test_entry, id_startsWith. intros H.
  apply andb_prop in H as [H Hid]. apply andb_prop in H as [_ Hnull].
  apply negb_true_iff in Hnull. rewrite Hnull.
  destruct (truthy (get (as_object t) "id")); [| reflexivity].
  destruct (get (as_object t) "id") as [| | [] | n | s | |];
    try discriminate; reflexivity.
Qed.

Lemma filter_plain (history : list value) :
  Forall (fun t => plain_entry t = true) history ->
  filter_completion (id_startsWith finite_toString "test-") history
  = JS.Normal (List.filter (test_entry finite_toString) history)
  /\ filter_completion
       (fun t =>
          match id_startsWith finite_toString "test-" t with
          | JS.Normal b => JS.Normal (negb b)
          | JS.Throw e => JS.Throw e
          end)
       history
     = JS.Normal
         (List.filter (fun t => negb (test_entry finite_toString t)) history).
Proof.
  induction 1 as [| t history Ht _ [IH1 IH2]]; [split; reflexivity |].
  cbn [filter_completion List.filter].
  rewrite (id_startsWith_plain t Ht), IH1, IH2.
  destruct (test_entry finite_toString t); split; reflexivity.
Qed.

Lemma filter_nothing_left (history : list value) :
  List.filter (test_entry finite_toString)
    (List.filter (fun t => negb (test_entry finite_toString t)) history)
  = [].
Proof.
  induction history as [| t history IH]; [reflexivity |].
  cbn [List.filter]. destruct (test_entry finite_toString t) eqn:E;
    cbn [negb List.filter]; [exact IH |].
  rewrite E. exact IH.
Qed.

Lemma nothing_to_remove (history : list value) :
  List.filter (test_entry finite_toString) history = [] ->
  history
  = List.filter (fun t => negb (test_entry finite_toString t)) history.
Proof.
  induction history as [| t history IH]; [reflexivity |].
  cbn [List.filter]. destruct (test_entry finite_toString t);
    [discriminate |].
  cbn [negb]. intros H. f_equal. apply IH, H.
Qed.

End Filters.

Lemma plain_is_json (history : list value) :
  Forall (fun t => plain_entry t = true) history ->
  List.map JSON_roundtrip history = history.
Proof.
  induction 1 as [| t history Ht _ IH]; [reflexivity |].
  cbn [List.map]. rewrite IH. f_equal.
  apply HandlerFacts.JSON_roundtrip_json.
  unfold plain_entry in Ht. apply andb_prop in Ht as [Ht _].
  apply andb_prop in Ht as [Ht _]. exact Ht.
Qed.

End StatisticsFacts.

Section StatisticsTheorems.

Variable draws : nat -> Q.
Variable finite_toString : Q -> string.
Variable finite_toFixed : Q -> nat -> string.

Lemma statistics_run (ls : storage) (history : list value) :
  getItem_parsed ls "transactionHistory" = Arr history ->
  Forall renderable history ->
  exists rate average,
    updateLiveStatistics finite_toString finite_toFixed ls
    = JS.Normal
        {| Live.totalTransactions := length history;
           Live.fraudCount := length (List.filter is_fraud_entry history);
           Live.fraudRate := rate;
           Live.avgRiskScore := average |}.
Proof.
  intros Hh Hr. unfold updateLiveStatistics.
  rewrite Hh, (StatisticsFacts.no_null_entry history Hr).
  destruct (renderable_parts history Hr) as (Hrisk & _).
  destruct (HandlerFacts.total_risk_runs finite_toString history
              (Num (JS.Fin 0)) Hrisk I) as [totalRisk ->].
  eexists _, _. reflexivity.
Qed.

(** X22: The live statistics and the pie chart read the same history.  For a
    stored history whose entries have a risk score from 0 to 1, or none,
    both end normally: the fraud count they show is the same, the two
    slices of the pie add up to the total of the statistics, and the fraud
    rate and the average risk are 0 for an empty history and otherwise
    numbers from 0 to 100, never the result of a division by zero. *)
Theorem live_statistics_match_the_pie (ls : storage)
  (history : list value) :
  current_history ls = Some history ->
  Forall (fun t => scored_entry t = true) history ->
  exists (stats : Live.statistics) (legitimate : Q),
    updateLiveStatistics finite_toString finite_toFixed ls = JS.Normal stats
    /\ createFraudPieChart ls
       = JS.Normal [JS.of_nat (Live.fraudCount stats); JS.Fin legitimate]
    /\ Live.totalTransactions stats = length history
    /\ (Live.fraudCount stats <= Live.totalTransactions stats)%nat
    /\ legitimate
       == inject_Z
            (Z.of_nat
               (Live.totalTransactions stats - Live.fraudCount stats))
    /\ if (0 <? length history)%nat then
         exists x y,
           Live.fraudRate stats = Str (finite_toFixed x 1)
           /\ Live.avgRiskScore stats = Str (finite_toFixed y 1)
           /\ 0 <= x <= 100
           /\ 0 <= y <= 100
       else
         Live.fraudRate stats = Num (JS.Fin 0)
         /\ Live.avgRiskScore stats = Num (JS.Fin 0).
Proof.
  intros Hh Hs. apply StatisticsFacts.history_of_current in Hh.
  pose proof (StatisticsFacts.scored_not_null history Hs) as Hnull.
  destruct (StatisticsFacts.scored_sum finite_toString history 0 Hs)
    as (total & Hsum & Htotal).
  unfold updateLiveStatistics, createFraudPieChart.
  rewrite Hh, Hnull, Hsum.
  set (fraudCount := length (List.filter is_fraud_entry history)).
  assert (Hle : (fraudCount <= length history)%nat)
    by apply List.filter_length_le.
  eexists. eexists. split; [reflexivity |].
  cbn [Live.totalTransactions Live.fraudCount Live.fraudRate
         Live.avgRiskScore primitive_ToNumber].
  split; [reflexivity |]. split; [reflexivity |]. split; [exact Hle |].
  split.
  { rewrite Nat2Z.inj_sub by exact Hle.
    unfold Z.sub. rewrite inject_Z_plus, inject_Z_opp. reflexivity. }
  destruct (0 <? length history)%nat eqn:E; [| split; reflexivity].
  apply Nat.ltb_lt in E.
  unfold JS.of_nat at 1, JS.of_Z. rewrite !(CardFacts.percent_Fin _ _ E).
  eexists. eexists. split; [reflexivity |]. split; [reflexivity |].
  pose proof (CardFacts.of_nat_positive _ E) as Hpos.
  split.
  - apply CardFacts.percent_bounds; [exact Hpos |].
    split; [| apply CardFacts.of_nat_le, Hle].
    replace 0 with (inject_Z 0) by reflexivity. rewrite <- Zle_Qle. lia.
  - apply CardFacts.percent_bounds; [exact Hpos |]. lra.
Qed.

(** X23: A check that falls back on the mock scorer shows in the live
    statistics: the total goes up by one, and the fraud count goes up by
    one exactly when the scorer's verdict is fraud. *)
Theorem checkTransaction_counts_in_statistics (history_shown : bool)
  (clock_try clock_catch : Q * string) (formData : FormData) (s : page)
  (history : list value) :
  validateEnhancedTransactionForm formData = true ->
  current_history (localStorage s) = Some history ->
  Forall renderable history ->
  exists (p : Prediction) (k' : nat) (s' : page)
         (before after : Live.statistics),
    generateEnhancedMockPrediction draws finite_toString formData
      (draws_used s)
    = JS.Normal (p, k')
    /\ checkTransaction draws finite_toString finite_toFixed history_shown
         clock_try clock_catch formData None s
       = (JS.Normal tt, s')
    /\ updateLiveStatistics finite_toString finite_toFixed (localStorage s)
       = JS.Normal before
    /\ updateLiveStatistics finite_toString finite_toFixed (localStorage s')
       = JS.Normal after
    /\ Live.totalTransactions after = S (Live.totalTransactions before)
    /\ Live.fraudCount after
       = ((if is_fraud p then 1 else 0) + Live.fraudCount before)%nat.
Proof.
  intros V Hh Hr. unfold checkTransaction. rewrite V. cbn [negb].
  unfold try_catch, hthrow.
  destruct (fallback_runs draws finite_toString finite_toFixed
              history_shown clock_catch formData s history Hh Hr)
    as (p & k' & record & s' & Hrun & Hcatch & Hstored & _ & Hflag & Hrisk
        & _).
  rewrite Hcatch.
  destruct (statistics_run (localStorage s) history
              (StatisticsFacts.history_of_current _ _ Hh) Hr)
    as (rate & average & Hbefore).
  assert (Hafter : exists rate' average',
             updateLiveStatistics finite_toString finite_toFixed
               (localStorage s')
             = JS.Normal
                 {| Live.totalTransactions := length (Obj record :: history);
                    Live.fraudCount :=
                      length
                        (List.filter is_fraud_entry (Obj record :: history));
                    Live.fraudRate := rate';
                    Live.avgRiskScore := average' |}).
  { unfold updateLiveStatistics.
    rewrite (StatisticsFacts.history_of_stored _ _ Hstored).
    cbn [List.existsb is_null orb].
    rewrite (StatisticsFacts.no_null_entry history Hr).
    destruct (renderable_parts history Hr) as (Hparts & _).
    destruct (HandlerFacts.total_risk_runs finite_toString
                (Obj record :: history) (Num (JS.Fin 0)))
      as [totalRisk ->]; [| exact I | eexists _, _; reflexivity].
    constructor; [| exact Hparts].
    unfold risk_score_or_0. cbn [as_object]. rewrite Hrisk.
    unfold or_else. destruct (truthy _); reflexivity. }
  destruct Hafter as (rate' & average' & Hafter).
  exists p, k', s'. eexists. eexists.
  split; [exact Hrun |]. split; [reflexivity |].
  split; [exact Hbefore |]. split; [exact Hafter |].
  cbn [Live.totalTransactions Live.fraudCount length List.filter].
  split; [reflexivity |].
  unfold is_fraud_entry at 1. cbn [as_object]. rewrite Hflag.
  cbn [truthy]. destruct (is_fraud p); reflexivity.
Qed.

(** What [test8_clearTestData] does to a history of plain entries. *)
Lemma test_data_cleaned (ls : storage) (history : list value) :
  getItem_parsed ls "transactionHistory" = Arr history ->
  Forall (fun t => plain_entry t = true) history ->
  exists ls' : storage,
    test8_clearTestData finite_toString ls = JS.Normal ls'
    /\ (List.filter (test_entry finite_toString) history = [] -> ls' = ls)
    /\ (List.filter (test_entry finite_toString) history <> [] ->
        getItem_parsed ls' "transactionHistory"
        = Arr (List.filter (fun t => negb (test_entry finite_toString t))
                 history))
    /\ (forall key, key <> "transactionHistory" -> ls' !! key = ls !! key).
Proof.
  intros Hget Hp.
  destruct (StatisticsFacts.filter_plain finite_toString history Hp)
    as [Htests Hcleaned].
  set (cleaned :=
         List.filter (fun t => negb (test_entry finite_toString t)) history)
    in *.
  assert (Hplain : Forall (fun t => plain_entry t = true) cleaned).
  { apply List.Forall_forall. intros t Ht. unfold cleaned in Ht.
    apply filter_In in Ht as [Ht _].
    rewrite List.Forall_forall in Hp. apply Hp, Ht. }
  unfold test8_clearTestData. rewrite Hget, Htests, Hcleaned.
  destruct (List.filter (test_entry finite_toString) history)
    as [| t tests] eqn:E; cbn [length Nat.ltb Nat.leb].
  - exists ls. split; [reflexivity |]. split; [reflexivity |].
    split; [intros H; exfalso; apply H; reflexivity | reflexivity].
  - eexists. split; [reflexivity |]. split; [discriminate |]. split.
    + intros _. unfold getItem_parsed, setItem_json.
      rewrite lookup_insert_eq. cbn [JSON_roundtrip].
      rewrite (StatisticsFacts.plain_is_json cleaned Hplain). reflexivity.
    + intros key Hkey. unfold setItem_json.
      rewrite lookup_insert_ne by congruence. reflexivity.
Qed.

(** X24: Clearing the test data removes the entries whose id starts with
    test- and keeps the others as they are and in their order, leaves the
    rest of the storage alone, and has nothing left to do when it is run
    again. *)
Theorem clearTestData_removes_and_settles (ls : storage)
  (history : list value) :
  current_history ls = Some history ->
  Forall (fun t => plain_entry t = true) history ->
  exists ls' : storage,
    test8_clearTestData finite_toString ls = JS.Normal ls'
    /\ current_history ls'
       = Some
           (List.filter (fun t => negb (test_entry finite_toString t))
              history)
    /\ (forall key, key <> "transactionHistory" -> ls' !! key = ls !! key)
    /\ test8_clearTestData finite_toString ls' = JS.Normal ls'.
Proof.
  intros Hh Hp.
  pose proof (StatisticsFacts.history_of_current _ _ Hh) as Hget.
  set (cleaned :=
         List.filter (fun t => negb (test_entry finite_toString t)) history).
  assert (Hplain : Forall (fun t => plain_entry t = true) cleaned).
  { apply List.Forall_forall. intros t Ht. unfold cleaned in Ht.
    apply filter_In in Ht as [Ht _].
    rewrite List.Forall_forall in Hp. apply Hp, Ht. }
  destruct (test_data_cleaned ls history Hget Hp)
    as (ls' & Hrun & Hnone & Hsome & Hframe).
  assert (Hget' : getItem_parsed ls' "transactionHistory" = Arr cleaned).
  { destruct (List.filter (test_entry finite_toString) history) eqn:E.
    - rewrite (Hnone eq_refl), Hget. f_equal.
      apply StatisticsFacts.nothing_to_remove, E.
    - apply Hsome. discriminate. }
  exists ls'. split; [exact Hrun |]. split; [| split; [exact Hframe |]].
  - unfold current_history. rewrite Hget'. reflexivity.
  - destruct (test_data_cleaned ls' cleaned Hget' Hplain)
      as (ls'' & Hrun' & Hnone' & _).
    rewrite Hrun'. f_equal. apply Hnone'.
    apply StatisticsFacts.filter_nothing_left.
Qed.

(** X25: No record written by [saveToTransactionHistory], in the declaration
    that is in force, is removed by [test8_clearTestData], whatever the
    form and the result: its id starts with T/, not with test-.  So the
    record that the mock transaction of the tests saves, whose result
    carries an id starting with test-, stays in the history when the test
    data are cleared. *)
Theorem saved_record_survives_cleanup (now : Q) (nowISO : string)
  (formData result : object) (ls : storage) (history : list value) :
  current_history ls = Some history ->
  Forall (fun t => plain_entry t = true) history ->
  exists (record : object) (saved cleared : storage),
    saveToTransactionHistory_redeclared now nowISO finite_toString formData
      result ls
    = JS.Normal saved
    /\ test8_clearTestData finite_toString saved = JS.Normal cleared
    /\ current_history cleared
       = Some
           (Obj record
            :: List.filter (fun t => negb (test_entry finite_toString t))
                 history)
    /\ get record "id"
       = Str ("T/" ++ Number_toString finite_toString (JS.Fin now)).
Proof.
  intros Hh Hp.
  pose proof (StatisticsFacts.history_of_current _ _ Hh) as Hget.
  unfold saveToTransactionHistory_redeclared. rewrite Hget.
  set (fields := [ ("id", _) ; _ ; _ ; _ ; _ ; _ ; _ ; _ ; _ ]).
  set (record :=
         List.flat_map
           (fun kv : string * value =>
              match kv with
              | (_, Undefined) => []
              | (key, w) => [(key, JSON_roundtrip w)]
              end) fields).
  assert (Hnd : List.NoDup (List.map fst fields)).
  { unfold fields. cbn [List.map fst]. HandlerFacts.distinct_keys. }
  assert (Hid : get record "id"
                = Str ("T/" ++ Number_toString finite_toString (JS.Fin now))).
  { unfold record. rewrite (HandlerFacts.get_roundtrip fields _ Hnd).
    reflexivity. }
  assert (Hjson : is_json (Obj record) = true)
    by apply (HandlerFacts.JSON_roundtrip_is_json (Obj fields)).
  assert (Hplain : plain_entry (Obj record) = true).
  { unfold plain_entry. rewrite Hjson. cbn [is_null negb andb as_object].
    rewrite Hid. reflexivity. }
  assert (Hkept : test_entry finite_toString (Obj record) = false).
  { unfold test_entry, id_startsWith. cbn [is_null as_object].
    rewrite Hid. reflexivity. }
  set (saved := setItem_json ls "transactionHistory"
                  (Arr (Obj fields :: history))).
  assert (Hsaved : getItem_parsed saved "transactionHistory"
                   = Arr (Obj record :: history)).
  { unfold saved, getItem_parsed, setItem_json. rewrite lookup_insert_eq.
    cbn [JSON_roundtrip List.map]. fold JSON_roundtrip.
    rewrite (StatisticsFacts.plain_is_json history Hp). reflexivity. }
  destruct (test_data_cleaned saved (Obj record :: history) Hsaved)
    as (cleared & Hrun & Hnone & Hsome & _);
    [constructor; assumption |].
  cbn [List.filter] in Hnone, Hsome. rewrite Hkept in Hnone, Hsome.
  cbn [negb] in Hsome.
  exists record, saved, cleared. split; [reflexivity |].
  split; [exact Hrun |]. split; [| exact Hid].
  unfold current_history.
  destruct (List.filter (test_entry finite_toString) history) eqn:E.
  - rewrite (Hnone eq_refl), Hsaved. do 2 f_equal.
    apply StatisticsFacts.nothing_to_remove, E.
  - rewrite Hsome by discriminate. reflexivity.
Qed.

End StatisticsTheorems.

(** ** The further properties on sample inputs *)

Lemma risk_score_at_least_070_witness :
  unit_interval half_draws
  /\ exists (p : Prediction) (k' : nat) (q : Q),
       generateEnhancedMockPrediction half_draws plain_toString quiet_form
         0%nat
       = JS.Normal (p, k')
       /\ risk_score p = JS.Fin q
       /\ 0.7 <= q <= 0.95.
Proof.
  split; [exact half_draws_unit_interval |].
  apply (risk_score_at_least_070 half_draws plain_toString quiet_form 0%nat).
  exact half_draws_unit_interval.
Defined.

Lemma risk_score_monotone_in_rules_witness :
  triggers_within quiet_form risky_form
  /\ exists (pa pb : Prediction) (ka kb : nat),
       generateEnhancedMockPrediction half_draws plain_toString quiet_form
         0%nat
       = JS.Normal (pa, ka)
       /\ generateEnhancedMockPrediction half_draws plain_toString
            risky_form 0%nat
          = JS.Normal (pb, kb)
       /\ (risk_score pa <= risk_score pb)%js = true.
Proof.
  assert (H : triggers_within quiet_form risky_form)
    by (repeat split; reflexivity).
  split; [exact H |].
  apply (risk_score_monotone_in_rules half_draws plain_toString quiet_form
           risky_form 0%nat H).
Defined.

Lemma explanation_matches_verdict_witness :
  unit_interval half_draws
  /\ exists (p : Prediction) (k' : nat) (s : string) (pool : list string),
       generateEnhancedMockPrediction half_draws plain_toString risky_form
         0%nat
       = JS.Normal (p, k')
       /\ llm_explanation p = Some s
       /\ property (explanations plain_toString risky_form)
            (if is_fraud p then "fraud" else "legitimate") = Some pool
       /\ In s pool.
Proof.
  split; [exact half_draws_unit_interval |].
  apply (explanation_matches_verdict half_draws plain_toString risky_form
           0%nat).
  exact half_draws_unit_interval.
Defined.

Lemma checkTransaction_refused_form_witness :
  (account_age_days zero_age_form > JS.Fin 0)%js = false
  /\ checkTransaction half_draws plain_toString one_decimal true noon noon
       zero_age_form (Some (Obj quiet_result_object)) fresh_page
     = (JS.Normal tt, fresh_page).
Proof.
  split; [reflexivity |].
  apply (checkTransaction_refused_form half_draws plain_toString one_decimal
           true noon noon
           zero_age_form (Some (Obj quiet_result_object)) fresh_page).
  right. right. left. reflexivity.
Defined.

Lemma checkTransaction_saves_one_record_witness :
  validateEnhancedTransactionForm quiet_form = true
  /\ current_history (localStorage fresh_page) = Some []
  /\ Forall renderable []
  /\ exists (record : object) (s' : page),
       checkTransaction half_draws plain_toString one_decimal true noon noon
         quiet_form (Some (Obj quiet_result_object)) fresh_page
       = (JS.Normal tt, s')
       /\ stored_history (localStorage s') = Some [Obj record].
Proof.
  assert (H1 : validateEnhancedTransactionForm quiet_form = true)
    by reflexivity.
  assert (H2 : current_history (localStorage fresh_page) = Some [])
    by reflexivity.
  assert (H3 : Forall renderable []) by constructor.
  split; [exact H1 |]. split; [exact H2 |]. split; [exact H3 |].
  apply (checkTransaction_saves_one_record half_draws plain_toString
           one_decimal true noon noon quiet_form (Some (Obj quiet_result_object)) fresh_page []
           H1 H2 H3).
Defined.

Lemma checkTransaction_fallback_saves_verdict_witness :
  validateEnhancedTransactionForm risky_form = true
  /\ current_history (localStorage fresh_page) = Some []
  /\ Forall renderable []
  /\ exists (p : Prediction) (k' : nat) (record : object) (s' : page),
       generateEnhancedMockPrediction half_draws plain_toString risky_form
         (draws_used fresh_page)
       = JS.Normal (p, k')
       /\ checkTransaction half_draws plain_toString one_decimal true noon noon
            risky_form None fresh_page
          = (JS.Normal tt, s')
       /\ stored_history (localStorage s') = Some [Obj record]
       /\ get record "customer_id" = Str (customer_id risky_form)
       /\ get record "is_fraud" = Bool (is_fraud p)
       /\ get record "risk_score" = Num (risk_score p)
       /\ get record "status"
          = Str (if is_fraud p then "Fraud" else "Legitimate")
       /\ get record "rules_triggered"
          = Arr (List.map Str (rules_triggered p)).
Proof.
  assert (H1 : validateEnhancedTransactionForm risky_form = true)
    by reflexivity.
  assert (H2 : current_history (localStorage fresh_page) = Some [])
    by reflexivity.
  assert (H3 : Forall renderable []) by constructor.
  split; [exact H1 |]. split; [exact H2 |]. split; [exact H3 |].
  apply (checkTransaction_fallback_saves_verdict half_draws plain_toString
           one_decimal true noon noon risky_form fresh_page [] H1 H2 H3).
Defined.

Lemma parseCSV_rows_have_the_headers_witness :
  parseCSV ragged_csv = JS.Normal ragged_dataset
  /\ In ragged_row (data ragged_dataset)
  /\ (forall h, In h (headers ragged_dataset) ->
      has_char double_quote h = false)
  /\ (forall h, In h (headers ragged_dataset) -> h <> "__proto__" ->
      exists v, ragged_row !! h = Some v /\ has_char double_quote v = false)
  /\ (forall k v, ragged_row !! k = Some v -> In k (headers ragged_dataset)).
Proof.
  assert (H1 : parseCSV ragged_csv = JS.Normal ragged_dataset)
    by (vm_compute; reflexivity).
  assert (H2 : In ragged_row (data ragged_dataset)).
  { apply list_elem_of_In, (list_elem_of_lookup_2 _ 0%nat).
    vm_compute. reflexivity. }
  split; [exact H1 |]. split; [exact H2 |].
  apply (parseCSV_rows_have_the_headers ragged_csv ragged_dataset ragged_row
           H1 H2).
Defined.

Lemma parseCSV_cells_by_position_witness :
  parseCSV ragged_csv = JS.Normal ragged_dataset
  /\ content_lines ragged_csv
     = "id, amount ,note" :: ["1,250"; "2,75.5,ok,extra"]
  /\ NoDup (headers ragged_dataset)
  /\ ["1,250"; "2,75.5,ok,extra"] !! 0%nat = Some "1,250"
  /\ data ragged_dataset !! 0%nat = Some ragged_row
  /\ headers ragged_dataset !! 2%nat = Some "note"
  /\ "note" <> "__proto__"
  /\ ragged_row !! "note"
     = Some (field_or_empty (List.map clean_field (split_on "," "1,250")) 2).
Proof.
  assert (H1 : parseCSV ragged_csv = JS.Normal ragged_dataset)
    by (vm_compute; reflexivity).
  assert (H2 : content_lines ragged_csv
               = "id, amount ,note" :: ["1,250"; "2,75.5,ok,extra"])
    by (vm_compute; reflexivity).
  assert (H3 : NoDup (headers ragged_dataset))
    by (refine (bool_decide_unpack _ _); vm_compute; exact I).
  assert (H4 : ["1,250"; "2,75.5,ok,extra"] !! 0%nat = Some "1,250")
    by reflexivity.
  assert (H5 : data ragged_dataset !! 0%nat = Some ragged_row)
    by (vm_compute; reflexivity).
  assert (H6 : headers ragged_dataset !! 2%nat = Some "note")
    by (vm_compute; reflexivity).
  assert (H7 : "note" <> "__proto__") by discriminate.
  repeat (split; [assumption |]).
  apply (parseCSV_cells_by_position ragged_csv ragged_dataset
           "id, amount ,note" "1,250" "note" ["1,250"; "2,75.5,ok,extra"]
           ragged_row 0 2 H1 H2 H3 H4 H5 H6 H7).
Defined.

Lemma missing_cards_are_positive_witness :
  In labelled_missing_card
    (displayMissingValues two_decimals labelled_dataset)
  /\ In (missing_header labelled_missing_card) (headers labelled_dataset)
  /\ missingCount labelled_missing_card
     = blank_cells (missing_header labelled_missing_card)
         (data labelled_dataset)
  /\ (0 < missingCount labelled_missing_card
      <= length (data labelled_dataset))%nat
  /\ exists x,
       missingPercentage labelled_missing_card = two_decimals x 2
       /\ 0 < x <= 100.
Proof.
  assert (H : In labelled_missing_card
                (displayMissingValues two_decimals labelled_dataset))
    by (vm_compute; left; reflexivity).
  split; [exact H |].
  apply (missing_cards_are_positive two_decimals labelled_dataset
           labelled_missing_card H).
Defined.


Lemma fraud_counts_partition_witness :
  List.filter (mentions ["fraud"; "is_fraud"; "class"; "target"])
    (headers labelled_dataset) = ["is_fraud"]
  /\ exists fraudCount fraudPercentage legitimate legitimatePercentage,
       displayFraudAnalysis two_decimals labelled_dataset
       = FraudCounts fraudCount fraudPercentage (JS.Fin legitimate)
           legitimatePercentage
       /\ (fraudCount
           <= length (column_values "is_fraud" (data labelled_dataset))
           <= length (data labelled_dataset))%nat
       /\ legitimate
          == inject_Z
               (Z.of_nat
                  (length (column_values "is_fraud" (data labelled_dataset))
                   - fraudCount))
       /\ if (0 <? length (column_values "is_fraud"
                             (data labelled_dataset)))%nat
          then
            exists x y,
              fraudPercentage = Str (two_decimals x 2)
              /\ legitimatePercentage = Str (two_decimals y 2)
              /\ 0 <= x <= 100
              /\ 0 <= y <= 100
              /\ (fraudCount = 0%nat -> x == 0 /\ y == 100)
              /\ (fraudCount
                  = length (column_values "is_fraud" (data labelled_dataset))
                  -> x == 100 /\ y == 0)
          else
            fraudPercentage = Num (JS.Fin 0)
            /\ legitimatePercentage = Num (JS.Fin 0).
Proof.
  assert (H : List.filter (mentions ["fraud"; "is_fraud"; "class"; "target"])
                (headers labelled_dataset) = ["is_fraud"])
    by (vm_compute; reflexivity).
  split; [exact H |].
  apply (fraud_counts_partition two_decimals labelled_dataset "is_fraud" []
           H).
Defined.





Lemma live_statistics_match_the_pie_witness :
  current_history tested_storage = Some tested_history
  /\ Forall (fun t => scored_entry t = true) tested_history
  /\ exists (stats : Live.statistics) (legitimate : Q),
       updateLiveStatistics plain_toString one_decimal tested_storage
       = JS.Normal stats
       /\ createFraudPieChart tested_storage
          = JS.Normal [JS.of_nat (Live.fraudCount stats); JS.Fin legitimate]
       /\ Live.totalTransactions stats = length tested_history
       /\ (Live.fraudCount stats <= Live.totalTransactions stats)%nat
       /\ legitimate
          == inject_Z
               (Z.of_nat
                  (Live.totalTransactions stats - Live.fraudCount stats))
       /\ if (0 <? length tested_history)%nat then
            exists x y,
              Live.fraudRate stats = Str (one_decimal x 1)
              /\ Live.avgRiskScore stats = Str (one_decimal y 1)
              /\ 0 <= x <= 100
              /\ 0 <= y <= 100
          else
            Live.fraudRate stats = Num (JS.Fin 0)
            /\ Live.avgRiskScore stats = Num (JS.Fin 0).
Proof.
  assert (H1 : current_history tested_storage = Some tested_history)
    by (vm_compute; reflexivity).
  assert (H2 : Forall (fun t => scored_entry t = true) tested_history)
    by (repeat constructor).
  split; [exact H1 |]. split; [exact H2 |].
  apply (live_statistics_match_the_pie plain_toString one_decimal
           tested_storage tested_history H1 H2).
Defined.

Lemma checkTransaction_counts_in_statistics_witness :
  validateEnhancedTransactionForm risky_form = true
  /\ current_history (localStorage fresh_page) = Some []
  /\ Forall renderable []
  /\ exists (p : Prediction) (k' : nat) (s' : page)
            (before after : Live.statistics),
       generateEnhancedMockPrediction half_draws plain_toString risky_form
         (draws_used fresh_page)
       = JS.Normal (p, k')
       /\ checkTransaction half_draws plain_toString one_decimal true noon noon
            risky_form None fresh_page
          = (JS.Normal tt, s')
       /\ updateLiveStatistics plain_toString one_decimal
            (localStorage fresh_page)
          = JS.Normal before
       /\ updateLiveStatistics plain_toString one_decimal (localStorage s')
          = JS.Normal after
       /\ Live.totalTransactions after = S (Live.totalTransactions before)
       /\ Live.fraudCount after
          = ((if is_fraud p then 1 else 0) + Live.fraudCount before)%nat.
Proof.
  assert (H1 : validateEnhancedTransactionForm risky_form = true)
    by reflexivity.
  assert (H2 : current_history (localStorage fresh_page) = Some [])
    by reflexivity.
  assert (H3 : Forall renderable []) by constructor.
  split; [exact H1 |]. split; [exact H2 |]. split; [exact H3 |].
  apply (checkTransaction_counts_in_statistics half_draws plain_toString
           one_decimal true noon noon risky_form fresh_page [] H1 H2 H3).
Defined.

Lemma clearTestData_removes_and_settles_witness :
  current_history tested_storage = Some tested_history
  /\ Forall (fun t => plain_entry t = true) tested_history
  /\ exists ls' : storage,
       test8_clearTestData plain_toString tested_storage = JS.Normal ls'
       /\ current_history ls'
          = Some
              (List.filter (fun t => negb (test_entry plain_toString t))
                 tested_history)
       /\ (forall key, key <> "transactionHistory" ->
           ls' !! key = tested_storage !! key)
       /\ test8_clearTestData plain_toString ls' = JS.Normal ls'.
Proof.
  assert (H1 : current_history tested_storage = Some tested_history)
    by (vm_compute; reflexivity).
  assert (H2 : Forall (fun t => plain_entry t = true) tested_history)
    by (repeat constructor).
  split; [exact H1 |]. split; [exact H2 |].
  apply (clearTestData_removes_and_settles plain_toString tested_storage
           tested_history H1 H2).
Defined.

Lemma saved_record_survives_cleanup_witness :
  current_history tested_storage = Some tested_history
  /\ Forall (fun t => plain_entry t = true) tested_history
  /\ exists (record : object) (saved cleared : storage),
       saveToTransactionHistory_redeclared noon.1 noon.2 plain_toString
         mockFormData mockResult tested_storage
       = JS.Normal saved
       /\ test8_clearTestData plain_toString saved = JS.Normal cleared
       /\ current_history cleared
          = Some
              (Obj record
               :: List.filter (fun t => negb (test_entry plain_toString t))
                    tested_history)
       /\ get record "id"
          = Str ("T/" ++ Number_toString plain_toString (JS.Fin noon.1)).
Proof.
  assert (H1 : current_history tested_storage = Some tested_history)
    by (vm_compute; reflexivity).
  assert (H2 : Forall (fun t => plain_entry t = true) tested_history)
    by (repeat constructor).
  split; [exact H1 |]. split; [exact H2 |].
  apply (saved_record_survives_cleanup plain_toString noon.1 noon.2
           mockFormData mockResult tested_storage tested_history H1 H2).
Defined.

